(** * Session engine of the quiz application: grading, scoring, room store

    A shallow embedding of [src/data/types.ts] and [src/data/inMemory.ts].

    Conventions of the embedding.
    - A JavaScript [number] is an exact rational ([Q]); IEEE rounding, NaN and
      the infinities are not modelled.  [===] on numbers is [Qeq_bool].  The
      module [Double] keeps the scoring arithmetic in binary64 and shows
      where the two part; statements that depend on exact sums carry
      [addedExactly].
    - A JavaScript string is a [string] of ASCII code units; [trim] and
      [toLowerCase] act on the ASCII white space and the letters A-Z.
      Statements about whole texts are made for texts of [isAsciiChar].
    - A JavaScript object used as a dictionary ([Record<string, T>]) is an
      association list in insertion order, read with [assocGet] and written
      with [assocSet].  A read of a key that names a member of
      [Object.prototype] and is no own property is outside the model:
      statements about absent keys carry [inheritedName k = false], and
      [reachablePlain] are the databases built without such keys.
    - [Date.now()], [generateId] and [Math.random] are inputs of the
      operations that call them.
    - [structuredClone] is the identity on the immutable values used here.
    - A [throw] is the [Throw] result; every [throw] of the source comes
      before the first mutation of its function, so a thrown call leaves the
      database as it was. *)

From Stdlib Require Import List String Ascii Bool ZArith QArith Qround Qminmax.
From Stdlib Require Import Qabs DecimalString Permutation Sorted Lia Lqa.
From Stdlib Require Floats.PrimFloat Floats.SpecFloat Floats.FloatOps.
Import ListNotations.
Set Warnings "-register-all,-inexact-float".
Open Scope string_scope.
Open Scope list_scope.
Open Scope Z_scope.
Open Scope Q_scope.

(* ------------------------------------------------------------------ *)
(** ** Strings *)

Definition isWhiteSpace (c : ascii) : bool :=
  let n := nat_of_ascii c in
  ((9 <=? n) && (n <=? 13))%nat || (n =? 32)%nat.

Definition isUpper (c : ascii) : bool :=
  let n := nat_of_ascii c in ((65 <=? n) && (n <=? 90))%nat.

Definition isLower (c : ascii) : bool :=
  let n := nat_of_ascii c in ((97 <=? n) && (n <=? 122))%nat.

Definition isDigit (c : ascii) : bool :=
  let n := nat_of_ascii c in ((48 <=? n) && (n <=? 57))%nat.

Definition lowerChar (c : ascii) : ascii :=
  if isUpper c then ascii_of_nat (nat_of_ascii c + 32) else c.

Fixpoint trimStart (s : string) : string :=
  match s with
  | EmptyString => EmptyString
  | String c r => if isWhiteSpace c then trimStart r else s
  end.

Fixpoint trimEnd (s : string) : string :=
  match s with
  | EmptyString => EmptyString
  | String c r =>
      match trimEnd r with
      | EmptyString => if isWhiteSpace c then EmptyString else String c EmptyString
      | r' => String c r'
      end
  end.

(** [String.prototype.trim] *)
Definition trim (s : string) : string := trimEnd (trimStart s).

(** [String.prototype.toLowerCase] *)
Fixpoint toLowerCase (s : string) : string :=
  match s with
  | EmptyString => EmptyString
  | String c r => String (lowerChar c) (toLowerCase r)
  end.

(** inMemory.ts, [normalizeString] *)
Definition normalizeString (value : string) : string :=
  toLowerCase (trim value).

(* ------------------------------------------------------------------ *)
(** ** Dictionaries in insertion order *)

Section Assoc.
Context {V : Type}.

(** [obj[k]], [None] standing for [undefined] *)
Fixpoint assocGet (k : string) (l : list (string * V)) : option V :=
  match l with
  | [] => None
  | (k', v) :: r => if String.eqb k' k then Some v else assocGet k r
  end.

(** [obj[k] = v]: overwrite in place, or add the key at the end *)
Fixpoint assocSet (k : string) (v : V) (l : list (string * V)) : list (string * V) :=
  match l with
  | [] => [(k, v)]
  | (k', v') :: r =>
      if String.eqb k' k then (k', v) :: r else (k', v') :: assocSet k v r
  end.
End Assoc.

(* ------------------------------------------------------------------ *)
(** ** Submitted values ([unknown]) *)

(** The values an answer form can submit: an index, a text, a mapping of
    texts, and the other values of JSON.  [structuredClone] copies every one
    of them, so the clones made after a write do not throw. *)
Inductive JsValue : Type :=
| JUndefined
| JNull
| JBool (b : bool)
| JNum (n : Q)
| JStr (s : string)
| JObj (props : list (string * JsValue)).

(** [typeof v === 'object'] *)
Definition typeofObject (v : JsValue) : bool :=
  match v with JNull | JObj _ => true | _ => false end.

(** [!v] *)
Definition falsy (v : JsValue) : bool :=
  match v with
  | JUndefined | JNull => true
  | JBool b => negb b
  | JNum n => Qeq_bool n 0
  | JStr s => String.eqb s ""
  | JObj _ => false
  end.

(** [v[k]] on a submitted value; a missing property reads [undefined] *)
Definition getProp (v : JsValue) (k : string) : JsValue :=
  match v with
  | JObj props => match assocGet k props with Some x => x | None => JUndefined end
  | _ => JUndefined
  end.

(** [a === b].  Objects compare by reference; no two values of the model
    are the same object, so two [JObj] are never strictly equal. *)
Definition strictEquals (a b : JsValue) : bool :=
  match a, b with
  | JUndefined, JUndefined => true
  | JNull, JNull => true
  | JBool x, JBool y => Bool.eqb x y
  | JNum x, JNum y => Qeq_bool x y
  | JStr x, JStr y => String.eqb x y
  | _, _ => false
  end.

(* ------------------------------------------------------------------ *)
(** ** types.ts *)

Record BaseQuestion : Type := mkBase {
  q_id : string;
  prompt : string;
  points : option Q;
  timeLimitSec : option Q
}.

Record DragItem : Type := mkDragItem { item_id : string; label : string }.

(** [Question = MCQQuestion | DragDropQuestion | FillBlankQuestion],
    the [type] field being the constructor. *)
Inductive Question : Type :=
| MCQQuestion (base : BaseQuestion) (options : list string) (correctIndex : Q)
| DragDropQuestion (base : BaseQuestion) (items targets : list DragItem)
    (correctMapping : list (string * string))
| FillBlankQuestion (base : BaseQuestion) (expectedAnswer : string).

Definition baseOf (q : Question) : BaseQuestion :=
  match q with
  | MCQQuestion b _ _ => b
  | DragDropQuestion b _ _ _ => b
  | FillBlankQuestion b _ => b
  end.

Record Quiz : Type := mkQuiz {
  quiz_id : string;
  title : string;
  questions : list Question;
  quiz_createdAt : Z
}.

Record Participant : Type := mkParticipant {
  p_id : string;
  p_name : string;
  score : Q;
  answeredQuestionIds : list string
}.

Inductive RoomStatus : Type := lobby | running | finished.

Record SubmittedAnswer : Type := mkAnswer {
  a_questionId : string;
  a_participantId : string;
  a_value : JsValue;
  isCorrect : bool;
  a_timeTakenSec : option Q;
  submittedAt : Z;
  pointsAwarded : Q
}.

Record Room : Type := mkRoom {
  room_id : string;
  code : string;
  quizId : string;
  status : RoomStatus;
  currentQuestionIndex : Z;
  participants : list Participant;
  answers : list (string * list SubmittedAnswer);
  room_createdAt : Z
}.

(** [db.quizzes[room.quizId]!] is [undefined] when the quiz is missing,
    hence the option. *)
Record RoomSnapshot : Type := mkSnap {
  snap_room : Room;
  snap_quiz : option Quiz
}.

Record JoinRoomResult : Type := mkJoin {
  join_room : Room;
  join_participant : Participant;
  join_quiz : option Quiz
}.

(** The alphabet of [generateRoomCode]. *)
Definition letters : string := "ABCDEFGHJKLMNPQRSTUVWXYZ23456789".

(** [code += letters[i]]: an index outside the string reads [undefined],
    which [+=] appends as the text "undefined". *)
Definition charAt (s : string) (i : Z) : string :=
  if (i <? 0)%Z then "undefined"
  else match String.get (Z.to_nat i) s with
       | Some c => String c EmptyString
       | None => "undefined"
       end.

(** types.ts, [generateRoomCode]; [rnd i] is the value of the [i]-th call of
    [Math.random]. *)
Fixpoint generateRoomCodeFrom (rnd : nat -> Q) (i n : nat) : string :=
  match n with
  | O => EmptyString
  | S n' =>
      String.append
        (charAt letters (Qfloor (rnd i * inject_Z (Z.of_nat (String.length letters)))))
        (generateRoomCodeFrom rnd (S i) n')
  end.

Definition generateRoomCode (rnd : nat -> Q) : string :=
  generateRoomCodeFrom rnd 0 6.

(* ------------------------------------------------------------------ *)
(** ** Grading and scoring (inMemory.ts) *)

(** [expected[k]] for the canonical mapping of a drag question *)
Definition recordGet (r : list (string * string)) (k : string) : JsValue :=
  match assocGet k r with Some t => JStr t | None => JUndefined end.

(** [Object.keys] *)
Definition objectKeys {V : Type} (r : list (string * V)) : list string :=
  map fst r.

(** inMemory.ts, [isAnswerCorrect] *)
Definition isAnswerCorrect (question : Question) (value : JsValue) : bool :=
  match question with
  | MCQQuestion _ _ correctIndex => strictEquals value (JNum correctIndex)
  | FillBlankQuestion _ expectedAnswer =>
      match value with
      | JStr s => String.eqb (normalizeString s) (normalizeString expectedAnswer)
      | _ => false
      end
  | DragDropQuestion _ _ _ expected =>
      if falsy value || negb (typeofObject value) then false
      else forallb (fun k => strictEquals (getProp value k) (recordGet expected k))
                   (objectKeys expected)
  end.

(** [Math.round]: the nearest integer, halves going up *)
Definition mathRound (x : Q) : Z := Qfloor (x + (1 # 2)).

(** [question.points ?? 10] *)
Definition basePoints (question : Question) : Q :=
  match points (baseOf question) with Some p => p | None => 10 end.

(** inMemory.ts, [calculatePoints] *)
Definition calculatePoints (question : Question) (correct : bool)
    (timeTakenSec : option Q) : Q :=
  if negb correct then 0
  else
    let base := basePoints question in
    match timeLimitSec (baseOf question), timeTakenSec with
    | Some limit, Some taken =>
        if Qeq_bool limit 0 then base
        else
          let fraction := Qmax (1 # 2) (1 - Qmax 0 taken / limit) in
          inject_Z (mathRound (base * fraction))
    | _, _ => base
    end.


(* ------------------------------------------------------------------ *)
(** ** The in-memory database (inMemory.ts) *)

(** A subscribed callback; a [Set<Listener>] is a duplicate-free list in
    insertion order. *)
Definition Listener : Type := nat.

Record InMemoryDb : Type := mkDb {
  quizzes : list (string * Quiz);
  rooms : list (string * Room);
  listeners : list (string * list Listener)
}.

(** [const db = { quizzes: {}, rooms: {}, listeners: {} }] *)
Definition emptyDb : InMemoryDb := mkDb [] [] [].

(** One call [cb(snapshot)]. *)
Definition Delivery : Type := (Listener * RoomSnapshot)%type.

Inductive Error : Type :=
| QuizNotFound
| RoomNotFound
| QuestionNotFound
| TypeError.

(** The text of [new Error(...)]; [TypeError] is the engine's own exception
    for reading a property of [undefined]. *)
Definition message (e : Error) : string :=
  match e with
  | QuizNotFound => "Quiz not found"
  | RoomNotFound => "Room not found"
  | QuestionNotFound => "Question not found"
  | TypeError => "Cannot read properties of undefined"
  end.

Inductive Result (A : Type) : Type :=
| Ok (a : A)
| Throw (e : Error).
Arguments Ok {A} a.
Arguments Throw {A} e.

(** Field assignments on a room and on a participant. *)
Definition setStatus (s : RoomStatus) (r : Room) : Room :=
  mkRoom (room_id r) (code r) (quizId r) s (currentQuestionIndex r)
         (participants r) (answers r) (room_createdAt r).

Definition setIndex (i : Z) (r : Room) : Room :=
  mkRoom (room_id r) (code r) (quizId r) (status r) i
         (participants r) (answers r) (room_createdAt r).

Definition setParticipants (ps : list Participant) (r : Room) : Room :=
  mkRoom (room_id r) (code r) (quizId r) (status r) (currentQuestionIndex r)
         ps (answers r) (room_createdAt r).

Definition setAnswers (a : list (string * list SubmittedAnswer)) (r : Room) : Room :=
  mkRoom (room_id r) (code r) (quizId r) (status r) (currentQuestionIndex r)
         (participants r) a (room_createdAt r).

Definition setRooms (rs : list (string * Room)) (db : InMemoryDb) : InMemoryDb :=
  mkDb (quizzes db) rs (listeners db).

Definition snapshotOf (db : InMemoryDb) (room : Room) : RoomSnapshot :=
  mkSnap room (assocGet (quizId room) (quizzes db)).

(** inMemory.ts, [notify]: the calls made, in the order of the set *)
Definition notify (db : InMemoryDb) (roomId : string) : list Delivery :=
  match assocGet roomId (rooms db) with
  | None => []
  | Some room =>
      match assocGet roomId (listeners db) with
      | Some ls => map (fun cb => (cb, snapshotOf db room)) ls
      | None => []
      end
  end.

(** [createQuiz]; [id] is the value of [generateId('quiz')]. *)
Definition createQuiz (db : InMemoryDb) (id : string) (now : Z)
    (payloadTitle : string) (payloadQuestions : list Question)
  : InMemoryDb * Quiz :=
  let quiz := mkQuiz id payloadTitle payloadQuestions now in
  (mkDb (assocSet id quiz (quizzes db)) (rooms db) (listeners db), quiz).

(** [createRoom]; [id] is the value of [generateId('room')]. *)
Definition createRoom (db : InMemoryDb) (quizId : string) (id : string)
    (rnd : nat -> Q) (now : Z)
  : Result (InMemoryDb * list Delivery * Room) :=
  match assocGet quizId (quizzes db) with
  | None => Throw QuizNotFound
  | Some _ =>
      let room := mkRoom id (generateRoomCode rnd) quizId lobby (-1) [] [] now in
      let db' := mkDb (quizzes db) (assocSet id room (rooms db))
                      (assocSet id [] (listeners db)) in
      Ok (db', notify db' id, room)
  end.

(** [Object.values(db.rooms).find((r) => r.code === code)] *)
Definition findRoomByCode (db : InMemoryDb) (c : string) : option Room :=
  find (fun r => String.eqb (code r) c) (map snd (rooms db)).

(** [getRoomByCode]; [None] is [null]. *)
Definition getRoomByCode (db : InMemoryDb) (c : string) : option RoomSnapshot :=
  match findRoomByCode db c with
  | None => None
  | Some room => Some (snapshotOf db room)
  end.

(** [getRoom] *)
Definition getRoom (db : InMemoryDb) (roomId : string) : option RoomSnapshot :=
  match assocGet roomId (rooms db) with
  | None => None
  | Some room => Some (snapshotOf db room)
  end.

(** [joinRoom]; [participantId] is the value of [generateId('p')]. *)
Definition joinRoom (db : InMemoryDb) (c name : string) (participantId : string)
  : Result (InMemoryDb * list Delivery * JoinRoomResult) :=
  match getRoomByCode db c with
  | None => Throw RoomNotFound
  | Some snap =>
      let participant := mkParticipant participantId name 0 [] in
      match assocGet (room_id (snap_room snap)) (rooms db) with
      | None => Throw TypeError
      | Some room =>
          let room' := setParticipants (participants room ++ [participant]) room in
          let db' := setRooms (assocSet (room_id (snap_room snap)) room' (rooms db)) db in
          Ok (db', notify db' (room_id room'),
              mkJoin room' participant (snap_quiz snap))
      end
  end.

(** [startQuiz] *)
Definition startQuiz (db : InMemoryDb) (roomId : string)
  : Result (InMemoryDb * list Delivery) :=
  match assocGet roomId (rooms db) with
  | None => Throw RoomNotFound
  | Some room =>
      let room' := setIndex 0 (setStatus running room) in
      let db' := setRooms (assocSet roomId room' (rooms db)) db in
      Ok (db', notify db' roomId)
  end.

(** [goToNextQuestion] *)
Definition goToNextQuestion (db : InMemoryDb) (roomId : string)
  : Result (InMemoryDb * list Delivery) :=
  match assocGet roomId (rooms db) with
  | None => Throw RoomNotFound
  | Some room =>
      match assocGet (quizId room) (quizzes db) with
      | None => Throw TypeError
      | Some quiz =>
          let room' :=
            if (currentQuestionIndex room <? Z.of_nat (List.length (questions quiz)) - 1)%Z
            then setIndex (currentQuestionIndex room + 1)%Z room
            else setStatus finished room in
          let db' := setRooms (assocSet roomId room' (rooms db)) db in
          Ok (db', notify db' roomId)
      end
  end.

(** [finishQuiz] *)
Definition finishQuiz (db : InMemoryDb) (roomId : string)
  : Result (InMemoryDb * list Delivery) :=
  match assocGet roomId (rooms db) with
  | None => Throw RoomNotFound
  | Some room =>
      let room' := setStatus finished room in
      let db' := setRooms (assocSet roomId room' (rooms db)) db in
      Ok (db', notify db' roomId)
  end.

(** [participant.answeredQuestionIds.includes(questionId)] *)
Definition includes (l : list string) (x : string) : bool :=
  existsb (String.eqb x) l.

(** The body of [if (participant) { ... }] in [submitAnswer]. *)
Definition creditParticipant (questionId : string) (pts : Q) (p : Participant)
  : Participant :=
  mkParticipant (p_id p) (p_name p) (score p + pts)
    (if includes (answeredQuestionIds p) questionId
     then answeredQuestionIds p
     else answeredQuestionIds p ++ [questionId]).

(** [room.participants.find((p) => p.id === participantId)] followed by the
    mutation of the participant found: the first match is the one updated. *)
Fixpoint creditFirst (participantId questionId : string) (pts : Q)
    (ps : list Participant) : list Participant :=
  match ps with
  | [] => []
  | p :: r =>
      if String.eqb (p_id p) participantId
      then creditParticipant questionId pts p :: r
      else p :: creditFirst participantId questionId pts r
  end.

Definition findParticipant (participantId : string) (ps : list Participant)
  : option Participant :=
  find (fun p => String.eqb (p_id p) participantId) ps.

Definition findQuestion (questionId : string) (qs : list Question) : option Question :=
  find (fun q => String.eqb (q_id (baseOf q)) questionId) qs.

(** [room.answers[questionId] || []] *)
Definition answersFor (room : Room) (questionId : string) : list SubmittedAnswer :=
  match assocGet questionId (answers room) with Some l => l | None => [] end.

(** [submitAnswer] *)
Definition submitAnswer (db : InMemoryDb) (roomId participantId questionId : string)
    (value : JsValue) (timeTakenSec : option Q) (now : Z)
  : Result (InMemoryDb * list Delivery * SubmittedAnswer) :=
  match assocGet roomId (rooms db) with
  | None => Throw RoomNotFound
  | Some room =>
      match assocGet (quizId room) (quizzes db) with
      | None => Throw TypeError
      | Some quiz =>
          match findQuestion questionId (questions quiz) with
          | None => Throw QuestionNotFound
          | Some question =>
              let correct := isAnswerCorrect question value in
              let pts := calculatePoints question correct timeTakenSec in
              let answer :=
                mkAnswer questionId participantId value correct timeTakenSec now pts in
              let room1 :=
                setAnswers
                  (assocSet questionId (answersFor room questionId ++ [answer])
                            (answers room)) room in
              let room2 :=
                setParticipants
                  (creditFirst participantId questionId pts (participants room1))
                  room1 in
              let db' := setRooms (assocSet roomId room2 (rooms db)) db in
              Ok (db', notify db' roomId, answer)
          end
      end
  end.

(** [set.add(cb)] *)
Definition setAdd (cb : Listener) (ls : list Listener) : list Listener :=
  if existsb (Nat.eqb cb) ls then ls else ls ++ [cb].

(** [onRoomUpdate]: the new database and the calls of [cb] made before it
    returns.  The unsubscribe closure it returns is not part of the model. *)
Definition onRoomUpdate (db : InMemoryDb) (roomId : string) (cb : Listener)
  : InMemoryDb * list Delivery :=
  let set := match assocGet roomId (listeners db) with Some ls => ls | None => [] end in
  let db' := mkDb (quizzes db) (rooms db)
                  (assocSet roomId (setAdd cb set) (listeners db)) in
  (db',
   match assocGet roomId (rooms db') with
   | Some room => [(cb, snapshotOf db' room)]
   | None => []
   end).

(* ------------------------------------------------------------------ *)
(** ** Sequences of calls *)

Inductive Op : Type :=
| CreateQuiz (id : string) (now : Z) (payloadTitle : string)
    (payloadQuestions : list Question)
| CreateRoom (quizId id : string) (rnd : nat -> Q) (now : Z)
| JoinRoom (c name participantId : string)
| StartQuiz (roomId : string)
| GoToNextQuestion (roomId : string)
| FinishQuiz (roomId : string)
| SubmitAnswer (roomId participantId questionId : string) (value : JsValue)
    (timeTakenSec : option Q) (now : Z)
| OnRoomUpdate (roomId : string) (cb : Listener).

Definition dropResult {A : Type} (db : InMemoryDb)
    (r : Result (InMemoryDb * list Delivery * A)) : InMemoryDb * list Delivery :=
  match r with
  | Ok (db', out, _) => (db', out)
  | Throw _ => (db, [])
  end.

Definition orUnchanged (db : InMemoryDb) (r : Result (InMemoryDb * list Delivery))
  : InMemoryDb * list Delivery :=
  match r with
  | Ok x => x
  | Throw _ => (db, [])
  end.

(** One call: the database after it and the snapshots it pushed.  A call
    that throws changes nothing. *)
Definition step (db : InMemoryDb) (op : Op) : InMemoryDb * list Delivery :=
  match op with
  | CreateQuiz id now t qs => (fst (createQuiz db id now t qs), [])
  | CreateRoom quizId id rnd now => dropResult db (createRoom db quizId id rnd now)
  | JoinRoom c name pid => dropResult db (joinRoom db c name pid)
  | StartQuiz roomId => orUnchanged db (startQuiz db roomId)
  | GoToNextQuestion roomId => orUnchanged db (goToNextQuestion db roomId)
  | FinishQuiz roomId => orUnchanged db (finishQuiz db roomId)
  | SubmitAnswer roomId pid qid v t now =>
      dropResult db (submitAnswer db roomId pid qid v t now)
  | OnRoomUpdate roomId cb => onRoomUpdate db roomId cb
  end.

Fixpoint runOps (db : InMemoryDb) (ops : list Op) : InMemoryDb * list Delivery :=
  match ops with
  | [] => (db, [])
  | op :: rest =>
      let (db1, out1) := step db op in
      let (db2, out2) := runOps db1 rest in
      (db2, out1 ++ out2)
  end.

(** All answers recorded in a room, question by question. *)
Definition allAnswers (room : Room) : list SubmittedAnswer :=
  flat_map snd (answers room).

(** [generateId] returns an identifier that is in use nowhere in the
    database: the assumption under which the calls below are composed. *)
Definition idUsedInRoom (pid : string) (room : Room) : bool :=
  existsb (fun p => String.eqb (p_id p) pid) (participants room)
  || existsb (fun a => String.eqb (a_participantId a) pid) (allAnswers room).

Definition freshOp (db : InMemoryDb) (op : Op) : bool :=
  match op with
  | CreateQuiz id _ _ _ =>
      match assocGet id (quizzes db) with None => true | Some _ => false end
  | CreateRoom _ id _ _ =>
      match assocGet id (rooms db) with None => true | Some _ => false end
  | JoinRoom _ _ pid => negb (existsb (idUsedInRoom pid) (map snd (rooms db)))
  | _ => true
  end.

(** The databases that the calls can build from the empty one. *)
Inductive reachable : InMemoryDb -> Prop :=
| reach_empty : reachable emptyDb
| reach_step db op :
    reachable db -> freshOp db op = true -> reachable (fst (step db op)).

Fixpoint freshOps (db : InMemoryDb) (ops : list Op) : bool :=
  match ops with
  | [] => true
  | op :: rest => freshOp db op && freshOps (fst (step db op)) rest
  end.

(** The participant's share of the points recorded in a list of answers. *)
Fixpoint sumPoints (pid : string) (l : list SubmittedAnswer) : Q :=
  match l with
  | [] => 0
  | a :: r =>
      if String.eqb (a_participantId a) pid
      then pointsAwarded a + sumPoints pid r
      else sumPoints pid r
  end.

(** Position of a status along lobby, running, finished. *)
Definition statusRank (s : RoomStatus) : nat :=
  match s with lobby => 0 | running => 1 | finished => 2 end.

(* ------------------------------------------------------------------ *)
(** ** The grading and scoring rules as the specification words them *)



(** Match grading as specified: the submitted mapping gives the canonical
    target for every item and has no entry outside the canonical pairing. *)
Definition gradeMatchExact (expected : list (string * string)) (v : JsValue) : bool :=
  match v with
  | JObj props =>
      forallb (fun k => strictEquals (getProp v k) (recordGet expected k))
              (objectKeys expected)
      && forallb (fun k => existsb (String.eqb k) (objectKeys expected))
                 (objectKeys props)
  | _ => false
  end.

(* ------------------------------------------------------------------ *)
(** ** Sample data *)

(** The multiple-choice scenario: 10 points, 30 seconds, option 2 correct. *)
Definition sampleMcq : Question :=
  MCQQuestion (mkBase "q1" "Which is a prime number?" (Some 10) (Some 30))
              ["9"; "12"; "13"; "21"] 2.



Definition sampleFill : Question :=
  FillBlankQuestion (mkBase "q2" "6 x 7 = ?" None None) "42".

Definition samplePairs : list (string * string) := [("A", "1"); ("B", "2")].

Definition sampleDrag : Question :=
  DragDropQuestion (mkBase "q3" "Match the pairs" None None) [] [] samplePairs.

Definition mappingWithExtra : JsValue :=
  JObj [("A", JStr "1"); ("B", JStr "2"); ("C", JStr "3")].

(** Readers used to state what a call changed. *)
Definition scoreOf (db : InMemoryDb) (roomId participantId : string) : option Q :=
  match assocGet roomId (rooms db) with
  | Some room => option_map score (findParticipant participantId (participants room))
  | None => None
  end.

Definition answersOf (db : InMemoryDb) (roomId questionId : string)
  : list SubmittedAnswer :=
  match assocGet roomId (rooms db) with
  | Some room => answersFor room questionId
  | None => []
  end.

Definition statusOf (db : InMemoryDb) (roomId : string) : option RoomStatus :=
  option_map status (assocGet roomId (rooms db)).

Definition indexOf (db : InMemoryDb) (roomId : string) : option Z :=
  option_map currentQuestionIndex (assocGet roomId (rooms db)).

Definition participantIdsOf (db : InMemoryDb) (roomId : string) : list string :=
  match assocGet roomId (rooms db) with
  | Some room => map p_id (participants room)
  | None => []
  end.

(** A session: one quiz of three questions, one room, one participant. *)
Definition zeroDraws : nat -> Q := fun _ => 0.

Definition setupOps : list Op :=
  [ CreateQuiz "quiz_1" 1000 "Sample Quiz" [sampleMcq; sampleFill; sampleDrag];
    CreateRoom "quiz_1" "room_1" zeroDraws 1001;
    JoinRoom "AAAAAA" "Ann" "p_1" ].

(** The room in the lobby, with Ann in it. *)
Definition dbLobby : InMemoryDb := fst (runOps emptyDb setupOps).

(** The quiz started: first question on display. *)
Definition dbRunning : InMemoryDb := fst (step dbLobby (StartQuiz "room_1")).

(** Ann has answered the first question, correctly and at once. *)
Definition dbAnswered : InMemoryDb :=
  fst (step dbRunning (SubmitAnswer "room_1" "p_1" "q1" (JNum 2) (Some 0) 1002)).

(** The moderator moved on to the second question. *)
Definition dbSecondQuestion : InMemoryDb :=
  fst (step dbAnswered (GoToNextQuestion "room_1")).

(** The moderator ended the quiz while the first question was on display. *)
Definition dbFinished : InMemoryDb :=
  fst (step dbAnswered (FinishQuiz "room_1")).

(** Is the call a [startQuiz] of this room? *)
Definition startsRoom (roomId : string) (op : Op) : bool :=
  match op with
  | StartQuiz r => String.eqb r roomId
  | _ => false
  end.

(** What one call can do to a room that exists. *)
Inductive roomChange (room : Room) : Room -> Prop :=
| rc_same : roomChange room room
| rc_join pid name :
    idUsedInRoom pid room = false ->
    roomChange room
      (setParticipants (participants room ++ [mkParticipant pid name 0 []]) room)
| rc_start : roomChange room (setIndex 0 (setStatus running room))
| rc_next i : roomChange room (setIndex i room)
| rc_finish : roomChange room (setStatus finished room)
| rc_submit a :
    roomChange room
      (setParticipants
         (creditFirst (a_participantId a) (a_questionId a) (pointsAwarded a)
                      (participants room))
         (setAnswers
            (assocSet (a_questionId a)
                      (answersFor room (a_questionId a) ++ [a]) (answers room))
            room)).

(** The score invariant of a room: participant ids are pairwise distinct and
    every score is the sum of the points of that participant's answers. *)
Definition scoresMatchAnswers (room : Room) : Prop :=
  NoDup (map p_id (participants room))
  /\ forall p, In p (participants room) ->
               score p == sumPoints (p_id p) (allAnswers room).

(** A session with two graded answers of Ann: the first question answered
    correctly after 15 of its 30 seconds, the second without a time. *)
Definition scoredOps : list Op :=
  setupOps
  ++ [ StartQuiz "room_1";
       SubmitAnswer "room_1" "p_1" "q1" (JNum 2) (Some 15) 1002;
       GoToNextQuestion "room_1";
       SubmitAnswer "room_1" "p_1" "q2" (JStr " 42 ") None 1003 ].

Definition dbScored : InMemoryDb := fst (runOps emptyDb scoredOps).

(** Every character of the string passes the test. *)
Fixpoint stringForall (f : ascii -> bool) (s : string) : bool :=
  match s with
  | EmptyString => true
  | String c r => f c && stringForall f r
  end.

(** Some character of the string passes the test. *)
Fixpoint stringExists (f : ascii -> bool) (s : string) : bool :=
  match s with
  | EmptyString => false
  | String c r => f c || stringExists f r
  end.

Definition isUpperOrDigit (c : ascii) : bool := isUpper c || isDigit c.

(** Draws 0, 1/7, 2/7, ..., which yield the code "AEKPUY". *)
Definition seventhDraws : nat -> Q := fun i => Z.of_nat (i mod 7) # 7.

(** Calls made on the room after it has finished, none of them a
    [startQuiz]. *)
Definition afterFinishOps : list Op :=
  [ JoinRoom "AAAAAA" "Bob" "p_2";
    GoToNextQuestion "room_1";
    SubmitAnswer "room_1" "p_2" "q2" (JStr "42") None 1004;
    FinishQuiz "room_1" ].

(* ------------------------------------------------------------------ *)
(** ** Further readers of the database *)

(** The callbacks subscribed to a room, in the order of the set. *)
Definition listenersOf (db : InMemoryDb) (roomId : string) : list Listener :=
  match assocGet roomId (listeners db) with Some ls => ls | None => [] end.

(** The key of [db.rooms] a call writes to, if it writes to any. *)
Definition targetOf (db : InMemoryDb) (op : Op) : option string :=
  match op with
  | CreateQuiz _ _ _ _ => None
  | CreateRoom _ id _ _ => Some id
  | JoinRoom c _ _ => option_map room_id (findRoomByCode db c)
  | StartQuiz r => Some r
  | GoToNextQuestion r => Some r
  | FinishQuiz r => Some r
  | SubmitAnswer r _ _ _ _ _ => Some r
  | OnRoomUpdate _ _ => None
  end.

(** Every room sits under its own id, and no id is used twice. *)
Definition storeWellKeyed (db : InMemoryDb) : Prop :=
  NoDup (map fst (rooms db))
  /\ forall k r, In (k, r) (rooms db) -> room_id r = k.

(** The sample session with one callback that subscribed twice to the room. *)
Definition twiceSubscribedOps : list Op :=
  setupOps ++ [OnRoomUpdate "room_1" 7%nat; OnRoomUpdate "room_1" 7%nat].

Definition dbTwiceSubscribed : InMemoryDb := fst (runOps emptyDb twiceSubscribedOps).

(** StudentRoom.tsx, [activeQuestion]: the question on display, none while
    the index is negative or past the questions. *)
Definition activeQuestion (room : Room) (quiz : Quiz) : option Question :=
  if (currentQuestionIndex room <? 0)%Z then None
  else nth_error (questions quiz) (Z.to_nat (currentQuestionIndex room)).


(** The calls of a moderator who starts the quiz and presses "next" [k]
    times. *)
Definition startThenNext (roomId : string) (k : nat) : list Op :=
  StartQuiz roomId :: repeat (GoToNextQuestion roomId) k.

(** The index of a room is between -1 and the index of the last question of
    its quiz (0 for a quiz without questions), and not negative while the
    room is running. *)
Definition indexInRange (db : InMemoryDb) (room : Room) : Prop :=
  exists quiz,
    assocGet (quizId room) (quizzes db) = Some quiz
    /\ (-1 <= currentQuestionIndex room
        <= Z.max 0 (Z.of_nat (List.length (questions quiz)) - 1))%Z
    /\ (status room = running -> 0 <= currentQuestionIndex room)%Z.

(** No question of the database is worth a negative number of points. *)
Definition pointsNonNegative (db : InMemoryDb) : Prop :=
  forall quizId quiz q,
    assocGet quizId (quizzes db) = Some quiz ->
    In q (questions quiz) ->
    0 <= basePoints q.


(* ------------------------------------------------------------------ *)
(** ** Callers in the pages *)

Definition upperChar (c : ascii) : ascii :=
  if isLower c then ascii_of_nat (nat_of_ascii c - 32) else c.

(** [String.prototype.toUpperCase] *)
Fixpoint toUpperCase (s : string) : string :=
  match s with
  | EmptyString => EmptyString
  | String c r => String (upperChar c) (toUpperCase r)
  end.

(** StudentJoin.tsx, [handleJoin]: the call that reaches [joinRoom] for the
    texts typed into the two fields,
    [joinRoom(code.trim().toUpperCase(), name.trim())]. *)
Definition handleJoin (db : InMemoryDb) (codeField nameField : string)
    (participantId : string)
  : Result (InMemoryDb * list Delivery * JoinRoomResult) :=
  joinRoom db (toUpperCase (trim codeField)) (trim nameField) participantId.

(** The look-alike characters left out of the code alphabet. *)
Definition isLookAlike (c : ascii) : bool :=
  existsb (Ascii.eqb c) ["I"; "O"; "0"; "1"]%char.

(** TeacherRoom.tsx and exporters.ts, the leaderboard:
    [participants.slice().sort((a, b) => b.score - a.score)].  [sort] is
    stable, so its result is the arrangement by falling score in which
    participants of equal score keep their order; it is built here by
    inserting from the right. *)
Fixpoint insertByScore (p : Participant) (l : list Participant) : list Participant :=
  match l with
  | [] => [p]
  | q :: r =>
      if Qle_bool (score q) (score p) then p :: q :: r
      else q :: insertByScore p r
  end.

Definition leaderboard (ps : list Participant) : list Participant :=
  fold_right insertByScore [] ps.

(* ------------------------------------------------------------------ *)
(** ** The application store (store/useAppStore.ts)

    The store and the in-memory database live in the same page, and
    [onRoomUpdate] is called by [subscribeRoom] only: every callback in the
    database is one of the closures
    [(snap) => set({ currentRoom: snap.room, currentQuiz: snap.quiz })],
    a new one for each call of [subscribeRoom].  The actions are modelled
    run one at a time, each to its end. *)

Inductive Role : Type := teacher | student.

Record AppState : Type := mkApp {
  role : option Role;
  currentRoom : option Room;
  currentQuiz : option Quiz;
  participantId : option string;
  loading : bool;
  error : option string
}.

(** [create<AppState>()]'s initial state *)
Definition initialApp : AppState := mkApp None None None None false None.

Record Page : Type := mkPage {
  state : AppState;
  data : InMemoryDb;
  closures : nat   (* the number of closures made so far; the next one's name *)
}.

(** The body of the subscription closure. *)
Definition onSnapshot (st : AppState) (snap : RoomSnapshot) : AppState :=
  mkApp (role st) (Some (snap_room snap)) (snap_quiz snap)
        (participantId st) (loading st) (error st).

(** The calls of the closures made by one database call, in order. *)
Definition deliver (st : AppState) (out : list Delivery) : AppState :=
  fold_left (fun s d => onSnapshot s (snd d)) out st.

(** [set({ loading: true, error: undefined })] *)
Definition setLoading (st : AppState) : AppState :=
  mkApp (role st) (currentRoom st) (currentQuiz st) (participantId st) true None.

(** [set({ error: String(e?.message ?? e) })] *)
Definition setError (e : Error) (st : AppState) : AppState :=
  mkApp (role st) (currentRoom st) (currentQuiz st) (participantId st)
        (loading st) (Some (message e)).

(** [set({ loading: false })] *)
Definition clearLoading (st : AppState) : AppState :=
  mkApp (role st) (currentRoom st) (currentQuiz st) (participantId st)
        false (error st).

(** [subscribeRoom] *)
Definition subscribeRoom (w : Page) (roomId : string) : Page :=
  let (db', out) := onRoomUpdate (data w) roomId (closures w) in
  mkPage (deliver (state w) out) db' (S (closures w)).

(** [createQuizAndRoom]; the two ids, the draws and the two clock readings
    are those of [createQuiz] and [createRoom]. *)
Definition createQuizAndRoom (w : Page) (payloadTitle : string)
    (payloadQuestions : list Question) (newQuizId newRoomId : string)
    (rnd : nat -> Q) (now1 now2 : Z) : Page :=
  let st0 := setLoading (state w) in
  let (db1, quiz) := createQuiz (data w) newQuizId now1 payloadTitle payloadQuestions in
  match createRoom db1 (quiz_id quiz) newRoomId rnd now2 with
  | Ok (db2, out, room) =>
      let st1 := deliver st0 out in
      let st2 := mkApp (role st1) (Some room) (Some quiz) (participantId st1)
                       (loading st1) (error st1) in
      let w3 := subscribeRoom (mkPage st2 db2 (closures w)) (room_id room) in
      mkPage (clearLoading (state w3)) (data w3) (closures w3)
  | Throw e =>
      mkPage (clearLoading (setError e st0)) db1 (closures w)
  end.

(** The store's [joinRoom]. *)
Definition storeJoinRoom (w : Page) (c name : string) (newParticipantId : string)
  : Page :=
  let st0 := setLoading (state w) in
  match joinRoom (data w) c name newParticipantId with
  | Ok (db1, out, result) =>
      let st1 := deliver st0 out in
      let st2 := mkApp (role st1) (Some (join_room result)) (join_quiz result)
                       (Some (p_id (join_participant result)))
                       (loading st1) (error st1) in
      let w3 := subscribeRoom (mkPage st2 db1 (closures w))
                              (room_id (join_room result)) in
      mkPage (clearLoading (state w3)) (data w3) (closures w3)
  | Throw e =>
      mkPage (clearLoading (setError e st0)) (data w) (closures w)
  end.

(** The actions that forward to the database for the room on display. *)
Inductive StoreAction : Type :=
| ActStartQuiz
| ActGoToNextQuestion
| ActFinishQuiz
| ActSubmitAnswer (questionId : string) (value : JsValue)
    (timeTakenSec : option Q) (now : Z).

(** [get().currentRoom?.id], with [!roomId] true for the empty id too. *)
Definition shownRoomId (st : AppState) : option string :=
  match currentRoom st with
  | Some room => if String.eqb (room_id room) "" then None else Some (room_id room)
  | None => None
  end.

(** The database call an action makes; none when its guard returns. *)
Definition actionCall (st : AppState) (act : StoreAction) : option Op :=
  match shownRoomId st with
  | None => None
  | Some roomId =>
      match act with
      | ActStartQuiz => Some (StartQuiz roomId)
      | ActGoToNextQuestion => Some (GoToNextQuestion roomId)
      | ActFinishQuiz => Some (FinishQuiz roomId)
      | ActSubmitAnswer qid v t now =>
          match participantId st with
          | Some pid =>
              if String.eqb pid "" then None
              else Some (SubmitAnswer roomId pid qid v t now)
          | None => None
          end
      end
  end.

(** [startQuiz], [goToNextQuestion], [finishQuiz], [submitAnswer] of the
    store: nothing of theirs catches, so a call that throws leaves the
    state as it is. *)
Definition runAction (w : Page) (act : StoreAction) : Page :=
  match actionCall (state w) act with
  | None => w
  | Some op =>
      let (db', out) := step (data w) op in
      mkPage (deliver (state w) out) db' (closures w)
  end.

(** A page on which a teacher has created the sample quiz and its room. *)
Definition pageCreated : Page :=
  createQuizAndRoom (mkPage initialApp emptyDb 0) "Sample Quiz"
    [sampleMcq; sampleFill; sampleDrag] "quiz_1" "room_1" zeroDraws 1000 1001.

(** The room and the quiz of the scored session, written out. *)
Definition roomScored : Room :=
  Eval vm_compute in
    match assocGet "room_1" (rooms dbScored) with
    | Some r => r
    | None => mkRoom "" "" "" lobby 0 [] [] 0
    end.

Definition sampleQuiz : Quiz :=
  mkQuiz "quiz_1" "Sample Quiz" [sampleMcq; sampleFill; sampleDrag] 1000.

(* ------------------------------------------------------------------ *)
(** ** The answer form (components/QuestionRenderer.tsx) *)

(** The state of the form: the value of the choice or text field, the
    mapping built by the drop-downs, and the seconds counted. *)
Record FormState : Type := mkForm {
  formValue : JsValue;
  dragMapping : list (string * JsValue);
  seconds : Q
}.

(** The state set on mount and whenever the question changes:
    [value = question.type === 'mcq' ? -1 : ''], [dragMapping = {}],
    [seconds = 0]. *)
Definition initialForm (question : Question) : FormState :=
  mkForm (match question with
          | MCQQuestion _ _ _ => JNum (-1)
          | _ => JStr ""
          end)
         [] 0.

(** QuestionRenderer.tsx, [handleSubmit]: the value passed to [onSubmit]. *)
Definition submittedValue (question : Question) (form : FormState) : JsValue :=
  match question with
  | MCQQuestion _ _ _ => formValue form
  | FillBlankQuestion _ _ => formValue form
  | DragDropQuestion _ _ _ _ => JObj (dragMapping form)
  end.

(** [timeLeft]: [undefined] for a question without time limit. *)
Definition timeLeft (question : Question) (form : FormState) : option Q :=
  match timeLimitSec (baseOf question) with
  | Some limit =>
      if Qeq_bool limit 0 then None else Some (Qmax 0 (limit - seconds form))
  | None => None
  end.

(* ------------------------------------------------------------------ *)
(** ** The student page (pages/StudentRoom.tsx) *)





(** QuestionRenderer.tsx, the effect on [timeLeft]: [timeLeft === 0], on
    which [handleSubmit] is called. *)
Definition timerFires (question : Question) (form : FormState) : bool :=
  match timeLeft question form with
  | Some t => Qeq_bool t 0
  | None => false
  end.


(* ------------------------------------------------------------------ *)
(** ** The results export (utils/exporters.ts) *)






(* ------------------------------------------------------------------ *)
(** ** Names every object inherits *)

(** [db.quizzes], [db.rooms], [db.listeners] and [room.answers] are object
    literals: reading [table[k]] for a key that is no own property finds
    what [Object.prototype] has under that name, a function or an object and
    never [undefined].  [assocGet] is the read of a key that is none of
    these names; statements about absent keys are made for such keys only. *)
Definition inheritedNames : list string :=
  [ "constructor"; "__proto__"; "hasOwnProperty"; "isPrototypeOf";
    "propertyIsEnumerable"; "toLocaleString"; "toString"; "valueOf";
    "__defineGetter__"; "__defineSetter__"; "__lookupGetter__";
    "__lookupSetter__" ].

Definition inheritedName (k : string) : bool :=
  existsb (String.eqb k) inheritedNames.

(** The keys under which a call reads or writes one of the tables. *)
Definition keysOf (op : Op) : list string :=
  match op with
  | CreateQuiz id _ _ _ => [id]
  | CreateRoom quizId id _ _ => [quizId; id]
  | JoinRoom _ _ _ => []
  | StartQuiz r => [r]
  | GoToNextQuestion r => [r]
  | FinishQuiz r => [r]
  | SubmitAnswer r _ qid _ _ _ => [r; qid]
  | OnRoomUpdate r _ => [r]
  end.

(** An integer index.  An object enumerates such keys first, in numeric
    order, and its other keys after them in the order of insertion. *)
Definition indexKey (k : string) : bool :=
  match k with
  | EmptyString => false
  | String c r =>
      stringForall isDigit k && (negb (Ascii.eqb c "0") || String.eqb r "")
  end.

Definition plainKey (k : string) : bool :=
  negb (inheritedName k) && negb (indexKey k).

Definition plainOp (op : Op) : bool := forallb plainKey (keysOf op).

(** The databases built from the empty one by calls that generate fresh
    ids and use neither an inherited name nor an integer index as a key: on
    these calls the reads of the tables are reads of own properties, and the
    tables enumerate their keys in the order of insertion. *)
Inductive reachablePlain : InMemoryDb -> Prop :=
| plain_empty : reachablePlain emptyDb
| plain_step db op :
    reachablePlain db -> freshOp db op = true -> plainOp op = true ->
    reachablePlain (fst (step db op)).

(** A second room, created for the same quiz after the scored session, with
    Bob in it. *)
Definition twoRoomsOps : list Op :=
  scoredOps
  ++ [ CreateRoom "quiz_1" "room_2" seventhDraws 1004;
       JoinRoom "AEKPUY" "Bob" "p_2" ].

Definition dbTwoRooms : InMemoryDb := fst (runOps emptyDb twoRoomsOps).

(* ------------------------------------------------------------------ *)
(** ** Texts that differ in case and outer blanks only *)






(* ------------------------------------------------------------------ *)
(** ** Points that add up exactly *)

Definition isInteger (x : Q) : Prop := exists n : Z, x == inject_Z n.

(** [Number.MAX_SAFE_INTEGER], 2^53 - 1 *)
Definition MAX_SAFE_INTEGER : Z := 9007199254740991.

Fixpoint sumMagnitudes (l : list SubmittedAnswer) : Q :=
  match l with
  | [] => 0
  | a :: r => Qabs (pointsAwarded a) + sumMagnitudes r
  end.

(** The points recorded in the room are integers whose magnitudes add up to
    at most [Number.MAX_SAFE_INTEGER]: every [score += points] made for
    them is then exact in the code's binary64 arithmetic, as it is in the
    rationals. *)
Definition addedExactly (room : Room) : Prop :=
  (forall a, In a (allAnswers room) -> isInteger (pointsAwarded a))
  /\ sumMagnitudes (allAnswers room) <= inject_Z MAX_SAFE_INTEGER.


(* ------------------------------------------------------------------ *)
(** ** The scoring arithmetic in binary64

    The numbers of the code are IEEE binary64 values.  Where no operation
    rounds (integers up to 2^53 in magnitude, halves, the boundary cases of
    the decay) they behave as the rationals used above; this module keeps
    [calculatePoints] and the accumulation of the score in binary64, to show
    where the two part. *)
Module Double.
Import PrimFloat SpecFloat FloatOps.
Local Open Scope float_scope.

(** The value of a finite number, in lowest terms. *)
Definition exactly (x : float) : option Q :=
  match Prim2SF x with
  | S754_zero _ => Some 0%Q
  | S754_finite s m e =>
      let v := if (0 <=? e)%Z then inject_Z (Z.pos m * 2 ^ e)
               else Qmake (Z.pos m) (2 ^ Z.to_pos (- e))%positive in
      Some (Qred (if s then Qopp v else v))
  | S754_infinity _ => None
  | S754_nan => None
  end.

(** The number that is the integer [n]; exact up to 2^53 in magnitude. *)
Definition ofZ (n : Z) : float := SF2Prim (binary_normalize prec emax n 0 false).

(** [Math.max] of two numbers *)
Definition mathMax (a b : float) : float :=
  if is_nan a || is_nan b then nan
  else if a <? b then b
  else if b <? a then a
  else if get_sign a then b else a.

(** [Math.round]: the nearest integer, halves going up; a number that is
    an integer already, an infinity or NaN is returned as it is. *)
Definition mathRound (x : float) : float :=
  match exactly x with
  | None => x
  | Some v =>
      if Qeq_bool (inject_Z (Qfloor v)) v then x
      else
        let n := Qfloor (v + (1 # 2)) in
        if (n =? 0)%Z then (if get_sign x then neg_zero else zero) else ofZ n
  end.

(** inMemory.ts, [calculatePoints], on the [points] and [timeLimitSec] of
    the question *)
Definition calculatePoints (points timeLimitSec : option float)
    (isCorrect : bool) (timeTakenSec : option float) : float :=
  if negb isCorrect then 0
  else
    let base := match points with Some p => p | None => 10 end in
    match timeLimitSec, timeTakenSec with
    | Some limit, Some taken =>
        if is_zero limit || is_nan limit then base
        else mathRound (base * mathMax 0.5 (1 - mathMax 0 taken / limit))
    | _, _ => base
    end.

(** [participant.score += points], from the score 0 that [joinRoom] gives,
    for the points of the participant's answers in the order of their
    submission *)
Definition scoreAfter (awarded : list float) : float :=
  fold_left add awarded 0.

(** The sum of the values of the numbers. *)
Definition exactSum (l : list float) : option Q :=
  fold_left (fun acc x =>
               match acc, exactly x with
               | Some a, Some v => Some (Qred (a + v))
               | _, _ => None
               end) l (Some 0%Q).


(** The points awarded for correct answers to three questions without time
    limit that are worth 0.1, 0.2 and 0.3 points. *)
Definition fractionalPoints : list float := [0.1; 0.2; 0.3].

Definition awardedFractional : list float :=
  map (fun p => calculatePoints (Some p) None true None) fractionalPoints.

End Double.

(* ================================================================== *)
(** * Properties *)

(** ** Dictionaries *)

Section AssocFacts.
Context {V : Type}.
Implicit Types (l : list (string * V)) (k : string) (v : V).

Lemma assocGet_set_same l k v : assocGet k (assocSet k v l) = Some v.
Proof.
  induction l as [|[k' v'] r IH]; simpl.
  - now rewrite String.eqb_refl.
  - destruct (String.eqb k' k) eqn:E; simpl; rewrite E; auto.
Qed.

Lemma assocGet_set_other l k k' v :
  k' <> k -> assocGet k' (assocSet k v l) = assocGet k' l.
Proof.
  intros N. induction l as [|[k0 v0] r IH]; simpl.
  - destruct (String.eqb k k') eqn:E; auto.
    apply String.eqb_eq in E. congruence.
  - destruct (String.eqb k0 k) eqn:E; simpl.
    + apply String.eqb_eq in E. subst k0.
      destruct (String.eqb k k') eqn:E'; auto.
      apply String.eqb_eq in E'. congruence.
    + destruct (String.eqb k0 k'); auto.
Qed.

Lemma assocGet_In_keys l k :
  In k (objectKeys l) -> exists v, assocGet k l = Some v.
Proof.
  induction l as [|[k0 v0] r IH]; simpl; [tauto|].
  intros [E | H].
  - subst. rewrite String.eqb_refl. eauto.
  - destruct (String.eqb k0 k); eauto.
Qed.

Lemma assocGet_Some_In_keys l k v :
  assocGet k l = Some v -> In k (objectKeys l).
Proof.
  induction l as [|[k0 v0] r IH]; simpl; [discriminate|].
  destruct (String.eqb k0 k) eqn:E.
  - apply String.eqb_eq in E. auto.
  - auto.
Qed.

Lemma assocGet_Some_In l k v : assocGet k l = Some v -> In v (map snd l).
Proof.
  induction l as [|[k0 v0] r IH]; simpl; [discriminate|].
  destruct (String.eqb k0 k).
  - intros [= ->]. auto.
  - auto.
Qed.
End AssocFacts.

(** ** Normalisation of text answers *)

Lemma trimStart_space_prefix pre s :
  stringForall isWhiteSpace pre = true -> trimStart (pre ++ s) = trimStart s.
Proof.
  induction pre as [|c r IH]; simpl; [reflexivity|].
  intros H. apply andb_true_iff in H. destruct H as [H1 H2].
  rewrite H1. auto.
Qed.

Lemma trimEnd_space post :
  stringForall isWhiteSpace post = true -> trimEnd post = "".
Proof.
  induction post as [|c r IH]; simpl; [reflexivity|].
  intros H. apply andb_true_iff in H. destruct H as [H1 H2].
  rewrite (IH H2), H1. reflexivity.
Qed.

Lemma trimEnd_space_suffix s post :
  stringForall isWhiteSpace post = true -> trimEnd (s ++ post) = trimEnd s.
Proof.
  intros H. induction s as [|c r IH]; simpl.
  - now apply trimEnd_space.
  - now rewrite IH.
Qed.

Lemma trimStart_space post :
  stringForall isWhiteSpace post = true -> trimStart post = "".
Proof.
  induction post as [|c r IH]; simpl; [reflexivity|].
  intros H. apply andb_true_iff in H. destruct H as [H1 H2].
  rewrite H1. auto.
Qed.

Lemma trim_space_suffix s post :
  stringForall isWhiteSpace post = true -> trim (s ++ post) = trim s.
Proof.
  intros H. unfold trim. induction s as [|c r IH].
  - simpl. now rewrite (trimStart_space post H).
  - cbn [String.append trimStart]. destruct (isWhiteSpace c); [exact IH|].
    exact (trimEnd_space_suffix (String c r) post H).
Qed.


Lemma isWhiteSpace_lowerChar c : isWhiteSpace (lowerChar c) = isWhiteSpace c.
Proof.
  unfold lowerChar. destruct (isUpper c) eqn:U; [|reflexivity].
  unfold isUpper in U. unfold isWhiteSpace.
  apply andb_true_iff in U. destruct U as [U1 U2].
  apply Nat.leb_le in U1. apply Nat.leb_le in U2.
  rewrite nat_ascii_embedding by lia.
  remember (nat_of_ascii c) as n.
  assert (E1: (9 <=? n)%nat = true) by (apply Nat.leb_le; lia).
  assert (E2: (n <=? 13)%nat = false) by (apply Nat.leb_gt; lia).
  assert (E3: (n =? 32)%nat = false) by (apply Nat.eqb_neq; lia).
  assert (E4: (n + 32 <=? 13)%nat = false) by (apply Nat.leb_gt; lia).
  assert (E5: (n + 32 =? 32)%nat = false) by (apply Nat.eqb_neq; lia).
  rewrite E2, E3, E4, E5. now rewrite !andb_false_r.
Qed.

Lemma trimStart_toLowerCase s : trimStart (toLowerCase s) = toLowerCase (trimStart s).
Proof.
  induction s as [|c r IH]; simpl; [reflexivity|].
  rewrite isWhiteSpace_lowerChar. now destruct (isWhiteSpace c).
Qed.

Lemma trimEnd_toLowerCase s : trimEnd (toLowerCase s) = toLowerCase (trimEnd s).
Proof.
  induction s as [|c r IH]; simpl; [reflexivity|].
  rewrite IH, isWhiteSpace_lowerChar.
  destruct (trimEnd r); simpl; [|reflexivity].
  now destruct (isWhiteSpace c).
Qed.

Lemma normalizeString_trim_lower s : normalizeString s = trim (toLowerCase s).
Proof.
  unfold normalizeString, trim.
  now rewrite trimStart_toLowerCase, trimEnd_toLowerCase.
Qed.

Lemma normalizeString_case s t :
  toLowerCase s = toLowerCase t -> normalizeString s = normalizeString t.
Proof. intros H. now rewrite !normalizeString_trim_lower, H. Qed.

(** ** Grading *)

Lemma strictEquals_str v t : strictEquals v (JStr t) = true <-> v = JStr t.
Proof.
  destruct v; simpl; split; try discriminate.
  - intros H. apply String.eqb_eq in H. now subst.
  - intros [= ->]. apply String.eqb_refl.
Qed.

Lemma getProp_str props k t :
  getProp (JObj props) k = JStr t <-> assocGet k props = Some (JStr t).
Proof.
  simpl. destruct (assocGet k props) as [x|]; split; congruence.
Qed.




(** ** Fill-in-blank answers *)














(** C4, as the code has it: a match answer is correct exactly when the
    submitted value is an object that gives, for every item of the canonical
    mapping, the canonical target; entries under other keys play no part. *)
Theorem drag_correct_iff_covers_expected :
  forall (base : BaseQuestion) (items targets : list DragItem)
         (expected : list (string * string)) (value : JsValue),
    isAnswerCorrect (DragDropQuestion base items targets expected) value = true
    <-> exists props, value = JObj props
          /\ forall k t, assocGet k expected = Some t ->
                         assocGet k props = Some (JStr t).
Proof.
  intros base items targets expected value. simpl. split.
  - destruct value as [| |b|n|s|props]; simpl; try discriminate.
    + destruct b; discriminate.
    + destruct (Qeq_bool n 0); discriminate.
    + destruct (String.eqb s ""); discriminate.
    + intros H. exists props. split; [reflexivity|].
      intros k t Hk. rewrite forallb_forall in H.
      specialize (H k (assocGet_Some_In_keys _ _ _ Hk)).
      unfold recordGet in H. rewrite Hk in H.
      apply strictEquals_str in H. now apply getProp_str.
  - intros (props & -> & H). simpl.
    apply forallb_forall. intros k Hk.
    destruct (assocGet_In_keys _ _ Hk) as [t Ht].
    unfold recordGet. rewrite Ht. apply strictEquals_str.
    apply getProp_str. auto.
Qed.

(** C4, counterexample: with the pairs A->1, B->2, the mapping
    {A:"1", B:"2", C:"3"} has an extra entry, which the specified rule
    rejects, and the code grades it correct. *)
Lemma drag_extra_entry_accepted :
  gradeMatchExact samplePairs mappingWithExtra = false
  /\ isAnswerCorrect sampleDrag mappingWithExtra = true.
Proof. split; reflexivity. Qed.

(** The scenarios of the specification: option 2 after 15 of 30 seconds is
    correct and earns 5 of the 10 points; A->1, B->1 against A->1, B->2 is
    not correct. *)
Example scenario_mcq_half_time :
  isAnswerCorrect sampleMcq (JNum 2) = true
  /\ calculatePoints sampleMcq true (Some 15) = 5.
Proof. split; reflexivity. Qed.

Example scenario_match_one_pair_wrong :
  isAnswerCorrect sampleDrag (JObj [("A", JStr "1"); ("B", JStr "1")]) = false.
Proof. reflexivity. Qed.

(** ** Scoring *)





Lemma calculatePoints_timed (q : Question) (limit taken : Q) :
  timeLimitSec (baseOf q) = Some limit -> ~ limit == 0 ->
  calculatePoints q true (Some taken)
  = inject_Z (mathRound (basePoints q
                         * Qmax (1 # 2) (1 - Qmax 0 taken / limit))).
Proof.
  intros HL Hn. unfold calculatePoints. simpl. rewrite HL.
  destruct (Qeq_bool limit 0) eqn:E; [|reflexivity].
  apply Qeq_bool_iff in E. contradiction.
Qed.

(** ** The store: single calls *)

Lemma findParticipant_creditFirst pid qid pts ps p :
  findParticipant pid ps = Some p ->
  findParticipant pid (creditFirst pid qid pts ps)
  = Some (creditParticipant qid pts p).
Proof.
  unfold findParticipant.
  induction ps as [|p0 r IH]; simpl; [discriminate|].
  destruct (String.eqb (p_id p0) pid) eqn:E; simpl.
  - intros [= ->]. now rewrite E.
  - rewrite E. exact IH.
Qed.


Lemma creditFirst_ids pid qid pts ps :
  map p_id (creditFirst pid qid pts ps) = map p_id ps.
Proof.
  induction ps as [|p0 r IH]; simpl; [reflexivity|].
  destruct (String.eqb (p_id p0) pid); simpl; [reflexivity|now rewrite IH].
Qed.

(** What a successful [submitAnswer] leaves in the room, whoever submits. *)
Lemma submitAnswer_ok db roomId pid qid value taken now room quiz question :
  assocGet roomId (rooms db) = Some room ->
  assocGet (quizId room) (quizzes db) = Some quiz ->
  findQuestion qid (questions quiz) = Some question ->
  let answer :=
    mkAnswer qid pid value (isAnswerCorrect question value) taken now
      (calculatePoints question (isAnswerCorrect question value) taken) in
  exists db' out room',
    submitAnswer db roomId pid qid value taken now = Ok (db', out, answer)
    /\ assocGet roomId (rooms db') = Some room'
    /\ answersFor room' qid = answersFor room qid ++ [answer]
    /\ participants room'
       = creditFirst pid qid (pointsAwarded answer) (participants room)
    /\ status room' = status room
    /\ currentQuestionIndex room' = currentQuestionIndex room.
Proof.
  intros Hr Hq Hf answer. unfold submitAnswer. rewrite Hr, Hq, Hf.
  eexists _, _, _. split; [reflexivity|]. simpl.
  rewrite assocGet_set_same. split; [reflexivity|].
  unfold answersFor at 1. simpl. rewrite assocGet_set_same.
  repeat split.
Qed.

(** C1, as the code has it: when the participant has already answered the
    question, a further [submitAnswer] for the same pair is accepted like
    the first: it returns the new answer, appends it to the question's list
    and adds its points to the participant's score; only the participant's
    list of answered questions gets no second entry. *)
Theorem submitAnswer_again_is_recorded :
  forall db roomId pid qid value taken now room quiz question p previous,
    assocGet roomId (rooms db) = Some room ->
    assocGet (quizId room) (quizzes db) = Some quiz ->
    findQuestion qid (questions quiz) = Some question ->
    findParticipant pid (participants room) = Some p ->
    In previous (answersFor room qid) ->
    a_participantId previous = pid ->
    let answer :=
      mkAnswer qid pid value (isAnswerCorrect question value) taken now
        (calculatePoints question (isAnswerCorrect question value) taken) in
    exists db' out room' p',
      submitAnswer db roomId pid qid value taken now = Ok (db', out, answer)
      /\ assocGet roomId (rooms db') = Some room'
      /\ answersFor room' qid = answersFor room qid ++ [answer]
      /\ findParticipant pid (participants room') = Some p'
      /\ score p' = score p + pointsAwarded answer
      /\ (includes (answeredQuestionIds p) qid = true ->
          answeredQuestionIds p' = answeredQuestionIds p).
Proof.
  intros db roomId pid qid value taken now room quiz question p previous
         Hr Hq Hf Hp _ _ answer.
  destruct (submitAnswer_ok db roomId pid qid value taken now room quiz question
              Hr Hq Hf) as (db' & out & room' & Hs & Hr' & Ha & Hps & _).
  exists db', out, room', (creditParticipant qid (pointsAwarded answer) p).
  split; [exact Hs|]. split; [exact Hr'|]. split; [exact Ha|].
  split; [rewrite Hps; now apply findParticipant_creditFirst|].
  split; [reflexivity|].
  intros Hi. simpl. now rewrite Hi.
Qed.

(** C1, counterexample: Ann has answered q1 and holds 10 points; her second
    submission for q1 is accepted, a second answer is recorded and her score
    becomes 20. *)
Lemma duplicate_answer_accepted :
  scoreOf dbAnswered "room_1" "p_1" = Some 10
  /\ map a_participantId (answersOf dbAnswered "room_1" "q1") = ["p_1"]
  /\ exists db' out a,
       submitAnswer dbAnswered "room_1" "p_1" "q1" (JNum 2) (Some 0) 1003
       = Ok (db', out, a)
       /\ scoreOf db' "room_1" "p_1" = Some 20
       /\ map a_participantId (answersOf db' "room_1" "q1") = ["p_1"; "p_1"].
Proof.
  split; [reflexivity|]. split; [reflexivity|].
  eexists _, _, _. split; [reflexivity|]. split; reflexivity.
Qed.



Lemma submitAnswer_again_is_recorded_witness :
  exists room quiz question p previous,
    assocGet "room_1" (rooms dbAnswered) = Some room
    /\ assocGet (quizId room) (quizzes dbAnswered) = Some quiz
    /\ findQuestion "q1" (questions quiz) = Some question
    /\ findParticipant "p_1" (participants room) = Some p
    /\ In previous (answersFor room "q1")
    /\ a_participantId previous = "p_1"
    /\ exists db' out room' p' answer,
         submitAnswer dbAnswered "room_1" "p_1" "q1" (JNum 2) (Some 0) 1003
         = Ok (db', out, answer)
         /\ assocGet "room_1" (rooms db') = Some room'
         /\ answersFor room' "q1" = answersFor room "q1" ++ [answer]
         /\ findParticipant "p_1" (participants room') = Some p'
         /\ score p' = score p + pointsAwarded answer.
Proof.
  eexists _, _, _, _, _.
  split; [reflexivity|]. split; [reflexivity|]. split; [reflexivity|].
  split; [reflexivity|]. split; [left; reflexivity|]. split; [reflexivity|].
  destruct (submitAnswer_again_is_recorded dbAnswered "room_1" "p_1" "q1"
              (JNum 2) (Some 0) 1003%Z _ _ _ _ _
              eq_refl eq_refl eq_refl eq_refl (or_introl eq_refl) eq_refl)
    as (db' & out & room' & p' & Hs & Hr & Ha & Hp & Hsc & _).
  exists db', out, room', p'. eexists.
  split; [exact Hs|]. split; [exact Hr|]. split; [exact Ha|].
  split; [exact Hp|exact Hsc].
Defined.


Lemma assocGet_set_cases {V : Type} (l : list (string * V)) k k' v :
  assocGet k' (assocSet k v l) = if String.eqb k k' then Some v else assocGet k' l.
Proof.
  destruct (String.eqb k k') eqn:E.
  - apply String.eqb_eq in E. subst. apply assocGet_set_same.
  - apply String.eqb_neq in E. apply assocGet_set_other. congruence.
Qed.



(** C3, counterexample: the room is running at its second question and
    [startQuiz] succeeds, putting the index back to 0; the room is finished
    and [goToNextQuestion] succeeds, moving the index from 0 to 1. *)
Lemma transitions_are_not_guarded :
  (statusOf dbSecondQuestion "room_1" = Some running
   /\ indexOf dbSecondQuestion "room_1" = Some 1%Z
   /\ exists db' out,
        startQuiz dbSecondQuestion "room_1" = Ok (db', out)
        /\ indexOf db' "room_1" = Some 0%Z)
  /\ (statusOf dbFinished "room_1" = Some finished
      /\ indexOf dbFinished "room_1" = Some 0%Z
      /\ exists db' out,
           goToNextQuestion dbFinished "room_1" = Ok (db', out)
           /\ statusOf db' "room_1" = Some finished
           /\ indexOf db' "room_1" = Some 1%Z).
Proof.
  split.
  - split; [reflexivity|]. split; [reflexivity|].
    eexists _, _. split; reflexivity.
  - split; [reflexivity|]. split; [reflexivity|].
    eexists _, _. split; [reflexivity|]. split; reflexivity.
Qed.

(** ** The store: effect of one call on one room *)

Lemma fresh_id_not_used db pid rid room :
  negb (existsb (idUsedInRoom pid) (map snd (rooms db))) = true ->
  assocGet rid (rooms db) = Some room ->
  idUsedInRoom pid room = false.
Proof.
  intros F Hr. apply negb_true_iff in F.
  destruct (idUsedInRoom pid room) eqn:U; [|reflexivity].
  assert (E : existsb (idUsedInRoom pid) (map snd (rooms db)) = true).
  { apply existsb_exists. exists room. split; [|assumption].
    eapply assocGet_Some_In; eassumption. }
  congruence.
Qed.

Lemma find_code_In db c found :
  findRoomByCode db c = Some found -> code found = c.
Proof.
  unfold findRoomByCode. intros H. apply find_some in H.
  destruct H as [_ H]. now apply String.eqb_eq.
Qed.

(** A room that exists before a call exists after it, changed in one of the
    ways of [roomChange]; unless the call is a [startQuiz] of that room, its
    status has not moved backward. *)
Lemma step_existing_room db op rid room :
  assocGet rid (rooms db) = Some room ->
  freshOp db op = true ->
  exists room',
    assocGet rid (rooms (fst (step db op))) = Some room'
    /\ roomChange room room'
    /\ (startsRoom rid op = false ->
        (statusRank (status room) <= statusRank (status room'))%nat)
    /\ (code room' = code room).
Proof.
  intros Hr F.
  assert (Same : exists room',
             assocGet rid (rooms db) = Some room' /\ roomChange room room'
             /\ (startsRoom rid op = false ->
                 (statusRank (status room) <= statusRank (status room'))%nat)
             /\ code room' = code room).
  { exists room. repeat split; auto using rc_same. }
  destruct op as [id now t qs | qz id rnd now | c name pid | r | r | r
                 | r pid qid v taken now | r cb]; simpl in *.
  - exact Same.
  - unfold createRoom. destruct (assocGet qz (quizzes db)); [|exact Same].
    simpl. destruct (assocGet id (rooms db)) eqn:Hid; [discriminate|].
    rewrite assocGet_set_other by congruence. exact Same.
  - unfold joinRoom, getRoomByCode.
    destruct (findRoomByCode db c) as [found|]; [|exact Same]. simpl.
    destruct (assocGet (room_id found) (rooms db)) as [room0|] eqn:H0;
      [|exact Same].
    simpl. rewrite assocGet_set_cases.
    destruct (String.eqb (room_id found) rid) eqn:E; [|exact Same].
    apply String.eqb_eq in E. rewrite E in H0.
    assert (room0 = room) by congruence. subst room0.
    eexists. split; [reflexivity|]. split.
    + apply rc_join. eapply fresh_id_not_used; eassumption.
    + split; [intros _; simpl; lia|reflexivity].
  - unfold startQuiz.
    destruct (assocGet r (rooms db)) as [room0|] eqn:H0; [|exact Same].
    simpl. rewrite assocGet_set_cases.
    destruct (String.eqb r rid) eqn:E; [|exact Same].
    apply String.eqb_eq in E. subst r.
    assert (room0 = room) by congruence. subst room0.
    eexists. split; [reflexivity|]. split; [apply rc_start|].
    split; [discriminate|reflexivity].
  - unfold goToNextQuestion.
    destruct (assocGet r (rooms db)) as [room0|] eqn:H0; [|exact Same].
    destruct (assocGet (quizId room0) (quizzes db)) as [quiz|]; [|exact Same].
    simpl. rewrite assocGet_set_cases.
    destruct (String.eqb r rid) eqn:E; [|exact Same].
    apply String.eqb_eq in E. subst r.
    assert (room0 = room) by congruence. subst room0.
    eexists. split; [reflexivity|].
    destruct (currentQuestionIndex room
              <? Z.of_nat (List.length (questions quiz)) - 1)%Z.
    + split; [apply rc_next|]. split; [intros _; simpl; lia|reflexivity].
    + split; [apply rc_finish|].
      split; [intros _; simpl; destruct (status room); simpl; lia|reflexivity].
  - unfold finishQuiz.
    destruct (assocGet r (rooms db)) as [room0|] eqn:H0; [|exact Same].
    simpl. rewrite assocGet_set_cases.
    destruct (String.eqb r rid) eqn:E; [|exact Same].
    apply String.eqb_eq in E. subst r.
    assert (room0 = room) by congruence. subst room0.
    eexists. split; [reflexivity|]. split; [apply rc_finish|].
    split; [intros _; simpl; destruct (status room); simpl; lia|reflexivity].
  - unfold submitAnswer.
    destruct (assocGet r (rooms db)) as [room0|] eqn:H0; [|exact Same].
    destruct (assocGet (quizId room0) (quizzes db)) as [quiz|]; [|exact Same].
    destruct (findQuestion qid (questions quiz)) as [question|]; [|exact Same].
    simpl. rewrite assocGet_set_cases.
    destruct (String.eqb r rid) eqn:E; [|exact Same].
    apply String.eqb_eq in E. subst r.
    assert (room0 = room) by congruence. subst room0.
    eexists. split; [reflexivity|]. split.
    + apply (rc_submit room
               (mkAnswer qid pid v (isAnswerCorrect question v) taken now
                  (calculatePoints question (isAnswerCorrect question v) taken))).
    + split; [intros _; simpl; lia|reflexivity].
  - exact Same.
Qed.

(** A room that appears with a call is a new, empty lobby room. *)
Lemma step_new_room db op rid room' :
  assocGet rid (rooms db) = None ->
  assocGet rid (rooms (fst (step db op))) = Some room' ->
  participants room' = [] /\ answers room' = [] /\ status room' = lobby.
Proof.
  intros Hn.
  destruct op as [id now t qs | qz id rnd now | c name pid | r | r | r
                 | r pid qid v taken now | r cb]; simpl.
  - congruence.
  - unfold createRoom. destruct (assocGet qz (quizzes db)); simpl; [|congruence].
    rewrite assocGet_set_cases. destruct (String.eqb id rid); [|congruence].
    intros [= <-]. auto.
  - unfold joinRoom, getRoomByCode.
    destruct (findRoomByCode db c) as [found|]; simpl; [|congruence].
    destruct (assocGet (room_id found) (rooms db)) eqn:H0; simpl; [|congruence].
    rewrite assocGet_set_cases.
    destruct (String.eqb (room_id found) rid) eqn:E; [|congruence].
    apply String.eqb_eq in E. congruence.
  - unfold startQuiz.
    destruct (assocGet r (rooms db)) eqn:H0; simpl; [|congruence].
    rewrite assocGet_set_cases.
    destruct (String.eqb r rid) eqn:E; [|congruence].
    apply String.eqb_eq in E. congruence.
  - unfold goToNextQuestion.
    destruct (assocGet r (rooms db)) as [room0|] eqn:H0; simpl; [|congruence].
    destruct (assocGet (quizId room0) (quizzes db)); simpl; [|congruence].
    rewrite assocGet_set_cases.
    destruct (String.eqb r rid) eqn:E; [|congruence].
    apply String.eqb_eq in E. congruence.
  - unfold finishQuiz.
    destruct (assocGet r (rooms db)) eqn:H0; simpl; [|congruence].
    rewrite assocGet_set_cases.
    destruct (String.eqb r rid) eqn:E; [|congruence].
    apply String.eqb_eq in E. congruence.
  - unfold submitAnswer.
    destruct (assocGet r (rooms db)) as [room0|] eqn:H0; simpl; [|congruence].
    destruct (assocGet (quizId room0) (quizzes db)) as [quiz|]; simpl;
      [|congruence].
    destruct (findQuestion qid (questions quiz)); simpl; [|congruence].
    rewrite assocGet_set_cases.
    destruct (String.eqb r rid) eqn:E; [|congruence].
    apply String.eqb_eq in E. congruence.
  - congruence.
Qed.

(** ** Sequences of calls *)

Lemma runOps_cons_fst db op ops :
  fst (runOps db (op :: ops)) = fst (runOps (fst (step db op)) ops).
Proof.
  simpl. destruct (step db op) as [db1 out1]. simpl.
  now destruct (runOps db1 ops).
Qed.

Lemma runOps_cons_snd db op ops :
  snd (runOps db (op :: ops))
  = snd (step db op) ++ snd (runOps (fst (step db op)) ops).
Proof.
  simpl. destruct (step db op) as [db1 out1]. simpl.
  now destruct (runOps db1 ops).
Qed.

Lemma reachable_runOps ops : forall db,
  reachable db -> freshOps db ops = true -> reachable (fst (runOps db ops)).
Proof.
  induction ops as [|op ops IH]; intros db R F.
  - exact R.
  - rewrite runOps_cons_fst. simpl in F. apply andb_true_iff in F.
    destruct F as [F1 F2]. apply IH; [|exact F2].
    now apply reach_step.
Qed.

(** C2, as the code has it: along any sequence of calls that contains no
    [startQuiz] of the room, the room stays in the database and its status
    never moves backward along lobby, running, finished, so a finished room
    stays finished; a [startQuiz] of the room sets its status to running
    whatever it was. *)
Theorem status_regresses_only_by_startQuiz :
  (forall ops db roomId room,
      assocGet roomId (rooms db) = Some room ->
      freshOps db ops = true ->
      forallb (fun op => negb (startsRoom roomId op)) ops = true ->
      exists room',
        assocGet roomId (rooms (fst (runOps db ops))) = Some room'
        /\ (statusRank (status room) <= statusRank (status room'))%nat
        /\ (status room = finished -> status room' = finished))
  /\ (forall db roomId room,
        assocGet roomId (rooms db) = Some room ->
        statusOf (fst (step db (StartQuiz roomId))) roomId = Some running).
Proof.
  split.
  - induction ops as [|op ops IH]; intros db roomId room Hr F N.
    + exists room. simpl. repeat split; auto.
    + simpl in F, N. apply andb_true_iff in F. destruct F as [F1 F2].
      apply andb_true_iff in N. destruct N as [N1 N2].
      apply negb_true_iff in N1.
      destruct (step_existing_room db op roomId room Hr F1)
        as (room1 & H1 & _ & M1 & _).
      specialize (M1 N1).
      destruct (IH _ roomId room1 H1 F2 N2) as (room' & H' & M' & _).
      exists room'. rewrite runOps_cons_fst. split; [exact H'|].
      split; [lia|].
      intros Hf. rewrite Hf in M1. simpl in M1.
      destruct (status room'); simpl in *; (reflexivity || lia).
  - intros db roomId room Hr. unfold statusOf, step, startQuiz.
    rewrite Hr. simpl. now rewrite assocGet_set_same.
Qed.

Lemma status_regresses_only_by_startQuiz_witness :
  (exists room,
      assocGet "room_1" (rooms dbFinished) = Some room
      /\ status room = finished
      /\ freshOps dbFinished afterFinishOps = true
      /\ forallb (fun op => negb (startsRoom "room_1" op)) afterFinishOps = true
      /\ exists room',
           assocGet "room_1" (rooms (fst (runOps dbFinished afterFinishOps)))
           = Some room'
           /\ status room' = finished)
  /\ statusOf (fst (step dbFinished (StartQuiz "room_1"))) "room_1" = Some running.
Proof.
  destruct status_regresses_only_by_startQuiz as (M & S).
  split.
  - eexists. split; [reflexivity|]. split; [reflexivity|].
    split; [reflexivity|]. split; [reflexivity|].
    destruct (M afterFinishOps dbFinished "room_1" _ eq_refl eq_refl eq_refl)
      as (room' & H' & _ & Hf).
    exists room'. split; [exact H'|]. apply Hf. reflexivity.
  - exact (S dbFinished "room_1" _ eq_refl).
Defined.

(** C2, counterexample: the room is finished; [startQuiz] takes it back to
    running, [joinRoom] adds a participant to it, [submitAnswer] records an
    answer in it and [goToNextQuestion] moves its index. *)
Lemma finished_room_is_still_changed :
  statusOf dbFinished "room_1" = Some finished
  /\ statusOf (fst (step dbFinished (StartQuiz "room_1"))) "room_1" = Some running
  /\ (participantIdsOf dbFinished "room_1" = ["p_1"]
      /\ participantIdsOf
           (fst (step dbFinished (JoinRoom "AAAAAA" "Bob" "p_2"))) "room_1"
         = ["p_1"; "p_2"])
  /\ (answersOf dbFinished "room_1" "q2" = []
      /\ map a_participantId
           (answersOf
              (fst (step dbFinished
                      (SubmitAnswer "room_1" "p_1" "q2" (JStr "42") None 1004)))
              "room_1" "q2")
         = ["p_1"])
  /\ (indexOf dbFinished "room_1" = Some 0%Z
      /\ indexOf (fst (step dbFinished (GoToNextQuestion "room_1"))) "room_1"
         = Some 1%Z).
Proof. repeat split. Qed.

(** ** The score invariant *)

Lemma sumPoints_app pid l1 l2 :
  sumPoints pid (l1 ++ l2) == sumPoints pid l1 + sumPoints pid l2.
Proof.
  induction l1 as [|a r IH]; simpl.
  - ring.
  - destruct (String.eqb (a_participantId a) pid); rewrite IH; ring.
Qed.

Lemma sumPoints_unused pid l :
  existsb (fun a => String.eqb (a_participantId a) pid) l = false ->
  sumPoints pid l = 0.
Proof.
  induction l as [|a r IH]; simpl; [reflexivity|].
  intros H. apply orb_false_iff in H. destruct H as [H1 H2].
  rewrite H1. auto.
Qed.

(** Recording one more answer adds its points to its participant's sum and
    to no other. *)
Lemma sumPoints_recorded pid qid a (l : list (string * list SubmittedAnswer)) :
  sumPoints pid
    (flat_map snd
       (assocSet qid
          (match assocGet qid l with Some v => v | None => [] end ++ [a]) l))
  == sumPoints pid (flat_map snd l)
     + (if String.eqb (a_participantId a) pid then pointsAwarded a else 0).
Proof.
  induction l as [|[k v] r IH]; simpl.
  - destruct (String.eqb (a_participantId a) pid); ring.
  - destruct (String.eqb k qid) eqn:E; simpl.
    + rewrite !sumPoints_app. simpl.
      destruct (String.eqb (a_participantId a) pid); ring.
    + rewrite !sumPoints_app. rewrite IH. ring.
Qed.

Lemma In_creditFirst pid qid pts ps p' :
  NoDup (map p_id ps) ->
  In p' (creditFirst pid qid pts ps) ->
  (In p' ps /\ p_id p' <> pid)
  \/ (exists p, In p ps /\ p_id p = pid /\ p' = creditParticipant qid pts p).
Proof.
  induction ps as [|p0 r IH]; simpl; [tauto|].
  intros ND. inversion ND as [|x xs Hnotin ND' Heq]; subst.
  destruct (String.eqb (p_id p0) pid) eqn:E.
  - apply String.eqb_eq in E. intros [H | H].
    + right. exists p0. auto.
    + left. split; [auto|]. intros Hp. apply Hnotin.
      rewrite E, <- Hp. now apply in_map.
  - apply String.eqb_neq in E. intros [H | H].
    + subst. left. auto.
    + destruct (IH ND' H) as [[H1 H2] | (p & H1 & H2 & H3)].
      * left. auto.
      * right. exists p. auto.
Qed.

Lemma NoDup_snoc {A : Type} (l : list A) (x : A) :
  NoDup l -> ~ In x l -> NoDup (l ++ [x]).
Proof.
  induction l as [|y r IH]; simpl; intros ND N.
  - constructor; [tauto|constructor].
  - inversion ND as [|z zs Hy ND' E]; subst. constructor.
    + intros Hin. apply in_app_or in Hin. simpl in Hin.
      destruct Hin as [H | [H | []]]; [tauto|]. subst. tauto.
    + apply IH; tauto.
Qed.

Lemma roomChange_keeps_invariant room room' :
  roomChange room room' -> scoresMatchAnswers room -> scoresMatchAnswers room'.
Proof.
  intros C [ND SC]. destruct C as [ | pid name U | | i | | a];
    unfold scoresMatchAnswers, allAnswers in *; simpl.
  - auto.
  - unfold idUsedInRoom in U. apply orb_false_iff in U. destruct U as [U1 U2].
    split.
    + rewrite map_app. simpl. apply NoDup_snoc; [exact ND|].
      intros Hin. apply in_map_iff in Hin. destruct Hin as (p & Hp & Hin).
      assert (E : existsb (fun p => String.eqb (p_id p) pid)
                    (participants room) = true).
      { apply existsb_exists. exists p. split; [exact Hin|].
        now apply String.eqb_eq. }
      congruence.
    + intros p Hin. apply in_app_or in Hin. destruct Hin as [Hin | [<- | []]].
      * auto.
      * simpl. unfold allAnswers in U2. rewrite (sumPoints_unused _ _ U2).
        reflexivity.
  - auto.
  - auto.
  - auto.
  - split.
    + now rewrite creditFirst_ids.
    + intros p' Hin. unfold answersFor. rewrite sumPoints_recorded.
      destruct (In_creditFirst _ _ _ _ _ ND Hin)
        as [[H1 H2] | (p & H1 & H2 & ->)].
      * destruct (String.eqb (a_participantId a) (p_id p')) eqn:E.
        -- apply String.eqb_eq in E. congruence.
        -- rewrite (SC p' H1). ring.
      * simpl. rewrite H2, String.eqb_refl. rewrite (SC p H1), H2. ring.
Qed.

Lemma reachable_scoresMatchAnswers db :
  reachable db ->
  forall rid room, assocGet rid (rooms db) = Some room -> scoresMatchAnswers room.
Proof.
  induction 1 as [|db op R IH F]; intros rid room' Hr.
  - discriminate.
  - destruct (assocGet rid (rooms db)) as [room|] eqn:Hold.
    + destruct (step_existing_room db op rid room Hold F)
        as (room1 & H1 & C & _).
      assert (room1 = room') by congruence. subst room1.
      eapply roomChange_keeps_invariant; eauto.
    + destruct (step_new_room db op rid room' Hold Hr) as (P & A & _).
      unfold scoresMatchAnswers, allAnswers. rewrite P, A. simpl.
      split; [constructor|tauto].
Qed.



(** ** Subscription *)

Lemma setAdd_In cb ls : In cb (setAdd cb ls).
Proof.
  unfold setAdd. destruct (existsb (Nat.eqb cb) ls) eqn:E.
  - apply existsb_exists in E. destruct E as (x & Hin & Hx).
    apply Nat.eqb_eq in Hx. now subst.
  - apply in_or_app. right. now left.
Qed.



(** ** Join codes *)

Lemma charAt_letters (i : Z) :
  (0 <= i < 32)%Z ->
  exists c, charAt letters i = String c EmptyString /\ isUpperOrDigit c = true.
Proof.
  intros H. unfold charAt.
  destruct (Z.ltb_spec i 0) as [L | _]; [lia|].
  assert (B : (Z.to_nat i < 32)%nat) by lia.
  remember (Z.to_nat i) as n eqn:En. clear En H i.
  do 32 (destruct n as [|n]; [eexists; split; reflexivity|]).
  lia.
Qed.

Lemma draw_index (r : Q) :
  0 <= r -> r < 1 ->
  (0 <= Qfloor (r * inject_Z (Z.of_nat (String.length letters))) < 32)%Z.
Proof.
  intros L U. change (inject_Z (Z.of_nat (String.length letters))) with 32.
  split.
  - change 0%Z with (Qfloor 0). apply Qfloor_resp_le. lra.
  - rewrite Zlt_Qlt. eapply Qle_lt_trans; [apply Qfloor_le|].
    change (inject_Z 32) with 32. lra.
Qed.

Lemma generateRoomCodeFrom_shape rnd :
  (forall i, 0 <= rnd i /\ rnd i < 1) ->
  forall n i,
    String.length (generateRoomCodeFrom rnd i n) = n
    /\ stringForall isUpperOrDigit (generateRoomCodeFrom rnd i n) = true.
Proof.
  intros R. induction n as [|n IH]; intros i.
  - simpl. auto.
  - destruct (R i) as [L U].
    destruct (charAt_letters _ (draw_index (rnd i) L U)) as (c & Ec & Hc).
    destruct (IH (S i)) as [IH1 IH2].
    cbn [generateRoomCodeFrom]. rewrite Ec. simpl.
    rewrite IH1, Hc, IH2. auto.
Qed.

Lemma lower_not_upperOrDigit c : isLower c = true -> isUpperOrDigit c = false.
Proof.
  unfold isLower, isUpperOrDigit, isUpper, isDigit.
  generalize (nat_of_ascii c). intros n H.
  apply andb_true_iff in H. destruct H as [H1 H2].
  apply Nat.leb_le in H1. apply Nat.leb_le in H2.
  apply orb_false_iff. split; apply andb_false_iff; right;
    apply Nat.leb_gt; lia.
Qed.

Lemma upperOrDigit_has_no_lower s :
  stringForall isUpperOrDigit s = true -> stringExists isLower s = false.
Proof.
  induction s as [|c r IH]; simpl; [reflexivity|].
  intros H. apply andb_true_iff in H. destruct H as [H1 H2].
  rewrite (IH H2). destruct (isLower c) eqn:E; [|reflexivity].
  apply lower_not_upperOrDigit in E. congruence.
Qed.

Lemma findRoomByCode_none db c :
  (forall room, In room (map snd (rooms db)) -> code room <> c) ->
  findRoomByCode db c = None.
Proof.
  intros H. unfold findRoomByCode.
  destruct (find (fun r => String.eqb (code r) c) (map snd (rooms db)))
    as [found|] eqn:E; [|reflexivity].
  apply find_some in E. destruct E as [Hin Hc].
  apply String.eqb_eq in Hc. exfalso. exact (H found Hin Hc).
Qed.

(** C10: the lookup by join code compares the whole string, letter case
    included.  A snapshot it returns is of a room whose code is the string
    asked for; for a string that is the code of no room, [getRoomByCode]
    returns null and [joinRoom] throws 'Room not found' and changes
    nothing.  Every generated code is six characters out of the upper-case
    letters and the digits, so a string with a lower-case letter in it finds
    no room whose code was generated, whatever its upper-case form is. *)
Theorem room_lookup_by_code_is_exact :
  (forall db c snap,
      getRoomByCode db c = Some snap -> code (snap_room snap) = c)
  /\ (forall db c name participantId,
        (forall room, In room (map snd (rooms db)) -> code room <> c) ->
        getRoomByCode db c = None
        /\ joinRoom db c name participantId = Throw RoomNotFound
        /\ message RoomNotFound = "Room not found"
        /\ fst (step db (JoinRoom c name participantId)) = db)
  /\ (forall rnd,
        (forall i, 0 <= rnd i /\ rnd i < 1) ->
        String.length (generateRoomCode rnd) = 6%nat
        /\ stringForall isUpperOrDigit (generateRoomCode rnd) = true)
  /\ (forall db c,
        (forall room, In room (map snd (rooms db)) ->
                      stringForall isUpperOrDigit (code room) = true) ->
        stringExists isLower c = true ->
        getRoomByCode db c = None).
Proof.
  split; [|split; [|split]].
  - intros db c snap. unfold getRoomByCode.
    destruct (findRoomByCode db c) as [found|] eqn:E; [|discriminate].
    intros [= <-]. simpl. eapply find_code_In; eassumption.
  - intros db c name pid H.
    assert (E : getRoomByCode db c = None).
    { unfold getRoomByCode. now rewrite findRoomByCode_none. }
    split; [exact E|]. unfold step, joinRoom. rewrite E. simpl. auto.
  - intros rnd R. apply generateRoomCodeFrom_shape. exact R.
  - intros db c H L. unfold getRoomByCode. rewrite findRoomByCode_none; auto.
    intros room Hin Hc. specialize (H room Hin). rewrite Hc in H.
    apply upperOrDigit_has_no_lower in H. congruence.
Qed.

Lemma seventhDraws_range i : 0 <= seventhDraws i /\ seventhDraws i < 1.
Proof.
  pose proof (Nat.mod_upper_bound i 7 ltac:(discriminate)) as B.
  unfold seventhDraws, Qle, Qlt. cbn [Qnum Qden]. lia.
Qed.

Lemma room_lookup_by_code_is_exact_witness :
  ((forall room, In room (map snd (rooms dbLobby)) -> code room <> "aaaaaa")
   /\ getRoomByCode dbLobby "aaaaaa" = None
   /\ joinRoom dbLobby "aaaaaa" "Bob" "p_2" = Throw RoomNotFound)
  /\ ((forall i, 0 <= seventhDraws i /\ seventhDraws i < 1)
      /\ generateRoomCode seventhDraws = "AEKPUY"
      /\ stringForall isUpperOrDigit (generateRoomCode seventhDraws) = true)
  /\ ((forall room, In room (map snd (rooms dbLobby)) ->
                    stringForall isUpperOrDigit (code room) = true)
      /\ stringExists isLower "AAAAAa" = true
      /\ getRoomByCode dbLobby "AAAAAa" = None)
  /\ (exists snap,
        getRoomByCode dbLobby "AAAAAA" = Some snap
        /\ code (snap_room snap) = "AAAAAA").
Proof.
  destruct room_lookup_by_code_is_exact as (X & N & G & L).
  assert (D : forall room, In room (map snd (rooms dbLobby)) ->
                           code room <> "aaaaaa").
  { intros room [<- | []]. discriminate. }
  assert (U : forall room, In room (map snd (rooms dbLobby)) ->
                           stringForall isUpperOrDigit (code room) = true).
  { intros room [<- | []]. reflexivity. }
  split; [|split; [|split]].
  - split; [exact D|].
    destruct (N dbLobby "aaaaaa" "Bob" "p_2" D) as (E1 & E2 & _).
    split; [exact E1|exact E2].
  - split; [exact seventhDraws_range|]. split; [reflexivity|].
    exact (proj2 (G seventhDraws seventhDraws_range)).
  - split; [exact U|]. split; [reflexivity|].
    exact (L dbLobby "AAAAAa" U eq_refl).
  - eexists. split; [reflexivity|].
    exact (X dbLobby "AAAAAA" _ eq_refl).
Defined.

(* ================================================================== *)
(** * Further properties of the store *)

(** ** Creating rooms *)

Lemma assocSet_fresh {V : Type} (l : list (string * V)) k v :
  assocGet k l = None -> assocSet k v l = l ++ [(k, v)].
Proof.
  induction l as [|[k0 v0] r IH]; simpl; [reflexivity|].
  destruct (String.eqb k0 k); [discriminate|].
  intros H. now rewrite IH.
Qed.

Lemma find_app_first {A : Type} (f : A -> bool) l1 l2 x :
  find f l1 = Some x -> find f (l1 ++ l2) = Some x.
Proof.
  induction l1 as [|a r IH]; simpl; [discriminate|].
  destruct (f a); auto.
Qed.

Lemma notify_no_listener db roomId :
  listenersOf db roomId = [] -> notify db roomId = [].
Proof.
  unfold notify, listenersOf.
  destruct (assocGet roomId (rooms db)); [|reflexivity].
  destruct (assocGet roomId (listeners db)); intros H; [now rewrite H|reflexivity].
Qed.



(** X2: [createRoom] does not look for a room that already has the code it
    generates.  When an existing room has that code and the new id is
    unused, the new room gets the same code and the lookup by code keeps
    returning the older room. *)
Theorem createRoom_code_collision_keeps_older_room :
  forall db quizId quiz id rnd now older,
    assocGet quizId (quizzes db) = Some quiz ->
    assocGet id (rooms db) = None ->
    findRoomByCode db (generateRoomCode rnd) = Some older ->
    exists db' out room,
      createRoom db quizId id rnd now = Ok (db', out, room)
      /\ code room = code older
      /\ assocGet id (rooms db') = Some room
      /\ option_map snap_room (getRoomByCode db' (generateRoomCode rnd))
         = Some older.
Proof.
  intros db qz quiz id rnd now older Hq Hid Hc.
  unfold createRoom. rewrite Hq. eexists _, _, _. split; [reflexivity|].
  split.
  - simpl. symmetry. eapply find_code_In. eassumption.
  - split; [simpl; apply assocGet_set_same|].
    unfold getRoomByCode, findRoomByCode. simpl.
    rewrite assocSet_fresh by assumption. rewrite map_app.
    unfold findRoomByCode in Hc. now rewrite (find_app_first _ _ _ _ Hc).
Qed.

Lemma createRoom_code_collision_keeps_older_room_witness :
  exists quiz older,
    assocGet "quiz_1" (quizzes dbLobby) = Some quiz
    /\ assocGet "room_2" (rooms dbLobby) = None
    /\ findRoomByCode dbLobby (generateRoomCode zeroDraws) = Some older
    /\ room_id older = "room_1"
    /\ exists db' out room,
         createRoom dbLobby "quiz_1" "room_2" zeroDraws 1005 = Ok (db', out, room)
         /\ code room = code older
         /\ assocGet "room_2" (rooms db') = Some room
         /\ option_map snap_room (getRoomByCode db' (generateRoomCode zeroDraws))
            = Some older.
Proof.
  eexists _, _. split; [reflexivity|]. split; [reflexivity|].
  split; [reflexivity|]. split; [reflexivity|].
  exact (createRoom_code_collision_keeps_older_room
           dbLobby "quiz_1" _ "room_2" zeroDraws 1005%Z _
           eq_refl eq_refl eq_refl).
Defined.

(** ** Keys of the room table *)

Lemma assocGet_In_pair {V : Type} (l : list (string * V)) k v :
  assocGet k l = Some v -> In (k, v) l.
Proof.
  induction l as [|[k0 v0] r IH]; simpl; [discriminate|].
  destruct (String.eqb k0 k) eqn:E.
  - apply String.eqb_eq in E. intros [= ->]. subst. now left.
  - auto.
Qed.

Lemma assocGet_None_not_key {V : Type} (l : list (string * V)) k :
  assocGet k l = None -> ~ In k (map fst l).
Proof.
  intros H Hin. destruct (assocGet_In_keys l k Hin) as [v Hv]. congruence.
Qed.

Lemma In_pair_assocGet {V : Type} (l : list (string * V)) k v :
  NoDup (map fst l) -> In (k, v) l -> assocGet k l = Some v.
Proof.
  induction l as [|[k0 v0] r IH]; simpl; [tauto|].
  intros ND. inversion ND as [|x xs Hx ND' E]; subst.
  intros [[= -> ->] | Hin].
  - now rewrite String.eqb_refl.
  - destruct (String.eqb k0 k) eqn:E; [|auto].
    apply String.eqb_eq in E. subst. exfalso. apply Hx.
    change k with (fst (k, v)). now apply in_map.
Qed.

Lemma In_assocSet {V : Type} (l : list (string * V)) k v k' v' :
  In (k', v') (assocSet k v l) -> (k' = k /\ v' = v) \/ In (k', v') l.
Proof.
  induction l as [|[k0 v0] r IH]; simpl.
  - intros [[= <- <-] | []]. auto.
  - destruct (String.eqb k0 k) eqn:E; simpl.
    + apply String.eqb_eq in E. subst. intros [[= <- <-] | H]; auto.
    + intros [H | H]; [auto|]. destruct (IH H); auto.
Qed.

Lemma assocSet_keys {V : Type} (l : list (string * V)) k v :
  map fst (assocSet k v l)
  = match assocGet k l with
    | Some _ => map fst l
    | None => map fst l ++ [k]
    end.
Proof.
  induction l as [|[k0 v0] r IH]; simpl; [reflexivity|].
  destruct (String.eqb k0 k) eqn:E; simpl; [reflexivity|].
  rewrite IH. now destruct (assocGet k r).
Qed.

Lemma assocSet_keys_NoDup {V : Type} (l : list (string * V)) k v :
  NoDup (map fst l) -> NoDup (map fst (assocSet k v l)).
Proof.
  intros ND. rewrite assocSet_keys.
  destruct (assocGet k l) eqn:E; [exact ND|].
  apply NoDup_snoc; [exact ND|]. now apply assocGet_None_not_key.
Qed.

Lemma assocSet_twice {V : Type} (l : list (string * V)) k v w :
  assocSet k w (assocSet k v l) = assocSet k w l.
Proof.
  induction l as [|[k0 v0] r IH]; simpl.
  - now rewrite String.eqb_refl.
  - destruct (String.eqb k0 k) eqn:E; simpl; rewrite E; [reflexivity|].
    now rewrite IH.
Qed.

Lemma wellKeyed_set db k room' :
  storeWellKeyed db -> room_id room' = k ->
  NoDup (map fst (assocSet k room' (rooms db)))
  /\ forall k0 r, In (k0, r) (assocSet k room' (rooms db)) -> room_id r = k0.
Proof.
  intros [ND K] E. split; [now apply assocSet_keys_NoDup|].
  intros k0 r Hin. destruct (In_assocSet _ _ _ _ _ Hin) as [[-> ->] | H]; auto.
Qed.

Lemma wellKeyed_lookup db k room :
  storeWellKeyed db -> assocGet k (rooms db) = Some room -> room_id room = k.
Proof. intros [_ K] H. apply K. now apply assocGet_In_pair. Qed.

Lemma wellKeyed_value db room :
  storeWellKeyed db -> In room (map snd (rooms db)) ->
  assocGet (room_id room) (rooms db) = Some room.
Proof.
  intros [ND K] Hin. apply in_map_iff in Hin.
  destruct Hin as ([k r] & E & Hin). simpl in E. subst r.
  rewrite (K k room Hin). now apply In_pair_assocGet.
Qed.

Lemma step_wellKeyed db op :
  storeWellKeyed db -> storeWellKeyed (fst (step db op)).
Proof.
  intros W.
  destruct op as [id now t qs | qz id rnd now | c name pid | r | r | r
                 | r pid qid v taken now | r cb]; simpl.
  - exact W.
  - unfold createRoom. destruct (assocGet qz (quizzes db)); [|exact W].
    simpl. unfold storeWellKeyed. simpl. now apply wellKeyed_set.
  - unfold joinRoom, getRoomByCode.
    destruct (findRoomByCode db c) as [found|]; [|exact W]. simpl.
    destruct (assocGet (room_id found) (rooms db)) as [room0|] eqn:H0;
      [|exact W].
    simpl. unfold storeWellKeyed. simpl. apply wellKeyed_set; [exact W|].
    simpl. eapply wellKeyed_lookup; eassumption.
  - unfold startQuiz.
    destruct (assocGet r (rooms db)) as [room0|] eqn:H0; [|exact W].
    simpl. unfold storeWellKeyed. simpl. apply wellKeyed_set; [exact W|].
    simpl. eapply wellKeyed_lookup; eassumption.
  - unfold goToNextQuestion.
    destruct (assocGet r (rooms db)) as [room0|] eqn:H0; [|exact W].
    destruct (assocGet (quizId room0) (quizzes db)) as [quiz|]; [|exact W].
    simpl. unfold storeWellKeyed. simpl. apply wellKeyed_set; [exact W|].
    destruct (currentQuestionIndex room0
              <? Z.of_nat (List.length (questions quiz)) - 1)%Z;
      simpl; eapply wellKeyed_lookup; eassumption.
  - unfold finishQuiz.
    destruct (assocGet r (rooms db)) as [room0|] eqn:H0; [|exact W].
    simpl. unfold storeWellKeyed. simpl. apply wellKeyed_set; [exact W|].
    simpl. eapply wellKeyed_lookup; eassumption.
  - unfold submitAnswer.
    destruct (assocGet r (rooms db)) as [room0|] eqn:H0; [|exact W].
    destruct (assocGet (quizId room0) (quizzes db)) as [quiz|]; [|exact W].
    destruct (findQuestion qid (questions quiz)) as [question|]; [|exact W].
    simpl. unfold storeWellKeyed. simpl. apply wellKeyed_set; [exact W|].
    simpl. eapply wellKeyed_lookup; eassumption.
  - exact W.
Qed.

Lemma reachable_wellKeyed db : reachable db -> storeWellKeyed db.
Proof.
  induction 1 as [|db op R IH F].
  - split; [constructor|intros k r []].
  - now apply step_wellKeyed.
Qed.

(** The sample databases are built by the calls. *)
Lemma dbScored_reachable : reachable dbScored.
Proof.
  apply (reachable_runOps scoredOps emptyDb reach_empty).
  vm_compute. reflexivity.
Qed.

Lemma dbScored_room : assocGet "room_1" (rooms dbScored) = Some roomScored.
Proof. vm_compute. reflexivity. Qed.

Lemma dbScored_quiz : assocGet "quiz_1" (quizzes dbScored) = Some sampleQuiz.
Proof. vm_compute. reflexivity. Qed.

Lemma dbFinished_reachable : reachable dbFinished.
Proof.
  apply (reachable_runOps
           (setupOps ++ [StartQuiz "room_1";
                         SubmitAnswer "room_1" "p_1" "q1" (JNum 2) (Some 0) 1002;
                         FinishQuiz "room_1"])
           emptyDb reach_empty).
  vm_compute. reflexivity.
Qed.

Lemma dbTwiceSubscribed_reachable : reachable dbTwiceSubscribed.
Proof.
  apply (reachable_runOps twiceSubscribedOps emptyDb reach_empty).
  vm_compute. reflexivity.
Qed.

(** ** Pushes *)

Lemma notify_fan_out db roomId room :
  assocGet roomId (rooms db) = Some room ->
  notify db roomId
  = map (fun cb => (cb, snapshotOf db room)) (listenersOf db roomId).
Proof.
  intros H. unfold notify, listenersOf. rewrite H.
  now destruct (assocGet roomId (listeners db)).
Qed.

Lemma notify_current db roomId cb snap :
  In (cb, snap) (notify db roomId) ->
  exists room,
    assocGet roomId (rooms db) = Some room
    /\ snap = snapshotOf db room
    /\ In cb (listenersOf db roomId).
Proof.
  unfold notify, listenersOf.
  destruct (assocGet roomId (rooms db)) as [room|]; [|intros []].
  destruct (assocGet roomId (listeners db)) as [ls|]; [|intros []].
  intros H. apply in_map_iff in H. destruct H as (x & [= <- <-] & Hin).
  exists room. auto.
Qed.





(** X5: [finishQuiz] sets the status of an existing room to finished
    whatever the status was, lobby included, and touches nothing else of the
    room; called again it leaves the database as it is and pushes the same
    snapshots once more. *)
Theorem finishQuiz_from_any_status :
  forall db roomId room,
    assocGet roomId (rooms db) = Some room ->
    exists db' out,
      finishQuiz db roomId = Ok (db', out)
      /\ assocGet roomId (rooms db')
         = Some (mkRoom (room_id room) (code room) (quizId room) finished
                        (currentQuestionIndex room) (participants room)
                        (answers room) (room_createdAt room))
      /\ finishQuiz db' roomId = Ok (db', out).
Proof.
  intros db rid room Hr. unfold finishQuiz at 1. rewrite Hr.
  eexists _, _. split; [reflexivity|]. simpl.
  split; [apply assocGet_set_same|].
  unfold finishQuiz. simpl. rewrite assocGet_set_same.
  unfold setRooms, setStatus. simpl. now rewrite assocSet_twice.
Qed.

Lemma finishQuiz_from_any_status_witness :
  exists room,
    assocGet "room_1" (rooms dbLobby) = Some room
    /\ status room = lobby
    /\ exists db' out,
         finishQuiz dbLobby "room_1" = Ok (db', out)
         /\ statusOf db' "room_1" = Some finished
         /\ indexOf db' "room_1" = Some (-1)%Z
         /\ finishQuiz db' "room_1" = Ok (db', out).
Proof.
  eexists. split; [reflexivity|]. split; [reflexivity|].
  destruct (finishQuiz_from_any_status dbLobby "room_1" _ eq_refl)
    as (db' & out & Hf & Hr & Hi).
  exists db', out. split; [exact Hf|].
  unfold statusOf, indexOf. rewrite Hr. auto.
Defined.



(** X7: a [startQuiz], [goToNextQuestion], [finishQuiz] or [submitAnswer]
    that succeeds calls every callback subscribed to the room exactly once,
    in the order of subscription, each with the snapshot of the room as the
    call left it. *)
Theorem mutation_pushes_to_every_listener_once :
  forall db roomId db' out,
    (startQuiz db roomId = Ok (db', out)
     \/ goToNextQuestion db roomId = Ok (db', out)
     \/ finishQuiz db roomId = Ok (db', out)
     \/ exists participantId questionId value taken now answer,
         submitAnswer db roomId participantId questionId value taken now
         = Ok (db', out, answer)) ->
    exists room',
      assocGet roomId (rooms db') = Some room'
      /\ out = map (fun cb => (cb, snapshotOf db' room')) (listenersOf db roomId).
Proof.
  intros db rid db' out H.
  assert (G : forall room',
             assocGet rid (rooms db') = Some room' ->
             listeners db' = listeners db ->
             out = notify db' rid ->
             exists room',
               assocGet rid (rooms db') = Some room'
               /\ out = map (fun cb => (cb, snapshotOf db' room'))
                            (listenersOf db rid)).
  { intros room' Hr Hl ->. exists room'. split; [exact Hr|].
    rewrite (notify_fan_out _ _ _ Hr). unfold listenersOf. now rewrite Hl. }
  destruct H as [H | [H | [H | (pid & qid & v & taken & now & a & H)]]].
  - unfold startQuiz in H.
    destruct (assocGet rid (rooms db)) as [room|]; [|discriminate].
    injection H as <- <-. eapply G; [simpl; apply assocGet_set_same|..];
      reflexivity.
  - unfold goToNextQuestion in H.
    destruct (assocGet rid (rooms db)) as [room|]; [|discriminate].
    destruct (assocGet (quizId room) (quizzes db)); [|discriminate].
    injection H as <- <-. eapply G; [simpl; apply assocGet_set_same|..];
      reflexivity.
  - unfold finishQuiz in H.
    destruct (assocGet rid (rooms db)) as [room|]; [|discriminate].
    injection H as <- <-. eapply G; [simpl; apply assocGet_set_same|..];
      reflexivity.
  - unfold submitAnswer in H.
    destruct (assocGet rid (rooms db)) as [room|]; [|discriminate].
    destruct (assocGet (quizId room) (quizzes db)) as [quiz|]; [|discriminate].
    destruct (findQuestion qid (questions quiz)); [|discriminate].
    injection H as <- <- _. eapply G; [simpl; apply assocGet_set_same|..];
      reflexivity.
Qed.

(** Two callbacks on the running room. *)
Lemma mutation_pushes_to_every_listener_once_witness :
  exists db' out,
    startQuiz (fst (runOps dbLobby [OnRoomUpdate "room_1" 7%nat;
                                    OnRoomUpdate "room_1" 3%nat])) "room_1"
    = Ok (db', out)
    /\ map fst out = [7%nat; 3%nat]
    /\ map (fun d => status (snap_room (snd d))) out = [running; running].
Proof.
  eexists _, _. split; [reflexivity|].
  destruct (mutation_pushes_to_every_listener_once
              (fst (runOps dbLobby [OnRoomUpdate "room_1" 7%nat;
                                    OnRoomUpdate "room_1" 3%nat]))
              "room_1" _ _ (or_introl eq_refl)) as (room' & Hr & Ho).
  split; reflexivity.
Defined.

(** X8: no call pushes a stale snapshot or calls a stranger: every snapshot
    handed to a callback by any call is the snapshot of a room as it is in
    the database after that call, and the callback is subscribed to that
    room. *)
Theorem pushes_are_current_and_subscribed :
  forall db op cb snap,
    In (cb, snap) (snd (step db op)) ->
    exists roomId room',
      assocGet roomId (rooms (fst (step db op))) = Some room'
      /\ snap = snapshotOf (fst (step db op)) room'
      /\ In cb (listenersOf (fst (step db op)) roomId).
Proof.
  intros db op cb snap.
  assert (N : forall db' x,
             In (cb, snap) (notify db' x) ->
             exists roomId room',
               assocGet roomId (rooms db') = Some room'
               /\ snap = snapshotOf db' room'
               /\ In cb (listenersOf db' roomId)).
  { intros db' x H. destruct (notify_current _ _ _ _ H) as (room & A & B & C).
    exists x, room. auto. }
  destruct op as [id now t qs | qz id rnd now | c name pid | r | r | r
                 | r pid qid v taken now | r cb0]; simpl.
  - intros [].
  - unfold createRoom. destruct (assocGet qz (quizzes db)); [|intros []].
    simpl. apply N.
  - unfold joinRoom, getRoomByCode.
    destruct (findRoomByCode db c) as [found|]; [|intros []]. simpl.
    destruct (assocGet (room_id found) (rooms db)); [|intros []].
    simpl. apply N.
  - unfold startQuiz. destruct (assocGet r (rooms db)); [|intros []].
    simpl. apply N.
  - unfold goToNextQuestion.
    destruct (assocGet r (rooms db)) as [room0|]; [|intros []].
    destruct (assocGet (quizId room0) (quizzes db)); [|intros []].
    simpl. apply N.
  - unfold finishQuiz. destruct (assocGet r (rooms db)); [|intros []].
    simpl. apply N.
  - unfold submitAnswer.
    destruct (assocGet r (rooms db)) as [room0|]; [|intros []].
    destruct (assocGet (quizId room0) (quizzes db)) as [quiz|]; [|intros []].
    destruct (findQuestion qid (questions quiz)); [|intros []].
    simpl. apply N.
  - unfold onRoomUpdate. simpl.
    destruct (assocGet r (rooms db)) as [room|] eqn:Hr; [|intros []].
    intros [[= <- <-] | []]. exists r, room. split; [exact Hr|].
    split; [reflexivity|]. unfold listenersOf. simpl.
    rewrite assocGet_set_same. apply setAdd_In.
Qed.

Lemma pushes_are_current_and_subscribed_witness :
  exists db1 cb snap,
    db1 = fst (onRoomUpdate dbRunning "room_1" 7%nat)
    /\ In (cb, snap) (snd (step db1 (GoToNextQuestion "room_1")))
    /\ cb = 7%nat
    /\ currentQuestionIndex (snap_room snap) = 1%Z
    /\ exists roomId room',
         assocGet roomId (rooms (fst (step db1 (GoToNextQuestion "room_1"))))
         = Some room'
         /\ snap = snapshotOf (fst (step db1 (GoToNextQuestion "room_1"))) room'.
Proof.
  eexists _, _, _. split; [reflexivity|].
  assert (Hin : In (7%nat,
                    snapshotOf
                      (fst (step (fst (onRoomUpdate dbRunning "room_1" 7%nat))
                                 (GoToNextQuestion "room_1")))
                      (mkRoom "room_1" "AAAAAA" "quiz_1" running 1
                              [mkParticipant "p_1" "Ann" 0 []] [] 1001))
                   (snd (step (fst (onRoomUpdate dbRunning "room_1" 7%nat))
                              (GoToNextQuestion "room_1"))))
    by (left; reflexivity).
  split; [exact Hin|]. split; [reflexivity|]. split; [reflexivity|].
  destruct (pushes_are_current_and_subscribed _ _ _ _ Hin)
    as (rid & room' & A & B & _).
  exists rid, room'. auto.
Defined.

(** X9: [createRoom] replaces the listener set of the new id by an empty
    one.  A callback that subscribed to that id before the room was created
    is in the set before the call and not after it, so the creation and the
    mutations that follow push nothing to it. *)
Theorem createRoom_drops_earlier_subscriptions :
  forall db quizId id rnd now cb db' out room,
    createRoom (fst (onRoomUpdate db id cb)) quizId id rnd now
    = Ok (db', out, room) ->
    In cb (listenersOf (fst (onRoomUpdate db id cb)) id)
    /\ listenersOf db' id = []
    /\ out = []
    /\ snd (step db' (StartQuiz id)) = [].
Proof.
  intros db qz id rnd now cb db' out room H.
  split.
  { unfold listenersOf. simpl. rewrite assocGet_set_same. apply setAdd_In. }
  unfold createRoom in H.
  destruct (assocGet qz (quizzes (fst (onRoomUpdate db id cb)))); [|discriminate].
  injection H as <- <- _.
  assert (L : forall rs,
             listenersOf
               (mkDb (quizzes db) rs
                     (assocSet id [] (listeners (fst (onRoomUpdate db id cb)))))
               id = []).
  { intros rs. unfold listenersOf. simpl. now rewrite assocGet_set_same. }
  split; [apply L|]. split; [apply notify_no_listener, L|].
  simpl. unfold startQuiz. simpl. rewrite assocGet_set_same. simpl.
  apply notify_no_listener. apply L.
Qed.

Lemma createRoom_drops_earlier_subscriptions_witness :
  exists db' out room,
    createRoom (fst (onRoomUpdate dbLobby "room_2" 7%nat)) "quiz_1" "room_2"
               seventhDraws 1005 = Ok (db', out, room)
    /\ In 7%nat (listenersOf (fst (onRoomUpdate dbLobby "room_2" 7%nat)) "room_2")
    /\ listenersOf db' "room_2" = []
    /\ snd (step db' (StartQuiz "room_2")) = [].
Proof.
  eexists _, _, _. split; [reflexivity|].
  destruct (createRoom_drops_earlier_subscriptions
              dbLobby "quiz_1" "room_2" seventhDraws 1005%Z 7%nat _ _ _ eq_refl)
    as (A & B & _ & D).
  auto.
Defined.

(** ** The listener sets *)

Lemma setAdd_NoDup cb ls : NoDup ls -> NoDup (setAdd cb ls).
Proof.
  intros ND. unfold setAdd. destruct (existsb (Nat.eqb cb) ls) eqn:E; [exact ND|].
  apply NoDup_snoc; [exact ND|]. intros Hin.
  assert (T : existsb (Nat.eqb cb) ls = true).
  { apply existsb_exists. exists cb. split; [exact Hin|apply Nat.eqb_refl]. }
  congruence.
Qed.

Lemma step_listeners_NoDup db op :
  (forall rid, NoDup (listenersOf db rid)) ->
  forall rid, NoDup (listenersOf (fst (step db op)) rid).
Proof.
  intros H rid.
  destruct op as [id now t qs | qz id rnd now | c name pid | r | r | r
                 | r pid qid v taken now | r cb]; simpl.
  - apply H.
  - unfold createRoom. destruct (assocGet qz (quizzes db)); [|apply H].
    unfold listenersOf. simpl. rewrite assocGet_set_cases.
    destruct (String.eqb id rid); [constructor|apply H].
  - unfold joinRoom, getRoomByCode.
    destruct (findRoomByCode db c) as [found|]; [|apply H]. simpl.
    destruct (assocGet (room_id found) (rooms db)); apply H.
  - unfold startQuiz. destruct (assocGet r (rooms db)); apply H.
  - unfold goToNextQuestion.
    destruct (assocGet r (rooms db)) as [room0|]; [|apply H].
    destruct (assocGet (quizId room0) (quizzes db)); apply H.
  - unfold finishQuiz. destruct (assocGet r (rooms db)); apply H.
  - unfold submitAnswer.
    destruct (assocGet r (rooms db)) as [room0|]; [|apply H].
    destruct (assocGet (quizId room0) (quizzes db)) as [quiz|]; [|apply H].
    destruct (findQuestion qid (questions quiz)); apply H.
  - unfold listenersOf. simpl. rewrite assocGet_set_cases.
    destruct (String.eqb r rid) eqn:E; [|apply H].
    apply setAdd_NoDup. apply String.eqb_eq in E. subst. apply (H rid).
Qed.

Lemma reachable_listeners_NoDup db :
  reachable db -> forall rid, NoDup (listenersOf db rid).
Proof.
  induction 1 as [|db op R IH F].
  - intros rid. constructor.
  - now apply step_listeners_NoDup.
Qed.

(** X10: the listeners of a room form a set.  However often a callback
    subscribes to a room, in a database built by the calls it is in the
    room's set once, so one [notify] calls it at most once. *)
Theorem callback_is_notified_at_most_once :
  forall db roomId,
    reachable db ->
    NoDup (listenersOf db roomId) /\ NoDup (map fst (notify db roomId)).
Proof.
  intros db rid R. pose proof (reachable_listeners_NoDup db R rid) as ND.
  split; [exact ND|].
  unfold notify. destruct (assocGet rid (rooms db)) as [room|]; [|constructor].
  unfold listenersOf in ND.
  destruct (assocGet rid (listeners db)) as [ls|]; [|constructor].
  rewrite map_map. simpl. now rewrite map_id.
Qed.

Lemma callback_is_notified_at_most_once_witness :
  reachable dbTwiceSubscribed
  /\ map fst (notify dbTwiceSubscribed "room_1") = [7%nat]
  /\ NoDup (map fst (notify dbTwiceSubscribed "room_1")).
Proof.
  pose proof dbTwiceSubscribed_reachable as R.
  split; [exact R|]. split; [reflexivity|].
  exact (proj2 (callback_is_notified_at_most_once _ "room_1" R)).
Defined.

(** ** Nothing is ever removed *)

Lemma creditFirst_names pid qid pts ps :
  map (fun p => (p_id p, p_name p)) (creditFirst pid qid pts ps)
  = map (fun p => (p_id p, p_name p)) ps.
Proof.
  induction ps as [|p0 r IH]; simpl; [reflexivity|].
  destruct (String.eqb (p_id p0) pid); simpl; [reflexivity|now rewrite IH].
Qed.

Lemma roomChange_grows room room' :
  roomChange room room' ->
  (exists more,
      map (fun p => (p_id p, p_name p)) (participants room')
      = map (fun p => (p_id p, p_name p)) (participants room) ++ more)
  /\ forall qid, exists more, answersFor room' qid = answersFor room qid ++ more.
Proof.
  intros C. destruct C as [ | pid name U | | i | | a]; simpl.
  - split; [exists []|intros qid; exists []]; now rewrite app_nil_r.
  - split; [|intros qid; exists []; now rewrite app_nil_r].
    rewrite map_app. eexists. reflexivity.
  - split; [exists []|intros qid; exists []]; now rewrite app_nil_r.
  - split; [exists []|intros qid; exists []]; now rewrite app_nil_r.
  - split; [exists []|intros qid; exists []]; now rewrite app_nil_r.
  - split.
    + exists []. rewrite creditFirst_names. now rewrite app_nil_r.
    + intros qid. unfold answersFor at 1. simpl. rewrite assocGet_set_cases.
      destruct (String.eqb (a_questionId a) qid) eqn:E.
      * apply String.eqb_eq in E. subst. eexists. reflexivity.
      * exists []. now rewrite app_nil_r.
Qed.

(** X11: participants and answers are only ever added.  Along any sequence
    of calls a room stays in the database, the ids and names of its
    participants before the calls are an initial part, in the same order, of
    those after, and so is each question's answer list. *)
Theorem participants_and_answers_only_grow :
  forall ops db roomId room,
    assocGet roomId (rooms db) = Some room ->
    freshOps db ops = true ->
    exists room',
      assocGet roomId (rooms (fst (runOps db ops))) = Some room'
      /\ (exists more,
             map (fun p => (p_id p, p_name p)) (participants room')
             = map (fun p => (p_id p, p_name p)) (participants room) ++ more)
      /\ forall qid, exists more,
           answersFor room' qid = answersFor room qid ++ more.
Proof.
  induction ops as [|op ops IH]; intros db rid room Hr F.
  - exists room. split; [exact Hr|].
    split; [exists []|intros qid; exists []]; now rewrite app_nil_r.
  - simpl in F. apply andb_true_iff in F. destruct F as [F1 F2].
    destruct (step_existing_room db op rid room Hr F1) as (room1 & H1 & C & _).
    destruct (roomChange_grows _ _ C) as [(m1 & P1) A1].
    destruct (IH _ rid room1 H1 F2) as (room' & H' & (m2 & P2) & A2).
    exists room'. rewrite runOps_cons_fst. split; [exact H'|]. split.
    + exists (m1 ++ m2). now rewrite P2, P1, app_assoc.
    + intros qid. destruct (A1 qid) as [n1 E1]. destruct (A2 qid) as [n2 E2].
      exists (n1 ++ n2). now rewrite E2, E1, app_assoc.
Qed.

Lemma participants_and_answers_only_grow_witness :
  exists room,
    assocGet "room_1" (rooms dbAnswered) = Some room
    /\ freshOps dbAnswered (FinishQuiz "room_1" :: afterFinishOps) = true
    /\ exists room',
         assocGet "room_1"
           (rooms (fst (runOps dbAnswered (FinishQuiz "room_1" :: afterFinishOps))))
         = Some room'
         /\ map p_id (participants room) = ["p_1"]
         /\ map p_id (participants room') = ["p_1"; "p_2"]
         /\ exists more, answersFor room' "q1" = answersFor room "q1" ++ more.
Proof.
  eexists. split; [reflexivity|]. split; [reflexivity|].
  destruct (participants_and_answers_only_grow
              (FinishQuiz "room_1" :: afterFinishOps) dbAnswered "room_1" _
              eq_refl eq_refl) as (room' & H' & _ & A).
  exists room'. split; [exact H'|]. split; [reflexivity|].
  split; [|exact (A "q1")].
  assert (E : Some room'
              = assocGet "room_1"
                  (rooms (fst (runOps dbAnswered
                                 (FinishQuiz "room_1" :: afterFinishOps)))))
    by (symmetry; exact H').
  vm_compute in E. injection E as ->. reflexivity.
Defined.

(** ** The question index *)

Lemma step_keeps_quizzes db op qz quiz :
  freshOp db op = true ->
  assocGet qz (quizzes db) = Some quiz ->
  assocGet qz (quizzes (fst (step db op))) = Some quiz.
Proof.
  intros F H.
  destruct op as [id now t qs | qz0 id rnd now | c name pid | r | r | r
                 | r pid qid v taken now | r cb]; simpl in *.
  - destruct (assocGet id (quizzes db)) eqn:E; [discriminate|].
    rewrite assocGet_set_other; [exact H|congruence].
  - unfold createRoom. now destruct (assocGet qz0 (quizzes db)).
  - unfold joinRoom, getRoomByCode.
    destruct (findRoomByCode db c) as [found|]; [|exact H]. simpl.
    now destruct (assocGet (room_id found) (rooms db)).
  - unfold startQuiz. now destruct (assocGet r (rooms db)).
  - unfold goToNextQuestion.
    destruct (assocGet r (rooms db)) as [room0|]; [|exact H].
    now destruct (assocGet (quizId room0) (quizzes db)).
  - unfold finishQuiz. now destruct (assocGet r (rooms db)).
  - unfold submitAnswer.
    destruct (assocGet r (rooms db)) as [room0|]; [|exact H].
    destruct (assocGet (quizId room0) (quizzes db)) as [q0|]; [|exact H].
    now destruct (findQuestion qid (questions q0)).
  - exact H.
Qed.

Lemma step_keeps_indexInRange db op rid room' :
  freshOp db op = true ->
  (forall k room, assocGet k (rooms db) = Some room -> indexInRange db room) ->
  assocGet rid (rooms (fst (step db op))) = Some room' ->
  indexInRange (fst (step db op)) room'.
Proof.
  intros F IH Hr'.
  assert (Keep : forall room,
             indexInRange db room -> indexInRange (fst (step db op)) room).
  { intros room (quiz & Hq & B). exists quiz. split; [|exact B].
    now apply step_keeps_quizzes. }
  assert (Old : forall room, assocGet rid (rooms db) = Some room ->
                             room' = room -> indexInRange (fst (step db op)) room').
  { intros room H ->. apply Keep. eapply IH. eassumption. }
  assert (Upd : forall room,
             assocGet rid (rooms db) = Some room ->
             quizId room' = quizId room ->
             (forall quiz,
                 assocGet (quizId room) (quizzes db) = Some quiz ->
                 (-1 <= currentQuestionIndex room
                  <= Z.max 0 (Z.of_nat (List.length (questions quiz)) - 1))%Z ->
                 (status room = running -> 0 <= currentQuestionIndex room)%Z ->
                 (-1 <= currentQuestionIndex room'
                  <= Z.max 0 (Z.of_nat (List.length (questions quiz)) - 1))%Z
                 /\ (status room' = running -> 0 <= currentQuestionIndex room')%Z) ->
             indexInRange (fst (step db op)) room').
  { intros room H Eq G. destruct (IH _ _ H) as (quiz & Hq & B1 & B2).
    exists quiz. rewrite Eq. split; [now apply step_keeps_quizzes|].
    now apply G. }
  destruct op as [id now t qs | qz id rnd now | c name pid | r | r | r
                 | r pid qid v taken now | r cb]; simpl in Hr'.
  - destruct (assocGet rid (rooms db)) eqn:E; [|discriminate].
    eapply Old; [reflexivity|congruence].
  - unfold createRoom in Hr'.
    destruct (assocGet qz (quizzes db)) as [quiz|] eqn:Hq; simpl in Hr'.
    + rewrite assocGet_set_cases in Hr'.
      destruct (String.eqb id rid).
      * injection Hr' as <-. exists quiz. simpl.
        split; [unfold createRoom; now rewrite Hq|]. split; [lia|discriminate].
      * apply Keep. eapply IH. eassumption.
    + apply Keep. eapply IH. eassumption.
  - unfold joinRoom, getRoomByCode in Hr'.
    destruct (findRoomByCode db c) as [found|]; simpl in Hr';
      [|apply Keep; eapply IH; eassumption].
    destruct (assocGet (room_id found) (rooms db)) as [room0|] eqn:H0;
      simpl in Hr'; [|apply Keep; eapply IH; eassumption].
    rewrite assocGet_set_cases in Hr'.
    destruct (String.eqb (room_id found) rid) eqn:E;
      [|apply Keep; eapply IH; eassumption].
    apply String.eqb_eq in E. rewrite E in H0. injection Hr' as <-.
    apply (Upd room0 H0); [reflexivity|]. simpl. auto.
  - unfold startQuiz in Hr'.
    destruct (assocGet r (rooms db)) as [room0|] eqn:H0; simpl in Hr';
      [|apply Keep; eapply IH; eassumption].
    rewrite assocGet_set_cases in Hr'.
    destruct (String.eqb r rid) eqn:E; [|apply Keep; eapply IH; eassumption].
    apply String.eqb_eq in E. subst r. injection Hr' as <-.
    apply (Upd room0 H0); [reflexivity|]. simpl. intros. lia.
  - unfold goToNextQuestion in Hr'.
    destruct (assocGet r (rooms db)) as [room0|] eqn:H0; simpl in Hr';
      [|apply Keep; eapply IH; eassumption].
    destruct (assocGet (quizId room0) (quizzes db)) as [quiz0|] eqn:Hq0;
      simpl in Hr'; [|apply Keep; eapply IH; eassumption].
    rewrite assocGet_set_cases in Hr'.
    destruct (String.eqb r rid) eqn:E; [|apply Keep; eapply IH; eassumption].
    apply String.eqb_eq in E. subst r. injection Hr' as <-.
    apply (Upd room0 H0).
    + now destruct (currentQuestionIndex room0
                    <? Z.of_nat (List.length (questions quiz0)) - 1)%Z.
    + intros quiz Hq B1 B2. assert (quiz = quiz0) by congruence. subst quiz.
      destruct (Z.ltb_spec (currentQuestionIndex room0)
                  (Z.of_nat (List.length (questions quiz0)) - 1)); simpl.
      * split; [lia|]. intros S. specialize (B2 S). lia.
      * split; [lia|discriminate].
  - unfold finishQuiz in Hr'.
    destruct (assocGet r (rooms db)) as [room0|] eqn:H0; simpl in Hr';
      [|apply Keep; eapply IH; eassumption].
    rewrite assocGet_set_cases in Hr'.
    destruct (String.eqb r rid) eqn:E; [|apply Keep; eapply IH; eassumption].
    apply String.eqb_eq in E. subst r. injection Hr' as <-.
    apply (Upd room0 H0); [reflexivity|]. simpl. intros. split; [lia|discriminate].
  - unfold submitAnswer in Hr'.
    destruct (assocGet r (rooms db)) as [room0|] eqn:H0; simpl in Hr';
      [|apply Keep; eapply IH; eassumption].
    destruct (assocGet (quizId room0) (quizzes db)) as [quiz0|] eqn:Hq0;
      simpl in Hr'; [|apply Keep; eapply IH; eassumption].
    destruct (findQuestion qid (questions quiz0)); simpl in Hr';
      [|apply Keep; eapply IH; eassumption].
    rewrite assocGet_set_cases in Hr'.
    destruct (String.eqb r rid) eqn:E; [|apply Keep; eapply IH; eassumption].
    apply String.eqb_eq in E. subst r. injection Hr' as <-.
    apply (Upd room0 H0); [reflexivity|]. simpl. auto.
  - apply Keep. eapply IH. eassumption.
Qed.

Lemma reachable_indexInRange db :
  reachable db ->
  forall rid room, assocGet rid (rooms db) = Some room -> indexInRange db room.
Proof.
  induction 1 as [|db op R IH F]; intros rid room Hr.
  - discriminate.
  - eapply step_keeps_indexInRange; eassumption.
Qed.



Lemma goToNextQuestion_step db rid room quiz :
  assocGet rid (rooms db) = Some room ->
  assocGet (quizId room) (quizzes db) = Some quiz ->
  exists room',
    assocGet rid (rooms (fst (step db (GoToNextQuestion rid)))) = Some room'
    /\ quizzes (fst (step db (GoToNextQuestion rid))) = quizzes db
    /\ quizId room' = quizId room
    /\ ((currentQuestionIndex room
         < Z.of_nat (List.length (questions quiz)) - 1)%Z ->
        currentQuestionIndex room' = (currentQuestionIndex room + 1)%Z
        /\ status room' = status room)
    /\ ((Z.of_nat (List.length (questions quiz)) - 1
         <= currentQuestionIndex room)%Z ->
        currentQuestionIndex room' = currentQuestionIndex room
        /\ status room' = finished).
Proof.
  intros Hr Hq. simpl. unfold goToNextQuestion. rewrite Hr, Hq. simpl.
  eexists. split; [apply assocGet_set_same|]. split; [reflexivity|].
  destruct (Z.ltb_spec (currentQuestionIndex room)
              (Z.of_nat (List.length (questions quiz)) - 1));
    simpl; repeat split; intros; (reflexivity || lia).
Qed.

Lemma nexts_advance k : forall db rid room quiz,
  assocGet rid (rooms db) = Some room ->
  assocGet (quizId room) (quizzes db) = Some quiz ->
  (currentQuestionIndex room + Z.of_nat k
   <= Z.of_nat (List.length (questions quiz)) - 1)%Z ->
  exists room',
    assocGet rid (rooms (fst (runOps db (repeat (GoToNextQuestion rid) k))))
    = Some room'
    /\ currentQuestionIndex room' = (currentQuestionIndex room + Z.of_nat k)%Z
    /\ status room' = status room.
Proof.
  induction k as [|k IH]; intros db rid room quiz Hr Hq B.
  - exists room. simpl. split; [exact Hr|]. split; [lia|reflexivity].
  - destruct (goToNextQuestion_step db rid room quiz Hr Hq)
      as (room1 & H1 & Q1 & E1 & Lt & _).
    destruct Lt as [I1 S1]; [lia|].
    destruct (IH _ rid room1 quiz H1) as (room' & H' & I' & S').
    + now rewrite Q1, E1.
    + rewrite I1. lia.
    + exists room'. cbn [repeat]. rewrite runOps_cons_fst.
      split; [exact H'|]. split; [lia|congruence].
Qed.

Lemma nexts_finish k : forall db rid room quiz,
  assocGet rid (rooms db) = Some room ->
  assocGet (quizId room) (quizzes db) = Some quiz ->
  (currentQuestionIndex room + Z.of_nat k
   = Z.of_nat (List.length (questions quiz)) - 1)%Z ->
  exists room',
    assocGet rid (rooms (fst (runOps db (repeat (GoToNextQuestion rid) (S k)))))
    = Some room'
    /\ currentQuestionIndex room'
       = (Z.of_nat (List.length (questions quiz)) - 1)%Z
    /\ status room' = finished.
Proof.
  induction k as [|k IH]; intros db rid room quiz Hr Hq B.
  - destruct (goToNextQuestion_step db rid room quiz Hr Hq)
      as (room1 & H1 & _ & _ & _ & Ge).
    destruct Ge as [I1 S1]; [lia|].
    exists room1. cbn [repeat]. rewrite runOps_cons_fst. simpl.
    split; [exact H1|]. split; [lia|exact S1].
  - destruct (goToNextQuestion_step db rid room quiz Hr Hq)
      as (room1 & H1 & Q1 & E1 & Lt & _).
    destruct Lt as [I1 S1]; [lia|].
    destruct (IH _ rid room1 quiz H1) as (room' & H' & I' & S').
    + now rewrite Q1, E1.
    + rewrite I1. lia.
    + exists room'. change (repeat (GoToNextQuestion rid) (S (S k)))
        with (GoToNextQuestion rid :: repeat (GoToNextQuestion rid) (S k)).
      rewrite runOps_cons_fst. auto.
Qed.

(** X13: running through a quiz.  On a room whose quiz has at least one
    question, [startQuiz] followed by [k] calls of [goToNextQuestion] leaves
    the room running at question [k] as long as [k] is below the number of
    questions; with as many calls as there are questions the room is
    finished and its index is that of the last question. *)
Theorem startQuiz_then_next_runs_through_the_quiz :
  forall db roomId room quiz n,
    assocGet roomId (rooms db) = Some room ->
    assocGet (quizId room) (quizzes db) = Some quiz ->
    List.length (questions quiz) = S n ->
    (forall k, (k <= n)%nat ->
       exists room',
         assocGet roomId (rooms (fst (runOps db (startThenNext roomId k))))
         = Some room'
         /\ status room' = running
         /\ currentQuestionIndex room' = Z.of_nat k)
    /\ exists room',
         assocGet roomId (rooms (fst (runOps db (startThenNext roomId (S n)))))
         = Some room'
         /\ status room' = finished
         /\ currentQuestionIndex room' = Z.of_nat n.
Proof.
  intros db rid room quiz n Hr Hq Hn.
  assert (H0 : assocGet rid (rooms (fst (step db (StartQuiz rid))))
               = Some (setIndex 0 (setStatus running room))).
  { simpl. unfold startQuiz. rewrite Hr. simpl. apply assocGet_set_same. }
  assert (Q0 : assocGet (quizId (setIndex 0 (setStatus running room)))
                 (quizzes (fst (step db (StartQuiz rid)))) = Some quiz).
  { simpl. unfold startQuiz. rewrite Hr. simpl. exact Hq. }
  split.
  - intros k Hk.
    destruct (nexts_advance k _ rid _ quiz H0 Q0) as (room' & H' & I' & S').
    + rewrite Hn. cbn [currentQuestionIndex setIndex]. lia.
    + exists room'. unfold startThenNext. rewrite runOps_cons_fst.
      split; [exact H'|]. split; [exact S'|].
      cbn [currentQuestionIndex setIndex] in I'. lia.
  - destruct (nexts_finish n _ rid _ quiz H0 Q0) as (room' & H' & I' & S').
    + rewrite Hn. cbn [currentQuestionIndex setIndex]. lia.
    + exists room'. unfold startThenNext. rewrite runOps_cons_fst.
      split; [exact H'|]. split; [exact S'|]. rewrite I', Hn. lia.
Qed.

Lemma startQuiz_then_next_runs_through_the_quiz_witness :
  exists room quiz,
    assocGet "room_1" (rooms dbLobby) = Some room
    /\ assocGet (quizId room) (quizzes dbLobby) = Some quiz
    /\ List.length (questions quiz) = 3%nat
    /\ statusOf (fst (runOps dbLobby (startThenNext "room_1" 2))) "room_1"
       = Some running
    /\ exists room',
         assocGet "room_1" (rooms (fst (runOps dbLobby (startThenNext "room_1" 3))))
         = Some room'
         /\ status room' = finished
         /\ currentQuestionIndex room' = 2%Z.
Proof.
  eexists _, _. split; [reflexivity|]. split; [reflexivity|].
  split; [reflexivity|]. split; [reflexivity|].
  exact (proj2 (startQuiz_then_next_runs_through_the_quiz
                  dbLobby "room_1" _ _ 2 eq_refl eq_refl eq_refl)).
Defined.

(** ** Bounds of the score *)

Lemma mathRound_le x y : x <= y -> (mathRound x <= mathRound y)%Z.
Proof. intros H. unfold mathRound. apply Qfloor_resp_le. lra. Qed.

Lemma mathRound_nonneg x : 0 <= x -> (0 <= mathRound x)%Z.
Proof.
  intros H. unfold mathRound. change 0%Z with (Qfloor 0).
  apply Qfloor_resp_le. lra.
Qed.

Lemma fraction_at_least_half limit taken :
  1 # 2 <= Qmax (1 # 2) (1 - Qmax 0 taken / limit).
Proof. apply Q.le_max_l. Qed.

Lemma elapsed_share_nonneg limit taken : 0 < limit -> 0 <= Qmax 0 taken / limit.
Proof.
  intros H. apply Qle_shift_div_l; [exact H|].
  pose proof (Q.le_max_l 0 taken). lra.
Qed.

Lemma fraction_at_most_one limit taken :
  0 < limit -> Qmax (1 # 2) (1 - Qmax 0 taken / limit) <= 1.
Proof.
  intros H. pose proof (elapsed_share_nonneg limit taken H).
  apply Q.max_lub; lra.
Qed.

Lemma fraction_decreases limit t1 t2 :
  0 < limit -> t1 <= t2 ->
  Qmax (1 # 2) (1 - Qmax 0 t2 / limit) <= Qmax (1 # 2) (1 - Qmax 0 t1 / limit).
Proof.
  intros HL Ht. apply Q.max_le_compat_l.
  assert (M : Qmax 0 t1 <= Qmax 0 t2) by now apply Q.max_le_compat_l.
  assert (I : 0 <= / limit) by (apply Qlt_le_weak, Qinv_lt_0_compat; exact HL).
  assert (D : Qmax 0 t1 / limit <= Qmax 0 t2 / limit).
  { unfold Qdiv. now apply Qmult_le_compat_r. }
  lra.
Qed.

Lemma scale_le base f g : 0 <= base -> f <= g -> base * f <= base * g.
Proof.
  intros Hb H. rewrite (Qmult_comm base f), (Qmult_comm base g).
  now apply Qmult_le_compat_r.
Qed.

Lemma calculatePoints_nonneg q correct taken :
  0 <= basePoints q -> 0 <= calculatePoints q correct taken.
Proof.
  intros Hb. unfold calculatePoints.
  destruct correct; simpl; [|lra].
  destruct (timeLimitSec (baseOf q)) as [limit|]; [|exact Hb].
  destruct taken as [t|]; [|exact Hb].
  destruct (Qeq_bool limit 0); [exact Hb|].
  pose proof (fraction_at_least_half limit t) as H.
  remember (Qmax (1 # 2) (1 - Qmax 0 t / limit)) as f eqn:Ef. clear Ef.
  change (inject_Z 0 <= inject_Z (mathRound (basePoints q * f))).
  rewrite <- Zle_Qle. apply mathRound_nonneg.
  apply Qmult_le_0_compat; [exact Hb|lra].
Qed.

(** X14: the decay keeps a correct, timed answer between half and all of
    the base.  For a question with a positive time limit and a base that is
    not negative, whatever the time taken, the points awarded are at least
    [round(base * 0.5)] and at most [round(base)]. *)
Theorem calculatePoints_between_half_and_full :
  forall q limit taken,
    timeLimitSec (baseOf q) = Some limit ->
    0 < limit ->
    0 <= basePoints q ->
    inject_Z (mathRound (basePoints q * (1 # 2)))
    <= calculatePoints q true (Some taken)
    /\ calculatePoints q true (Some taken) <= inject_Z (mathRound (basePoints q)).
Proof.
  intros q limit taken HL Hpos Hb.
  rewrite (calculatePoints_timed q limit taken HL) by lra.
  rewrite <- !Zle_Qle. split; apply mathRound_le.
  - apply scale_le; [exact Hb|apply fraction_at_least_half].
  - rewrite <- (Qmult_1_r (basePoints q)) at 2.
    apply scale_le; [exact Hb|now apply fraction_at_most_one].
Qed.

Lemma calculatePoints_between_half_and_full_witness :
  timeLimitSec (baseOf sampleMcq) = Some 30
  /\ 0 < 30
  /\ 0 <= basePoints sampleMcq
  /\ calculatePoints sampleMcq true (Some 10) = 7
  /\ 5 <= calculatePoints sampleMcq true (Some 10)
  /\ calculatePoints sampleMcq true (Some 10) <= 10.
Proof.
  split; [reflexivity|]. split; [reflexivity|]. split; [discriminate|].
  split; [reflexivity|].
  exact (calculatePoints_between_half_and_full sampleMcq 30 10
           eq_refl eq_refl ltac:(discriminate)).
Defined.

(** X15: faster gets more.  For a question with a positive time limit and
    a base that is not negative, a correct answer that took longer never
    earns more points than one that took less. *)
Theorem calculatePoints_decreases_with_time :
  forall q limit t1 t2,
    timeLimitSec (baseOf q) = Some limit ->
    0 < limit ->
    0 <= basePoints q ->
    t1 <= t2 ->
    calculatePoints q true (Some t2) <= calculatePoints q true (Some t1).
Proof.
  intros q limit t1 t2 HL Hpos Hb Ht.
  rewrite !(calculatePoints_timed q limit _ HL) by lra.
  rewrite <- Zle_Qle. apply mathRound_le.
  apply scale_le; [exact Hb|now apply fraction_decreases].
Qed.

Lemma calculatePoints_decreases_with_time_witness :
  timeLimitSec (baseOf sampleMcq) = Some 30
  /\ 0 < 30
  /\ 0 <= basePoints sampleMcq
  /\ 3 <= 12
  /\ calculatePoints sampleMcq true (Some 12) = 6
  /\ calculatePoints sampleMcq true (Some 3) = 9
  /\ calculatePoints sampleMcq true (Some 12)
     <= calculatePoints sampleMcq true (Some 3).
Proof.
  split; [reflexivity|]. split; [reflexivity|]. split; [discriminate|].
  split; [discriminate|]. split; [reflexivity|]. split; [reflexivity|].
  exact (calculatePoints_decreases_with_time sampleMcq 30 3 12
           eq_refl eq_refl ltac:(discriminate) ltac:(discriminate)).
Defined.

Lemma findParticipant_creditFirst_other pid pid' qid pts ps :
  pid <> pid' ->
  findParticipant pid (creditFirst pid' qid pts ps) = findParticipant pid ps.
Proof.
  intros N. unfold findParticipant.
  induction ps as [|p0 r IH]; simpl; [reflexivity|].
  destruct (String.eqb (p_id p0) pid') eqn:E; simpl.
  - apply String.eqb_eq in E.
    destruct (String.eqb (p_id p0) pid) eqn:E'; [|reflexivity].
    apply String.eqb_eq in E'. congruence.
  - now rewrite IH.
Qed.

(** X16: scores never go down.  When no question of the database has a
    negative point value, no call lowers the score of a participant: the
    participant found under an id before the call is found after it with a
    score at least as high. *)
Theorem score_never_decreases :
  forall db op roomId room participantId p,
    pointsNonNegative db ->
    freshOp db op = true ->
    assocGet roomId (rooms db) = Some room ->
    findParticipant participantId (participants room) = Some p ->
    exists room' p',
      assocGet roomId (rooms (fst (step db op))) = Some room'
      /\ findParticipant participantId (participants room') = Some p'
      /\ score p <= score p'.
Proof.
  intros db op rid room pid p NN F Hr Hp.
  assert (Same : exists room' p',
             assocGet rid (rooms db) = Some room'
             /\ findParticipant pid (participants room') = Some p'
             /\ score p <= score p').
  { exists room, p. repeat split; auto. lra. }
  assert (Keep : forall room',
             participants room' = participants room ->
             exists room'' p',
               Some room' = Some room''
               /\ findParticipant pid (participants room'') = Some p'
               /\ score p <= score p').
  { intros room' E. exists room', p. rewrite E. repeat split; auto. lra. }
  destruct op as [id now t qs | qz id rnd now | c name pid0 | r | r | r
                 | r pid0 qid v taken now | r cb]; simpl in *.
  - exact Same.
  - unfold createRoom. destruct (assocGet qz (quizzes db)); [|exact Same].
    simpl. destruct (assocGet id (rooms db)) eqn:Hid; [discriminate|].
    rewrite assocGet_set_other by congruence. exact Same.
  - unfold joinRoom, getRoomByCode.
    destruct (findRoomByCode db c) as [found|]; [|exact Same]. simpl.
    destruct (assocGet (room_id found) (rooms db)) as [room0|] eqn:H0;
      [|exact Same].
    simpl. rewrite assocGet_set_cases.
    destruct (String.eqb (room_id found) rid) eqn:E; [|exact Same].
    apply String.eqb_eq in E. rewrite E in H0.
    assert (room0 = room) by congruence. subst room0.
    eexists _, p. split; [reflexivity|]. simpl.
    split; [now apply find_app_first|lra].
  - unfold startQuiz.
    destruct (assocGet r (rooms db)) as [room0|] eqn:H0; [|exact Same].
    simpl. rewrite assocGet_set_cases.
    destruct (String.eqb r rid) eqn:E; [|exact Same].
    apply String.eqb_eq in E. subst r.
    assert (room0 = room) by congruence. subst room0. now apply Keep.
  - unfold goToNextQuestion.
    destruct (assocGet r (rooms db)) as [room0|] eqn:H0; [|exact Same].
    destruct (assocGet (quizId room0) (quizzes db)) as [quiz|]; [|exact Same].
    simpl. rewrite assocGet_set_cases.
    destruct (String.eqb r rid) eqn:E; [|exact Same].
    apply String.eqb_eq in E. subst r.
    assert (room0 = room) by congruence. subst room0. apply Keep.
    now destruct (currentQuestionIndex room
                  <? Z.of_nat (List.length (questions quiz)) - 1)%Z.
  - unfold finishQuiz.
    destruct (assocGet r (rooms db)) as [room0|] eqn:H0; [|exact Same].
    simpl. rewrite assocGet_set_cases.
    destruct (String.eqb r rid) eqn:E; [|exact Same].
    apply String.eqb_eq in E. subst r.
    assert (room0 = room) by congruence. subst room0. now apply Keep.
  - unfold submitAnswer.
    destruct (assocGet r (rooms db)) as [room0|] eqn:H0; [|exact Same].
    destruct (assocGet (quizId room0) (quizzes db)) as [quiz|] eqn:Hq;
      [|exact Same].
    destruct (findQuestion qid (questions quiz)) as [question|] eqn:Hf;
      [|exact Same].
    simpl. rewrite assocGet_set_cases.
    destruct (String.eqb r rid) eqn:E; [|exact Same].
    apply String.eqb_eq in E. subst r.
    assert (room0 = room) by congruence. subst room0.
    assert (Pts : 0 <= calculatePoints question (isAnswerCorrect question v) taken).
    { apply calculatePoints_nonneg. eapply NN; [exact Hq|].
      unfold findQuestion in Hf. now apply find_some in Hf. }
    destruct (String.eqb pid pid0) eqn:Ep.
    + apply String.eqb_eq in Ep. subst pid0.
      eexists _, (creditParticipant qid
                    (calculatePoints question (isAnswerCorrect question v) taken) p).
      split; [reflexivity|]. cbn [participants setParticipants setAnswers].
      split; [apply findParticipant_creditFirst; exact Hp|].
      cbn [score creditParticipant]. lra.
    + apply String.eqb_neq in Ep.
      eexists _, p. split; [reflexivity|]. simpl.
      rewrite findParticipant_creditFirst_other by exact Ep.
      split; [exact Hp|lra].
  - exact Same.
Qed.

Lemma sample_points_nonneg : pointsNonNegative dbAnswered.
Proof.
  intros qz quiz q H Hin.
  assert (E : quizzes dbAnswered
              = [("quiz_1", mkQuiz "quiz_1" "Sample Quiz"
                                   [sampleMcq; sampleFill; sampleDrag] 1000)])
    by reflexivity.
  rewrite E in H. cbn [assocGet] in H.
  destruct (String.eqb "quiz_1" qz); [|discriminate].
  injection H as <-. cbn [questions] in Hin.
  destruct Hin as [<- | [<- | [<- | []]]]; vm_compute; discriminate.
Qed.

Lemma score_never_decreases_witness :
  exists room p,
    pointsNonNegative dbAnswered
    /\ freshOp dbAnswered
         (SubmitAnswer "room_1" "p_1" "q2" (JStr "42") None 1003) = true
    /\ assocGet "room_1" (rooms dbAnswered) = Some room
    /\ findParticipant "p_1" (participants room) = Some p
    /\ score p = 10
    /\ exists room' p',
         assocGet "room_1"
           (rooms (fst (step dbAnswered
                          (SubmitAnswer "room_1" "p_1" "q2" (JStr "42") None 1003))))
         = Some room'
         /\ findParticipant "p_1" (participants room') = Some p'
         /\ score p <= score p'.
Proof.
  eexists _, _. split; [exact sample_points_nonneg|]. split; [reflexivity|].
  split; [reflexivity|]. split; [reflexivity|]. split; [reflexivity|].
  exact (score_never_decreases dbAnswered
           (SubmitAnswer "room_1" "p_1" "q2" (JStr "42") None 1003)
           "room_1" _ "p_1" _ sample_points_nonneg eq_refl eq_refl eq_refl).
Defined.

(** ** Answered questions *)








(** ** The join form *)

Lemma upperChar_of_lower c :
  isLower c = true ->
  isUpper (upperChar c) = true /\ isWhiteSpace c = false.
Proof.
  unfold upperChar, isLower, isUpper, isWhiteSpace. intros H. rewrite H.
  apply andb_true_iff in H. destruct H as [H1 H2].
  apply Nat.leb_le in H1. apply Nat.leb_le in H2.
  pose proof (nat_ascii_bounded c) as B.
  rewrite nat_ascii_embedding by lia.
  remember (nat_of_ascii c) as n. split.
  - apply andb_true_iff. split; apply Nat.leb_le; lia.
  - apply orb_false_iff. split.
    + apply andb_false_iff. right. apply Nat.leb_gt. lia.
    + apply Nat.eqb_neq. lia.
Qed.

Lemma upperOrDigit_not_space c :
  isUpperOrDigit c = true -> isWhiteSpace c = false.
Proof.
  unfold isUpperOrDigit, isUpper, isDigit, isWhiteSpace.
  remember (nat_of_ascii c) as n. intros H.
  apply orb_true_iff in H.
  apply orb_false_iff. split.
  - apply andb_false_iff. right. apply Nat.leb_gt.
    destruct H as [H | H]; apply andb_true_iff in H; destruct H as [H1 H2];
      apply Nat.leb_le in H1; lia.
  - apply Nat.eqb_neq.
    destruct H as [H | H]; apply andb_true_iff in H; destruct H as [H1 H2];
      apply Nat.leb_le in H1; lia.
Qed.

Lemma upperChar_not_lower c : isLower c = false -> upperChar c = c.
Proof. unfold upperChar. now intros ->. Qed.

(** A character whose upper-case form is an upper-case letter or a digit
    is no white space. *)
Lemma case_variant_not_space c :
  isUpperOrDigit (upperChar c) = true -> isWhiteSpace c = false.
Proof.
  destruct (isLower c) eqn:L.
  - intros _. now apply upperChar_of_lower.
  - rewrite (upperChar_not_lower c L). apply upperOrDigit_not_space.
Qed.

Lemma trimEnd_no_space s :
  stringForall (fun c => negb (isWhiteSpace c)) s = true -> trimEnd s = s.
Proof.
  induction s as [|c r IH]; simpl; [reflexivity|].
  intros H. apply andb_true_iff in H. destruct H as [H1 H2].
  rewrite (IH H2). apply negb_true_iff in H1. rewrite H1.
  now destruct r.
Qed.

Lemma trim_no_space s :
  stringForall (fun c => negb (isWhiteSpace c)) s = true -> trim s = s.
Proof.
  intros H. unfold trim.
  assert (E : trimStart s = s).
  { destruct s as [|c r]; [reflexivity|]. simpl in *.
    apply andb_true_iff in H. destruct H as [H1 _].
    apply negb_true_iff in H1. now rewrite H1. }
  rewrite E. now apply trimEnd_no_space.
Qed.

Lemma case_variant_has_no_space x :
  stringForall isUpperOrDigit (toUpperCase x) = true ->
  stringForall (fun c => negb (isWhiteSpace c)) x = true.
Proof.
  induction x as [|c r IH]; simpl; [reflexivity|].
  intros H. apply andb_true_iff in H. destruct H as [H1 H2].
  rewrite (case_variant_not_space c H1). simpl. auto.
Qed.



(** ** The leaderboard *)

Lemma insertByScore_perm p l : Permutation (insertByScore p l) (p :: l).
Proof.
  induction l as [|q r IH]; simpl; [reflexivity|].
  destruct (Qle_bool (score q) (score p)); [reflexivity|].
  rewrite IH. apply perm_swap.
Qed.

Lemma insertByScore_head p l x :
  Forall (fun y => score y <= score x) l -> score p <= score x ->
  Forall (fun y => score y <= score x) (insertByScore p l).
Proof.
  intros Hl Hp. induction l as [|q r IH]; simpl.
  - auto.
  - inversion Hl as [|a b Ha Hb]; subst.
    destruct (Qle_bool (score q) (score p)); auto.
Qed.

Lemma insertByScore_sorted p l :
  StronglySorted (fun a b => score b <= score a) l ->
  StronglySorted (fun a b => score b <= score a) (insertByScore p l).
Proof.
  induction 1 as [|q r Hs IH Hq]; simpl.
  - constructor; [constructor|constructor].
  - destruct (Qle_bool (score q) (score p)) eqn:E.
    + apply Qle_bool_iff in E. constructor.
      * now constructor.
      * constructor; [exact E|].
        eapply Forall_impl; [|exact Hq]. intros y Hy. simpl in Hy. lra.
    + assert (L : score p <= score q).
      { destruct (Qlt_le_dec (score p) (score q)) as [H | H]; [lra|].
        apply Qle_bool_iff in H. congruence. }
      constructor; [exact IH|]. now apply insertByScore_head.
Qed.

Lemma insertByScore_filter s p l :
  StronglySorted (fun a b => score b <= score a) l ->
  filter (fun x => Qeq_bool (score x) s) (insertByScore p l)
  = filter (fun x => Qeq_bool (score x) s) (p :: l).
Proof.
  induction 1 as [|q r Hs IH Hq]; [reflexivity|].
  cbn [insertByScore]. destruct (Qle_bool (score q) (score p)) eqn:E;
    [reflexivity|].
  assert (L : score p < score q).
  { destruct (Qlt_le_dec (score p) (score q)) as [H | H]; [exact H|].
    apply Qle_bool_iff in H. congruence. }
  cbn [filter] in *. rewrite IH.
  destruct (Qeq_bool (score p) s) eqn:Ep; [|reflexivity].
  destruct (Qeq_bool (score q) s) eqn:Eq; [|reflexivity].
  apply Qeq_bool_iff in Ep. apply Qeq_bool_iff in Eq. lra.
Qed.

Lemma leaderboard_sorted ps :
  StronglySorted (fun a b => score b <= score a) (leaderboard ps).
Proof.
  induction ps as [|p r IH]; simpl; [constructor|].
  now apply insertByScore_sorted.
Qed.

(** X19: the leaderboard shows every participant once, by falling score,
    and participants with the same score in the order in which they joined:
    it is a permutation of the participant list, each entry has a score at
    least that of every later entry, and for every score the participants
    with that score come in the order of the list. *)
Theorem leaderboard_is_stable_descending :
  forall ps,
    Permutation (leaderboard ps) ps
    /\ StronglySorted (fun a b => score b <= score a) (leaderboard ps)
    /\ forall s,
         filter (fun x => Qeq_bool (score x) s) (leaderboard ps)
         = filter (fun x => Qeq_bool (score x) s) ps.
Proof.
  intros ps. split; [|split].
  - induction ps as [|p r IH]; simpl; [reflexivity|].
    rewrite insertByScore_perm. now constructor.
  - apply leaderboard_sorted.
  - intros s. induction ps as [|p r IH]; [reflexivity|].
    change (leaderboard (p :: r)) with (insertByScore p (leaderboard r)).
    rewrite insertByScore_filter by apply leaderboard_sorted.
    cbn [filter]. now rewrite IH.
Qed.

(** ** The code alphabet *)

Lemma charAt_letters_plain (i : Z) :
  (0 <= i < 32)%Z ->
  exists c, charAt letters i = String c EmptyString /\ isLookAlike c = false.
Proof.
  intros H. unfold charAt.
  destruct (Z.ltb_spec i 0) as [L | _]; [lia|].
  assert (B : (Z.to_nat i < 32)%nat) by lia.
  remember (Z.to_nat i) as n eqn:En. clear En H i.
  do 32 (destruct n as [|n]; [eexists; split; reflexivity|]).
  lia.
Qed.

Lemma generateRoomCodeFrom_plain rnd :
  (forall i, 0 <= rnd i /\ rnd i < 1) ->
  forall n i, stringExists isLookAlike (generateRoomCodeFrom rnd i n) = false.
Proof.
  intros R. induction n as [|n IH]; intros i.
  - reflexivity.
  - destruct (R i) as [L U].
    destruct (charAt_letters_plain _ (draw_index (rnd i) L U)) as (c & Ec & Hc).
    cbn [generateRoomCodeFrom]. rewrite Ec. simpl.
    now rewrite Hc, IH.
Qed.

(** X20: a generated join code has none of the characters that are easily
    misread: for draws of [Math.random] in [0, 1) the code contains neither
    the letters I and O nor the digits 0 and 1. *)
Theorem generateRoomCode_has_no_look_alike :
  forall rnd,
    (forall i, 0 <= rnd i /\ rnd i < 1) ->
    stringExists isLookAlike (generateRoomCode rnd) = false.
Proof.
  intros rnd R. now apply generateRoomCodeFrom_plain.
Qed.

Lemma generateRoomCode_has_no_look_alike_witness :
  (forall i, 0 <= seventhDraws i /\ seventhDraws i < 1)
  /\ generateRoomCode seventhDraws = "AEKPUY"
  /\ stringExists isLookAlike (generateRoomCode seventhDraws) = false.
Proof.
  split; [exact seventhDraws_range|]. split; [reflexivity|].
  exact (generateRoomCode_has_no_look_alike seventhDraws seventhDraws_range).
Defined.

(** ** The application store *)

Lemma deliver_keeps_rest st out :
  role (deliver st out) = role st
  /\ participantId (deliver st out) = participantId st
  /\ loading (deliver st out) = loading st
  /\ error (deliver st out) = error st.
Proof.
  unfold deliver. revert st.
  induction out as [|d r IH]; intros st; simpl; [auto|].
  destruct (IH (onSnapshot st (snd d))) as (A & B & C & D). simpl in *. auto.
Qed.

Lemma deliver_one_snapshot st snap (ls : list Listener) :
  ls <> [] ->
  currentRoom (deliver st (map (fun cb => (cb, snap)) ls)) = Some (snap_room snap)
  /\ currentQuiz (deliver st (map (fun cb => (cb, snap)) ls)) = snap_quiz snap.
Proof.
  unfold deliver. revert st.
  induction ls as [|cb r IH]; intros st N; [congruence|].
  simpl. destruct r as [|cb' r'].
  - simpl. auto.
  - apply IH. discriminate.
Qed.

Lemma joinRoom_found db c name pid found :
  storeWellKeyed db ->
  findRoomByCode db c = Some found ->
  let participant := mkParticipant pid name 0 [] in
  let room' := setParticipants (participants found ++ [participant]) found in
  let db' := setRooms (assocSet (room_id found) room' (rooms db)) db in
  joinRoom db c name pid
  = Ok (db', notify db' (room_id found),
        mkJoin room' participant (assocGet (quizId found) (quizzes db))).
Proof.
  intros W Hf participant room' db'.
  assert (Hin : In found (map snd (rooms db))).
  { unfold findRoomByCode in Hf. now apply find_some in Hf. }
  pose proof (wellKeyed_value db found W Hin) as Hk.
  unfold joinRoom, getRoomByCode. rewrite Hf. simpl. now rewrite Hk.
Qed.

(** X21: a failed join is reported and changes nothing else.  When no room
    has the code, the store's [joinRoom] ends with [error] set to 'Room not
    found' and [loading] false; the room and quiz on display, the
    participant id, the database and its subscriptions are as before. *)
Theorem storeJoinRoom_unknown_code_sets_error :
  forall w c name newParticipantId,
    getRoomByCode (data w) c = None ->
    storeJoinRoom w c name newParticipantId
    = mkPage (mkApp (role (state w)) (currentRoom (state w)) (currentQuiz (state w))
                    (participantId (state w)) false (Some "Room not found"))
             (data w) (closures w).
Proof.
  intros w c name pid H. unfold storeJoinRoom, joinRoom. now rewrite H.
Qed.

Lemma storeJoinRoom_unknown_code_sets_error_witness :
  getRoomByCode (data pageCreated) "aaaaaa" = None
  /\ error (state (storeJoinRoom pageCreated "aaaaaa" "Bob" "p_1"))
     = Some "Room not found"
  /\ data (storeJoinRoom pageCreated "aaaaaa" "Bob" "p_1") = data pageCreated.
Proof.
  split; [reflexivity|].
  rewrite (storeJoinRoom_unknown_code_sets_error
             pageCreated "aaaaaa" "Bob" "p_1" eq_refl).
  split; reflexivity.
Defined.

(** X22: after a successful join the store shows the room as the database
    has it.  On a database built by the calls, when [getRoomByCode] finds a
    room for the code, the store's [joinRoom] ends with no error, [loading]
    false, the new participant's id as [participantId], and as
    [currentRoom] the very room stored in the database, whose participants
    are the former ones followed by the newcomer; the store's new closure is
    subscribed to that room. *)
Theorem storeJoinRoom_shows_joined_room :
  forall w c name newParticipantId snap,
    reachable (data w) ->
    getRoomByCode (data w) c = Some snap ->
    let w' := storeJoinRoom w c name newParticipantId in
    let roomId := room_id (snap_room snap) in
    exists room',
      assocGet roomId (rooms (data w')) = Some room'
      /\ currentRoom (state w') = Some room'
      /\ participants room'
         = participants (snap_room snap)
           ++ [mkParticipant newParticipantId name 0 []]
      /\ currentQuiz (state w') = snap_quiz snap
      /\ participantId (state w') = Some newParticipantId
      /\ error (state w') = None
      /\ loading (state w') = false
      /\ In (closures w) (listenersOf (data w') roomId)
      /\ closures w' = S (closures w).
Proof.
  intros w c name pid snap R Hg w' rid. subst w' rid.
  pose proof (reachable_wellKeyed _ R) as W.
  unfold getRoomByCode in Hg.
  destruct (findRoomByCode (data w) c) as [found|] eqn:Hf; [|discriminate].
  injection Hg as <-. simpl.
  unfold storeJoinRoom. rewrite (joinRoom_found _ c name pid found W Hf).
  cbn [join_room join_quiz join_participant p_id].
  unfold subscribeRoom, onRoomUpdate.
  cbn [data closures state rooms quizzes listeners setRooms room_id
       setParticipants].
  rewrite assocGet_set_same.
  eexists. split; [reflexivity|].
  cbn [deliver fold_left snd onSnapshot clearLoading currentRoom currentQuiz
       participantId error loading snap_room snap_quiz snapshotOf participants
       quizId role].
  repeat split.
  - unfold setLoading.
    destruct (deliver_keeps_rest
                (mkApp (role (state w)) (currentRoom (state w)) (currentQuiz (state w))
                       (participantId (state w)) true None)
                (notify (setRooms (assocSet (room_id found)
                   (setParticipants
                      (participants found ++ [mkParticipant pid name 0 []]) found)
                   (rooms (data w))) (data w)) (room_id found)))
      as (_ & _ & _ & E).
    exact E.
  - unfold listenersOf.
    cbn [listeners]. rewrite assocGet_set_same. apply setAdd_In.
Qed.

Lemma pageCreated_reachable : reachable (data pageCreated).
Proof.
  apply (reachable_runOps
           [CreateQuiz "quiz_1" 1000 "Sample Quiz" [sampleMcq; sampleFill; sampleDrag];
            CreateRoom "quiz_1" "room_1" zeroDraws 1001;
            OnRoomUpdate "room_1" 0%nat]
           emptyDb reach_empty).
  vm_compute. reflexivity.
Qed.

Lemma storeJoinRoom_shows_joined_room_witness :
  exists snap,
    reachable (data pageCreated)
    /\ getRoomByCode (data pageCreated) "AAAAAA" = Some snap
    /\ exists room',
         assocGet "room_1" (rooms (data (storeJoinRoom pageCreated "AAAAAA" "Bob" "p_1")))
         = Some room'
         /\ currentRoom (state (storeJoinRoom pageCreated "AAAAAA" "Bob" "p_1"))
            = Some room'
         /\ map p_name (participants room') = ["Bob"]
         /\ participantId (state (storeJoinRoom pageCreated "AAAAAA" "Bob" "p_1"))
            = Some "p_1".
Proof.
  pose proof pageCreated_reachable as R.
  eexists. split; [exact R|]. split; [reflexivity|].
  destruct (storeJoinRoom_shows_joined_room pageCreated "AAAAAA" "Bob" "p_1" _
              R eq_refl) as (room' & A & B & C & _ & E & _).
  exists room'. split; [exact A|]. split; [exact B|].
  split; [now rewrite C|exact E].
Defined.

Lemma room_call_pushes db op roomId :
  (op = StartQuiz roomId \/ op = GoToNextQuestion roomId \/ op = FinishQuiz roomId
   \/ exists pid qid v t now, op = SubmitAnswer roomId pid qid v t now) ->
  snd (step db op) = [] \/ snd (step db op) = notify (fst (step db op)) roomId.
Proof.
  intros [-> | [-> | [-> | (pid & qid & v & t & now & ->)]]]; simpl.
  - unfold startQuiz. destruct (assocGet roomId (rooms db)); auto.
  - unfold goToNextQuestion.
    destruct (assocGet roomId (rooms db)) as [room|]; [|auto].
    destruct (assocGet (quizId room) (quizzes db)); auto.
  - unfold finishQuiz. destruct (assocGet roomId (rooms db)); auto.
  - unfold submitAnswer.
    destruct (assocGet roomId (rooms db)) as [room|]; [|auto].
    destruct (assocGet (quizId room) (quizzes db)) as [quiz|]; [|auto].
    destruct (findQuestion qid (questions quiz)); auto.
Qed.

Lemma actionCall_targets st act op :
  actionCall st act = Some op ->
  exists roomId,
    shownRoomId st = Some roomId
    /\ (op = StartQuiz roomId \/ op = GoToNextQuestion roomId
        \/ op = FinishQuiz roomId
        \/ exists pid qid v t now, op = SubmitAnswer roomId pid qid v t now).
Proof.
  unfold actionCall. destruct (shownRoomId st) as [rid|]; [|discriminate].
  intros H. exists rid. split; [reflexivity|].
  destruct act as [ | | | qid v t now].
  - injection H as <-. auto.
  - injection H as <-. auto.
  - injection H as <-. auto 6.
  - destruct (participantId st) as [pid|]; [|discriminate].
    destruct (String.eqb pid ""); [discriminate|].
    injection H as <-. right. right. right. eauto 8.
Qed.

(** X23: the store never shows a stale room after its own action.  When
    [startQuiz], [goToNextQuestion], [finishQuiz] or [submitAnswer] of the
    store makes its database call and that call pushes any snapshot, the
    store ends with [currentRoom] equal to the room of that id as the
    database now has it, and [currentQuiz] equal to that room's quiz in the
    database; [startQuiz] and [finishQuiz] push whenever the room exists and
    has a subscriber. *)
Theorem runAction_shows_database_room :
  forall w act op,
    actionCall (state w) act = Some op ->
    (snd (step (data w) op) <> [] ->
     exists roomId room',
       shownRoomId (state w) = Some roomId
       /\ assocGet roomId (rooms (data (runAction w act))) = Some room'
       /\ currentRoom (state (runAction w act)) = Some room'
       /\ currentQuiz (state (runAction w act))
          = assocGet (quizId room') (quizzes (data (runAction w act))))
    /\ (forall roomId room,
          shownRoomId (state w) = Some roomId ->
          act = ActStartQuiz \/ act = ActFinishQuiz ->
          assocGet roomId (rooms (data w)) = Some room ->
          listenersOf (data w) roomId <> [] ->
          snd (step (data w) op) <> []).
Proof.
  intros w act op Hc.
  destruct (actionCall_targets _ _ _ Hc) as (rid & Hs & Hop).
  split.
  - intros Hne. exists rid.
    destruct (room_call_pushes (data w) op rid Hop) as [E | E]; [congruence|].
    unfold runAction. rewrite Hc.
    destruct (step (data w) op) as [db' out] eqn:St. simpl in *. subst out.
    unfold notify in *.
    destruct (assocGet rid (rooms db')) as [room'|]; [|congruence].
    destruct (assocGet rid (listeners db')) as [ls|]; [|congruence].
    exists room'. split; [exact Hs|]. split; [reflexivity|].
    assert (N : ls <> []) by (intros ->; apply Hne; reflexivity).
    destruct (deliver_one_snapshot (state w) (snapshotOf db' room') ls N) as [A B].
    split; [exact A|exact B].
  - intros rid0 room Hs0 Hact Hr Hl.
    assert (rid0 = rid) by congruence. subst rid0.
    unfold actionCall in Hc. rewrite Hs in Hc.
    assert (G : forall room',
               notify (setRooms (assocSet rid room' (rooms (data w))) (data w)) rid
               <> []).
    { intros room'. rewrite (notify_fan_out _ _ room')
        by (simpl; apply assocGet_set_same).
      unfold listenersOf in *. simpl.
      destruct (assocGet rid (listeners (data w))) as [[|cb ls]|];
        simpl; congruence. }
    destruct Hact as [-> | ->]; injection Hc as <-; simpl.
    + unfold startQuiz. rewrite Hr. simpl. apply G.
    + unfold finishQuiz. rewrite Hr. simpl. apply G.
Qed.

Lemma runAction_shows_database_room_witness :
  actionCall (state pageCreated) ActStartQuiz = Some (StartQuiz "room_1")
  /\ snd (step (data pageCreated) (StartQuiz "room_1")) <> []
  /\ exists roomId room',
       shownRoomId (state pageCreated) = Some roomId
       /\ assocGet roomId (rooms (data (runAction pageCreated ActStartQuiz)))
          = Some room'
       /\ currentRoom (state (runAction pageCreated ActStartQuiz)) = Some room'
       /\ status room' = running.
Proof.
  assert (N : snd (step (data pageCreated) (StartQuiz "room_1")) <> [])
    by discriminate.
  split; [reflexivity|]. split; [exact N|].
  destruct (proj1 (runAction_shows_database_room
                     pageCreated ActStartQuiz _ eq_refl) N)
    as (rid & room' & A & B & C & _).
  exists rid, room'. split; [exact A|]. split; [exact B|]. split; [exact C|].
  assert (E : currentRoom (state (runAction pageCreated ActStartQuiz)) = Some room')
    by exact C.
  vm_compute in E. injection E as <-. reflexivity.
Defined.


Lemma createQuizAndRoom_result w t qs qz rid rnd n1 n2 :
  createQuizAndRoom w t qs qz rid rnd n1 n2
  = mkPage (mkApp (role (state w))
                  (Some (mkRoom rid (generateRoomCode rnd) qz lobby (-1) [] [] n2))
                  (Some (mkQuiz qz t qs n1)) (participantId (state w))
                  false None)
           (mkDb (assocSet qz (mkQuiz qz t qs n1) (quizzes (data w)))
                 (assocSet rid (mkRoom rid (generateRoomCode rnd) qz lobby (-1) [] [] n2)
                           (rooms (data w)))
                 (assocSet rid [closures w] (assocSet rid [] (listeners (data w)))))
           (S (closures w)).
Proof.
  unfold createQuizAndRoom, createQuiz, createRoom.
  cbn [quiz_id quizzes rooms listeners]. rewrite assocGet_set_same.
  rewrite notify_no_listener
    by (unfold listenersOf; cbn [listeners]; now rewrite assocGet_set_same).
  unfold subscribeRoom, onRoomUpdate.
  cbn [data closures state rooms quizzes listeners room_id deliver fold_left].
  rewrite !assocGet_set_same.
  cbn [deliver fold_left snd onSnapshot clearLoading setLoading currentRoom
       currentQuiz error loading snap_room snap_quiz snapshotOf state data
       quizId role participantId quizzes closures].
  unfold setAdd. cbn [existsb List.app].
  unfold clearLoading, onSnapshot, snapshotOf.
  cbn [role currentRoom currentQuiz participantId loading error snap_room
       snap_quiz quizId quizzes].
  rewrite assocGet_set_same. reflexivity.
Qed.

(** X24: [createQuizAndRoom] cannot fail on the in-memory database: the
    quiz it has just stored is the one [createRoom] looks for.  It ends with
    no error and [loading] false, shows the new quiz and its new, empty
    lobby room, which [getRoom] returns under the new id, and leaves exactly
    one callback, the store's new closure, subscribed to that room. *)
Theorem createQuizAndRoom_always_succeeds :
  forall w payloadTitle payloadQuestions newQuizId newRoomId rnd now1 now2,
    let w' := createQuizAndRoom w payloadTitle payloadQuestions
                newQuizId newRoomId rnd now1 now2 in
    let quiz := mkQuiz newQuizId payloadTitle payloadQuestions now1 in
    let room := mkRoom newRoomId (generateRoomCode rnd) newQuizId lobby (-1)
                       [] [] now2 in
    error (state w') = None
    /\ loading (state w') = false
    /\ currentRoom (state w') = Some room
    /\ currentQuiz (state w') = Some quiz
    /\ getRoom (data w') newRoomId = Some (mkSnap room (Some quiz))
    /\ listenersOf (data w') newRoomId = [closures w].
Proof.
  intros w t qs qz rid rnd n1 n2. cbv zeta.
  rewrite createQuizAndRoom_result.
  cbn [state data error loading currentRoom currentQuiz].
  unfold getRoom, listenersOf, snapshotOf. cbn [rooms quizzes listeners].
  rewrite !assocGet_set_same. cbn [quizId].
  repeat split.
Qed.


(** ** The answer form *)

(** X26: what an untouched form earns.  The value that [handleSubmit]
    sends for a form in its initial state, as the timer does when it runs
    out, is graded correct only for a degenerate question: a multiple
    choice whose correct index is -1, a blank whose expected answer is empty
    after trimming, or a match question without pairs. *)
Theorem untouched_form_is_correct_only_if_degenerate :
  forall q,
    isAnswerCorrect q (submittedValue q (initialForm q)) = true
    <-> match q with
        | MCQQuestion _ _ correctIndex => correctIndex == -1
        | FillBlankQuestion _ expectedAnswer => normalizeString expectedAnswer = ""
        | DragDropQuestion _ _ _ correctMapping => correctMapping = []
        end.
Proof.
  intros [b opts ci | b items targets m | b e].
  - simpl. rewrite Qeq_bool_iff. split; intros H; now symmetry.
  - simpl. destruct m as [|[k v] r]; simpl; [tauto|].
    unfold recordGet. simpl. rewrite String.eqb_refl. simpl.
    split; [discriminate|congruence].
  - cbn [isAnswerCorrect submittedValue initialForm formValue].
    rewrite String.eqb_eq. change (normalizeString "") with "".
    split; intros H; now symmetry.
Qed.

(** X27: an answer sent by the timer earns half the points.  For a
    question with a positive time limit the timer fires exactly when the
    seconds counted have reached the limit, and a correct answer sent with
    that count is awarded the base points times one half, rounded. *)
Theorem timer_submission_earns_half :
  forall q form limit,
    timeLimitSec (baseOf q) = Some limit ->
    0 < limit ->
    (timerFires q form = true <-> limit <= seconds form)
    /\ (timerFires q form = true ->
        calculatePoints q true (Some (seconds form))
        = inject_Z (mathRound (basePoints q * (1 # 2)))).
Proof.
  intros q form limit HL Hpos.
  assert (Hn : ~ limit == 0) by lra.
  assert (F : timerFires q form = true <-> limit <= seconds form).
  { unfold timerFires, timeLeft. rewrite HL.
    destruct (Qeq_bool limit 0) eqn:E; [apply Qeq_bool_iff in E; contradiction|].
    rewrite Qeq_bool_iff. split; intros H.
    - pose proof (Q.le_max_r 0 (limit - seconds form)). lra.
    - apply Qle_antisym; [apply Q.max_lub; lra|apply Q.le_max_l]. }
  split; [exact F|]. intros H. apply F in H.
  rewrite (calculatePoints_timed q limit (seconds form) HL Hn).
  f_equal. unfold mathRound. apply Qfloor_comp.
  assert (E : Qmax (1 # 2) (1 - Qmax 0 (seconds form) / limit) == 1 # 2).
  { apply Qle_antisym; [|apply Q.le_max_l].
    apply Q.max_lub; [lra|].
    assert (D : 1 <= Qmax 0 (seconds form) / limit).
    { apply Qle_shift_div_l; [exact Hpos|].
      pose proof (Q.le_max_r 0 (seconds form)). lra. }
    remember (Qmax 0 (seconds form) / limit) as f eqn:Ef. clear Ef. lra. }
  now rewrite E.
Qed.

Lemma timer_submission_earns_half_witness :
  timeLimitSec (baseOf sampleMcq) = Some 30
  /\ timerFires sampleMcq (mkForm (JNum 2) [] 30) = true
  /\ calculatePoints sampleMcq true (Some 30)
     = inject_Z (mathRound (basePoints sampleMcq * (1 # 2))).
Proof.
  split; [reflexivity|]. split; [reflexivity|].
  apply (proj2 (timer_submission_earns_half
                  sampleMcq (mkForm (JNum 2) [] 30) 30 eq_refl eq_refl)).
  reflexivity.
Defined.

(** ** The feedback of the student page *)




(** ** The results export *)










(* ================================================================== *)
(** * Properties that rest on the invariants *)

(** ** Calls that use no inherited name *)

Lemma reachablePlain_reachable db : reachablePlain db -> reachable db.
Proof.
  induction 1 as [|db op P IH F N]; [constructor|]. now apply reach_step.
Qed.

Lemma reachablePlain_runOps ops : forall db,
  reachablePlain db -> freshOps db ops = true -> forallb plainOp ops = true ->
  reachablePlain (fst (runOps db ops)).
Proof.
  induction ops as [|op ops IH]; intros db R F N.
  - exact R.
  - rewrite runOps_cons_fst. simpl in F, N.
    apply andb_true_iff in F. destruct F as [F1 F2].
    apply andb_true_iff in N. destruct N as [N1 N2].
    apply IH; [|exact F2|exact N2]. now apply plain_step.
Qed.

Lemma dbLobby_plain : reachablePlain dbLobby.
Proof.
  apply (reachablePlain_runOps setupOps emptyDb plain_empty);
    vm_compute; reflexivity.
Qed.

Lemma dbScored_plain : reachablePlain dbScored.
Proof.
  apply (reachablePlain_runOps scoredOps emptyDb plain_empty);
    vm_compute; reflexivity.
Qed.

Lemma dbSecondQuestion_plain : reachablePlain dbSecondQuestion.
Proof.
  apply (reachablePlain_runOps
           (setupOps
            ++ [StartQuiz "room_1";
                SubmitAnswer "room_1" "p_1" "q1" (JNum 2) (Some 0) 1002;
                GoToNextQuestion "room_1"])
           emptyDb plain_empty);
    vm_compute; reflexivity.
Qed.

Lemma dbFinished_plain : reachablePlain dbFinished.
Proof.
  apply (reachablePlain_runOps
           (setupOps
            ++ [StartQuiz "room_1";
                SubmitAnswer "room_1" "p_1" "q1" (JNum 2) (Some 0) 1002;
                FinishQuiz "room_1"])
           emptyDb plain_empty);
    vm_compute; reflexivity.
Qed.

Lemma dbTwoRooms_plain : reachablePlain dbTwoRooms.
Proof.
  apply (reachablePlain_runOps twoRoomsOps emptyDb plain_empty);
    vm_compute; reflexivity.
Qed.

(** In a database built by such calls every room has its quiz. *)
Lemma reachablePlain_quiz db roomId room :
  reachablePlain db ->
  assocGet roomId (rooms db) = Some room ->
  exists quiz, assocGet (quizId room) (quizzes db) = Some quiz.
Proof.
  intros P Hr.
  destruct (reachable_indexInRange db (reachablePlain_reachable db P)
              roomId room Hr) as (quiz & Hq & _).
  eauto.
Qed.

(** ** The transitions *)

(** C3, as the code has it: on an existing room [startQuiz] succeeds
    whatever the status and sets status running and index 0;
    [goToNextQuestion] succeeds whatever the status, lobby included, adding
    one to the index while it is below the last question's and setting
    status finished otherwise.  For an id that no room has and that is not
    an inherited name both throw 'Room not found' and leave the database as
    it was; on a database built by the calls that is the only way either of
    them fails. *)
Theorem startQuiz_goToNextQuestion_any_status :
  (forall db roomId room,
      assocGet roomId (rooms db) = Some room ->
      exists db' out,
        startQuiz db roomId = Ok (db', out)
        /\ assocGet roomId (rooms db')
           = Some (mkRoom (room_id room) (code room) (quizId room) running 0
                          (participants room) (answers room) (room_createdAt room)))
  /\ (forall db roomId room quiz,
        assocGet roomId (rooms db) = Some room ->
        assocGet (quizId room) (quizzes db) = Some quiz ->
        exists db' out room',
          goToNextQuestion db roomId = Ok (db', out)
          /\ assocGet roomId (rooms db') = Some room'
          /\ ((currentQuestionIndex room
               < Z.of_nat (List.length (questions quiz)) - 1)%Z ->
              room' = setIndex (currentQuestionIndex room + 1)%Z room)
          /\ ((Z.of_nat (List.length (questions quiz)) - 1
               <= currentQuestionIndex room)%Z ->
              room' = setStatus finished room))
  /\ (forall db roomId,
        inheritedName roomId = false ->
        assocGet roomId (rooms db) = None ->
        startQuiz db roomId = Throw RoomNotFound
        /\ goToNextQuestion db roomId = Throw RoomNotFound
        /\ fst (step db (StartQuiz roomId)) = db
        /\ fst (step db (GoToNextQuestion roomId)) = db)
  /\ (forall db roomId e,
        reachablePlain db ->
        inheritedName roomId = false ->
        startQuiz db roomId = Throw e \/ goToNextQuestion db roomId = Throw e ->
        e = RoomNotFound /\ assocGet roomId (rooms db) = None).
Proof.
  split; [|split; [|split]].
  - intros db roomId room Hr. unfold startQuiz. rewrite Hr.
    eexists _, _. split; [reflexivity|]. simpl. apply assocGet_set_same.
  - intros db roomId room quiz Hr Hq. unfold goToNextQuestion. rewrite Hr, Hq.
    eexists _, _, _. split; [reflexivity|]. simpl.
    split; [apply assocGet_set_same|].
    destruct (Z.ltb_spec (currentQuestionIndex room)
                (Z.of_nat (List.length (questions quiz)) - 1)) as [L | G];
      split; intros H; (reflexivity || lia).
  - intros db roomId _ Hr. unfold step, startQuiz, goToNextQuestion.
    rewrite Hr. simpl. auto.
  - intros db roomId e P _ H.
    destruct (assocGet roomId (rooms db)) as [room|] eqn:Hr.
    + exfalso. destruct (reachablePlain_quiz db roomId room P Hr) as (quiz & Hq).
      unfold startQuiz, goToNextQuestion in H. rewrite Hr, Hq in H.
      destruct H as [H | H]; discriminate.
    + unfold startQuiz, goToNextQuestion in H. rewrite Hr in H.
      destruct H as [H | H]; injection H as <-; auto.
Qed.

Lemma startQuiz_goToNextQuestion_any_status_witness :
  (exists room,
      assocGet "room_1" (rooms dbSecondQuestion) = Some room
      /\ status room = running
      /\ exists db' out,
           startQuiz dbSecondQuestion "room_1" = Ok (db', out)
           /\ statusOf db' "room_1" = Some running
           /\ indexOf db' "room_1" = Some 0%Z)
  /\ (exists room quiz,
        assocGet "room_1" (rooms dbFinished) = Some room
        /\ assocGet (quizId room) (quizzes dbFinished) = Some quiz
        /\ (currentQuestionIndex room
            < Z.of_nat (List.length (questions quiz)) - 1)%Z
        /\ exists db' out,
             goToNextQuestion dbFinished "room_1" = Ok (db', out)
             /\ statusOf db' "room_1" = Some finished
             /\ indexOf db' "room_1" = Some 1%Z)
  /\ (exists room quiz,
        assocGet "room_1" (rooms dbLobby) = Some room
        /\ assocGet (quizId room) (quizzes dbLobby) = Some quiz
        /\ status room = lobby
        /\ (currentQuestionIndex room
            < Z.of_nat (List.length (questions quiz)) - 1)%Z
        /\ exists db' out,
             goToNextQuestion dbLobby "room_1" = Ok (db', out)
             /\ statusOf db' "room_1" = Some lobby
             /\ indexOf db' "room_1" = Some 0%Z)
  /\ (inheritedName "room_9" = false
      /\ assocGet "room_9" (rooms dbSecondQuestion) = None
      /\ startQuiz dbSecondQuestion "room_9" = Throw RoomNotFound)
  /\ (reachablePlain dbSecondQuestion
      /\ goToNextQuestion dbSecondQuestion "room_9" = Throw RoomNotFound
      /\ assocGet "room_9" (rooms dbSecondQuestion) = None).
Proof.
  destruct startQuiz_goToNextQuestion_any_status as (S & G & A & O).
  split; [|split; [|split; [|split]]].
  - eexists. split; [reflexivity|]. split; [reflexivity|].
    destruct (S dbSecondQuestion "room_1" _ eq_refl) as (db' & out & Hs & Hr).
    exists db', out. split; [exact Hs|].
    unfold statusOf, indexOf. rewrite Hr. split; reflexivity.
  - eexists _, _. split; [reflexivity|]. split; [reflexivity|].
    split; [reflexivity|].
    destruct (G dbFinished "room_1" _ _ eq_refl eq_refl)
      as (db' & out & room' & Hs & Hr & Hlt & _).
    exists db', out. split; [exact Hs|].
    unfold statusOf, indexOf. rewrite Hr, (Hlt eq_refl). split; reflexivity.
  - eexists _, _. split; [reflexivity|]. split; [reflexivity|].
    split; [reflexivity|]. split; [reflexivity|].
    destruct (G dbLobby "room_1" _ _ eq_refl eq_refl)
      as (db' & out & room' & Hs & Hr & Hlt & _).
    exists db', out. split; [exact Hs|].
    unfold statusOf, indexOf. rewrite Hr, (Hlt eq_refl). split; reflexivity.
  - split; [reflexivity|]. split; [reflexivity|].
    exact (proj1 (A dbSecondQuestion "room_9" eq_refl eq_refl)).
  - split; [exact dbSecondQuestion_plain|].
    assert (E : goToNextQuestion dbSecondQuestion "room_9" = Throw RoomNotFound)
      by reflexivity.
    split; [exact E|].
    exact (proj2 (O dbSecondQuestion "room_9" RoomNotFound
                    dbSecondQuestion_plain eq_refl (or_intror E))).
Defined.

(** ** Branches and bounds of the scoring *)


(** The two arithmetics agree on the sample question: ten points, thirty
    seconds, answered after fifteen, ten and forty-five. *)
Example double_agrees_on_sample :
  Double.exactly (Double.calculatePoints (Some (Double.ofZ 10)) (Some (Double.ofZ 30))
                    true (Some (Double.ofZ 15)))
  = Some (calculatePoints sampleMcq true (Some 15))
  /\ Double.exactly (Double.calculatePoints (Some (Double.ofZ 10)) (Some (Double.ofZ 30))
                       true (Some (Double.ofZ 10)))
     = Some (calculatePoints sampleMcq true (Some 10))
  /\ Double.exactly (Double.calculatePoints (Some (Double.ofZ 10)) (Some (Double.ofZ 30))
                       true (Some (Double.ofZ 45)))
     = Some (calculatePoints sampleMcq true (Some 45)).
Proof. vm_compute. auto. Qed.




(** ** The score *)

Lemma isInteger_plus x y : isInteger x -> isInteger y -> isInteger (x + y).
Proof.
  intros [a Ha] [b Hb]. exists (a + b)%Z. rewrite inject_Z_plus, Ha, Hb.
  reflexivity.
Qed.

Lemma sumPoints_integer pid l :
  (forall a, In a l -> isInteger (pointsAwarded a)) ->
  isInteger (sumPoints pid l).
Proof.
  induction l as [|a r IH]; intros H; simpl.
  - exists 0%Z. reflexivity.
  - assert (Hr : isInteger (sumPoints pid r))
      by (apply IH; intros x Hx; apply H; now right).
    destruct (String.eqb (a_participantId a) pid); [|exact Hr].
    apply isInteger_plus; [apply H; now left|exact Hr].
Qed.

Lemma sumMagnitudes_nonneg l : 0 <= sumMagnitudes l.
Proof.
  induction l as [|a r IH]; simpl; [lra|].
  pose proof (Qabs_nonneg (pointsAwarded a)). lra.
Qed.

Lemma sumPoints_magnitude pid l : Qabs (sumPoints pid l) <= sumMagnitudes l.
Proof.
  induction l as [|a r IH]; simpl; [discriminate|].
  destruct (String.eqb (a_participantId a) pid).
  - eapply Qle_trans; [apply Qabs_triangle|]. lra.
  - pose proof (Qabs_nonneg (pointsAwarded a)). lra.
Qed.

(** C6, as the code has it: in every database that the calls can build,
    for a room whose recorded points add up exactly, every participant has
    a score equal to the sum of the points awarded to the answers recorded in
    the room under the participant's id, and that score is an integer of
    magnitude at most [Number.MAX_SAFE_INTEGER]. *)
Theorem score_is_sum_of_points_awarded :
  forall db roomId room p,
    reachable db ->
    assocGet roomId (rooms db) = Some room ->
    addedExactly room ->
    In p (participants room) ->
    score p == sumPoints (p_id p) (allAnswers room)
    /\ isInteger (score p)
    /\ Qabs (score p) <= inject_Z MAX_SAFE_INTEGER.
Proof.
  intros db roomId room p R Hr [I M] Hin.
  destruct (reachable_scoresMatchAnswers db R roomId room Hr) as [_ SC].
  pose proof (SC p Hin) as E.
  split; [exact E|]. split.
  - destruct (sumPoints_integer (p_id p) (allAnswers room) I) as [n Hn].
    exists n. now rewrite E.
  - rewrite E. eapply Qle_trans; [apply sumPoints_magnitude|exact M].
Qed.

(** C6, counterexample: a participant who answers three questions without
    time limit, worth 0.1, 0.2 and 0.3 points, correctly is awarded these
    points unchanged, and the score the code accumulates for them in
    binary64 is not their sum. *)
Lemma score_is_not_the_sum_of_fractional_points :
  Double.awardedFractional = Double.fractionalPoints
  /\ exists s t,
       Double.exactly (Double.scoreAfter Double.awardedFractional) = Some s
       /\ Double.exactSum Double.awardedFractional = Some t
       /\ ~ s == t.
Proof.
  split; [reflexivity|].
  eexists _, _. split; [vm_compute; reflexivity|].
  split; [vm_compute; reflexivity|]. vm_compute. discriminate.
Qed.

Lemma roomScored_addedExactly : addedExactly roomScored.
Proof.
  split.
  - intros a Ha. vm_compute in Ha.
    destruct Ha as [<- | [<- | []]]; [exists 5%Z|exists 10%Z]; reflexivity.
  - vm_compute. discriminate.
Qed.

Lemma score_is_sum_of_points_awarded_witness :
  exists p,
    reachable dbScored
    /\ assocGet "room_1" (rooms dbScored) = Some roomScored
    /\ addedExactly roomScored
    /\ In p (participants roomScored)
    /\ score p == 15
    /\ sumPoints (p_id p) (allAnswers roomScored) == 15
    /\ isInteger (score p).
Proof.
  exists (mkParticipant "p_1" "Ann" 15 ["q1"; "q2"]).
  assert (Hin : In (mkParticipant "p_1" "Ann" 15 ["q1"; "q2"])
                   (participants roomScored)).
  { vm_compute. left. reflexivity. }
  destruct (score_is_sum_of_points_awarded dbScored "room_1" roomScored _
              dbScored_reachable dbScored_room roomScored_addedExactly Hin)
    as (E & I & _).
  split; [exact dbScored_reachable|]. split; [exact dbScored_room|].
  split; [exact roomScored_addedExactly|]. split; [exact Hin|].
  split; [reflexivity|]. split; [now rewrite <- E|exact I].
Defined.

(** C9: subscribing to a room that exists calls the observer once, at once,
    with the room as the database holds it and the quiz of that room, and
    that call comes before every push of the calls that follow; the observer
    is then in the room's set and the rooms are as they were.  Subscribing
    to a room that does not exist calls nobody. *)
Theorem onRoomUpdate_delivers_one_snapshot :
  (forall db roomId cb room,
      assocGet roomId (rooms db) = Some room ->
      snd (onRoomUpdate db roomId cb)
      = [(cb, mkSnap room (assocGet (quizId room) (quizzes db)))]
      /\ rooms (fst (onRoomUpdate db roomId cb)) = rooms db
      /\ (exists ls,
            assocGet roomId (listeners (fst (onRoomUpdate db roomId cb))) = Some ls
            /\ In cb ls)
      /\ forall ops,
           snd (runOps db (OnRoomUpdate roomId cb :: ops))
           = (cb, mkSnap room (assocGet (quizId room) (quizzes db)))
               :: snd (runOps (fst (onRoomUpdate db roomId cb)) ops))
  /\ (forall db roomId cb,
        assocGet roomId (rooms db) = None ->
        snd (onRoomUpdate db roomId cb) = []).
Proof.
  split.
  - intros db roomId cb room Hr.
    assert (E : snd (onRoomUpdate db roomId cb)
                = [(cb, mkSnap room (assocGet (quizId room) (quizzes db)))]).
    { unfold onRoomUpdate. simpl. now rewrite Hr. }
    split; [exact E|]. split; [reflexivity|]. split.
    + eexists. simpl. rewrite assocGet_set_same. split; [reflexivity|].
      apply setAdd_In.
    + intros ops. rewrite runOps_cons_snd.
      change (step db (OnRoomUpdate roomId cb)) with (onRoomUpdate db roomId cb).
      now rewrite E.
  - intros db roomId cb Hr. unfold onRoomUpdate. simpl. now rewrite Hr.
Qed.

Lemma onRoomUpdate_delivers_one_snapshot_witness :
  (assocGet "room_1" (rooms dbScored) = Some roomScored
   /\ status roomScored = running
   /\ currentQuestionIndex roomScored = 1%Z
   /\ snd (onRoomUpdate dbScored "room_1" 7%nat)
      = [(7%nat, mkSnap roomScored (Some sampleQuiz))]
   /\ map fst
        (snd (runOps dbScored
                [OnRoomUpdate "room_1" 7%nat; GoToNextQuestion "room_1"]))
      = [7%nat; 7%nat])
  /\ (assocGet "room_9" (rooms dbScored) = None
      /\ snd (onRoomUpdate dbScored "room_9" 7%nat) = []).
Proof.
  destruct onRoomUpdate_delivers_one_snapshot as (S & N).
  split.
  - split; [exact dbScored_room|]. split; [reflexivity|]. split; [reflexivity|].
    destruct (S dbScored "room_1" 7%nat roomScored dbScored_room)
      as (E & _ & _ & T).
    split.
    + rewrite E. change (quizId roomScored) with "quiz_1".
      now rewrite dbScored_quiz.
    + rewrite T. vm_compute. reflexivity.
  - assert (H : assocGet "room_9" (rooms dbScored) = None)
      by (vm_compute; reflexivity).
    split; [exact H|]. exact (N dbScored "room_9" 7%nat H).
Defined.

(** X1: [createRoom] throws 'Quiz not found' for a quiz id that is not in
    the database (and is not an inherited name) and then changes nothing;
    for a quiz that is there it stores a lobby room with index -1, no
    participant and no answer under the new id, pushes no snapshot, and
    [getRoom] of the new id returns that room with its quiz. *)
Theorem createRoom_stores_empty_lobby_room :
  forall db quizId id rnd now,
    (inheritedName quizId = false ->
     assocGet quizId (quizzes db) = None ->
     createRoom db quizId id rnd now = Throw QuizNotFound
     /\ message QuizNotFound = "Quiz not found"
     /\ fst (step db (CreateRoom quizId id rnd now)) = db)
    /\ (forall quiz,
          assocGet quizId (quizzes db) = Some quiz ->
          exists db',
            createRoom db quizId id rnd now
            = Ok (db', [],
                  mkRoom id (generateRoomCode rnd) quizId lobby (-1) [] [] now)
            /\ getRoom db' id
               = Some (mkSnap (mkRoom id (generateRoomCode rnd) quizId lobby (-1)
                                      [] [] now) (Some quiz))
            /\ quizzes db' = quizzes db).
Proof.
  intros db qz id rnd now. split.
  - intros _ H. unfold step, createRoom. rewrite H. auto.
  - intros quiz H. unfold createRoom. rewrite H.
    eexists. split.
    + f_equal. f_equal. f_equal. apply notify_no_listener.
      unfold listenersOf. simpl. now rewrite assocGet_set_same.
    + unfold getRoom, snapshotOf. simpl. rewrite assocGet_set_same. simpl.
      rewrite H. auto.
Qed.

Lemma createRoom_stores_empty_lobby_room_witness :
  (inheritedName "quiz_9" = false
   /\ assocGet "quiz_9" (quizzes dbLobby) = None
   /\ createRoom dbLobby "quiz_9" "room_2" zeroDraws 1005 = Throw QuizNotFound)
  /\ (exists quiz,
        assocGet "quiz_1" (quizzes dbLobby) = Some quiz
        /\ exists db',
             createRoom dbLobby "quiz_1" "room_2" seventhDraws 1005
             = Ok (db', [], mkRoom "room_2" "AEKPUY" "quiz_1" lobby (-1) [] [] 1005)
             /\ option_map snap_room (getRoom db' "room_2")
                = Some (mkRoom "room_2" "AEKPUY" "quiz_1" lobby (-1) [] [] 1005)).
Proof.
  split.
  - split; [reflexivity|]. split; [reflexivity|].
    exact (proj1 (proj1 (createRoom_stores_empty_lobby_room
                           dbLobby "quiz_9" "room_2" zeroDraws 1005%Z)
                        eq_refl eq_refl)).
  - eexists. split; [reflexivity|].
    destruct (proj2 (createRoom_stores_empty_lobby_room
                       dbLobby "quiz_1" "room_2" seventhDraws 1005%Z) _ eq_refl)
      as (db' & Hc & Hg & _).
    exists db'. split; [exact Hc|]. now rewrite Hg.
Defined.

(** X3, isolation of rooms: a call leaves every room other than the one it
    writes to exactly as it was; in particular [createQuiz] and
    [onRoomUpdate] change no room. *)
Theorem step_leaves_other_rooms_alone :
  forall db op roomId,
    targetOf db op <> Some roomId ->
    assocGet roomId (rooms (fst (step db op))) = assocGet roomId (rooms db).
Proof.
  intros db op rid T.
  destruct op as [id now t qs | qz id rnd now | c name pid | r | r | r
                 | r pid qid v taken now | r cb]; simpl in *.
  - reflexivity.
  - unfold createRoom. destruct (assocGet qz (quizzes db)); [|reflexivity].
    simpl. apply assocGet_set_other. congruence.
  - unfold joinRoom, getRoomByCode.
    destruct (findRoomByCode db c) as [found|]; [|reflexivity]. simpl in *.
    destruct (assocGet (room_id found) (rooms db)); [|reflexivity].
    simpl. apply assocGet_set_other. congruence.
  - unfold startQuiz. destruct (assocGet r (rooms db)); [|reflexivity].
    simpl. apply assocGet_set_other. congruence.
  - unfold goToNextQuestion.
    destruct (assocGet r (rooms db)) as [room0|]; [|reflexivity].
    destruct (assocGet (quizId room0) (quizzes db)); [|reflexivity].
    simpl. apply assocGet_set_other. congruence.
  - unfold finishQuiz. destruct (assocGet r (rooms db)); [|reflexivity].
    simpl. apply assocGet_set_other. congruence.
  - unfold submitAnswer.
    destruct (assocGet r (rooms db)) as [room0|]; [|reflexivity].
    destruct (assocGet (quizId room0) (quizzes db)) as [quiz|]; [|reflexivity].
    destruct (findQuestion qid (questions quiz)); [|reflexivity].
    simpl. apply assocGet_set_other. congruence.
  - reflexivity.
Qed.

Lemma step_leaves_other_rooms_alone_witness :
  (targetOf dbTwoRooms (JoinRoom "AEKPUY" "Cy" "p_3") = Some "room_2"
   /\ participantIdsOf dbTwoRooms "room_2" = ["p_2"]
   /\ participantIdsOf (fst (step dbTwoRooms (JoinRoom "AEKPUY" "Cy" "p_3")))
                       "room_2"
      = ["p_2"; "p_3"]
   /\ assocGet "room_1"
        (rooms (fst (step dbTwoRooms (JoinRoom "AEKPUY" "Cy" "p_3"))))
      = assocGet "room_1" (rooms dbTwoRooms)
   /\ participantIdsOf dbTwoRooms "room_1" = ["p_1"])
  /\ (statusOf dbTwoRooms "room_2" = Some lobby
      /\ statusOf (fst (step dbTwoRooms (StartQuiz "room_2"))) "room_2"
         = Some running
      /\ assocGet "room_1" (rooms (fst (step dbTwoRooms (StartQuiz "room_2"))))
         = assocGet "room_1" (rooms dbTwoRooms)).
Proof.
  split.
  - assert (T : targetOf dbTwoRooms (JoinRoom "AEKPUY" "Cy" "p_3") <> Some "room_1")
      by (vm_compute; discriminate).
    split; [vm_compute; reflexivity|]. split; [vm_compute; reflexivity|].
    split; [vm_compute; reflexivity|].
    split; [|vm_compute; reflexivity].
    exact (step_leaves_other_rooms_alone dbTwoRooms _ "room_1" T).
  - assert (T : targetOf dbTwoRooms (StartQuiz "room_2") <> Some "room_1")
      by discriminate.
    split; [vm_compute; reflexivity|]. split; [vm_compute; reflexivity|].
    exact (step_leaves_other_rooms_alone dbTwoRooms _ "room_1" T).
Defined.

(** ** Joining by code *)

Lemma findRoomByCode_some db c room :
  In room (map snd (rooms db)) -> code room = c ->
  exists found,
    findRoomByCode db c = Some found
    /\ code found = c
    /\ In found (map snd (rooms db)).
Proof.
  intros Hin Hc. unfold findRoomByCode.
  destruct (find (fun r => String.eqb (code r) c) (map snd (rooms db)))
    as [found|] eqn:E.
  - apply find_some in E. destruct E as [Hf Hcf].
    apply String.eqb_eq in Hcf. eauto.
  - exfalso. pose proof (find_none _ _ E room Hin) as N. simpl in N.
    subst c. now rewrite String.eqb_refl in N.
Qed.

Lemma room_in_values db roomId room :
  assocGet roomId (rooms db) = Some room -> In room (map snd (rooms db)).
Proof.
  intros H. apply assocGet_In_pair in H.
  exact (in_map snd _ _ H).
Qed.

(** X4: [joinRoom] with the code of a room succeeds whatever the status of
    the rooms.  In a database built by the calls, when some room has the
    code, the lookup finds a room with that code and the call writes to it:
    the new participant, with score 0 and no answered question, goes to the
    end of its participant list, nothing else of the room changes, and every
    callback of the room is called once with the room that holds the
    newcomer and with its quiz. *)
Theorem joinRoom_appends_participant :
  forall db c name participantId roomId room,
    reachablePlain db ->
    assocGet roomId (rooms db) = Some room ->
    code room = c ->
    exists found quiz db',
      findRoomByCode db c = Some found
      /\ code found = c
      /\ assocGet (room_id found) (rooms db) = Some found
      /\ assocGet (quizId found) (quizzes db) = Some quiz
      /\ let participant := mkParticipant participantId name 0 [] in
         let room' := setParticipants (participants found ++ [participant]) found in
         joinRoom db c name participantId
         = Ok (db',
               map (fun cb => (cb, mkSnap room' (Some quiz)))
                   (listenersOf db (room_id found)),
               mkJoin room' participant (Some quiz))
         /\ assocGet (room_id found) (rooms db') = Some room'
         /\ status room' = status found
         /\ currentQuestionIndex room' = currentQuestionIndex found
         /\ answers room' = answers found.
Proof.
  intros db c name pid rid room P Hr Hc.
  pose proof (reachablePlain_reachable db P) as R.
  pose proof (reachable_wellKeyed db R) as W.
  destruct (findRoomByCode_some db c room (room_in_values db rid room Hr) Hc)
    as (found & Hf & Hcf & Hin).
  pose proof (wellKeyed_value db found W Hin) as Hk.
  destruct (reachablePlain_quiz db _ found P Hk) as (quiz & Hq).
  exists found, quiz. eexists.
  split; [exact Hf|]. split; [exact Hcf|]. split; [exact Hk|].
  split; [exact Hq|]. cbv zeta.
  rewrite (joinRoom_found db c name pid found W Hf). cbv zeta.
  split.
  - f_equal. f_equal. f_equal.
    + match goal with
      | |- notify (setRooms (assocSet ?k ?r ?l) ?d) ?k = _ =>
          rewrite (notify_fan_out (setRooms (assocSet k r l) d) k r
                     (assocGet_set_same l k r))
      end.
      unfold snapshotOf, listenersOf. cbn [quizId setParticipants quizzes
        setRooms listeners]. rewrite Hq. reflexivity.
    + now rewrite Hq.
  - cbn [rooms setRooms]. rewrite assocGet_set_same. auto.
Qed.

Lemma joinRoom_appends_participant_witness :
  reachablePlain dbFinished
  /\ statusOf dbFinished "room_1" = Some finished
  /\ option_map code (assocGet "room_1" (rooms dbFinished)) = Some "AAAAAA"
  /\ exists db' out j,
       joinRoom dbFinished "AAAAAA" "Bob" "p_2" = Ok (db', out, j)
       /\ map p_id (participants (join_room j)) = ["p_1"; "p_2"]
       /\ status (join_room j) = finished.
Proof.
  split; [exact dbFinished_plain|]. split; [reflexivity|]. split; [reflexivity|].
  destruct (joinRoom_appends_participant dbFinished "AAAAAA" "Bob" "p_2"
              "room_1" _ dbFinished_plain eq_refl eq_refl)
    as (found & quiz & db' & Hf & _ & _ & _ & Hj & _).
  assert (E : found
              = mkRoom "room_1" "AAAAAA" "quiz_1" finished 0
                       [mkParticipant "p_1" "Ann" 10 ["q1"]]
                       [("q1", [mkAnswer "q1" "p_1" (JNum 2) true (Some 0) 1002 10])]
                       1001).
  { vm_compute in Hf. now injection Hf as <-. }
  subst found.
  eexists _, _, _. split; [exact Hj|]. split; reflexivity.
Defined.

(** X6: the two ways [submitAnswer] fails.  On a database built by the
    calls, for ids that are not inherited names, it throws 'Room not found'
    exactly when no room has the id and 'Question not found' exactly when
    the room is there and its quiz has no question of the given id, whoever
    the participant is; it throws nothing else, and succeeds otherwise. *)
Theorem submitAnswer_missing_room_or_question :
  forall db roomId participantId questionId value taken now,
    reachablePlain db ->
    inheritedName roomId = false ->
    inheritedName questionId = false ->
    (submitAnswer db roomId participantId questionId value taken now
     = Throw RoomNotFound
     <-> assocGet roomId (rooms db) = None)
    /\ (submitAnswer db roomId participantId questionId value taken now
        = Throw QuestionNotFound
        <-> exists room quiz,
              assocGet roomId (rooms db) = Some room
              /\ assocGet (quizId room) (quizzes db) = Some quiz
              /\ findQuestion questionId (questions quiz) = None)
    /\ (forall e,
          submitAnswer db roomId participantId questionId value taken now
          = Throw e ->
          e = RoomNotFound \/ e = QuestionNotFound)
    /\ message RoomNotFound = "Room not found"
    /\ message QuestionNotFound = "Question not found".
Proof.
  intros db rid pid qid v taken now P _ _. unfold submitAnswer.
  destruct (assocGet rid (rooms db)) as [room|] eqn:Hr.
  - destruct (reachablePlain_quiz db rid room P Hr) as (quiz & Hq). rewrite Hq.
    destruct (findQuestion qid (questions quiz)) as [question|] eqn:Hf.
    + split; [split; discriminate|]. split.
      * split; [discriminate|].
        intros (room0 & quiz0 & [= <-] & Hq0 & Hf0). congruence.
      * split; [discriminate|]. split; reflexivity.
    + split; [split; discriminate|]. split.
      * split; [|reflexivity]. intros _. exists room, quiz. auto.
      * split; [intros e [= <-]; auto|]. split; reflexivity.
  - split; [split; reflexivity|]. split.
    + split; [discriminate|]. intros (room0 & quiz0 & H & _). discriminate.
    + split; [intros e [= <-]; auto|]. split; reflexivity.
Qed.

Lemma submitAnswer_missing_room_or_question_witness :
  reachablePlain dbScored
  /\ (assocGet "room_9" (rooms dbScored) = None
      /\ submitAnswer dbScored "room_9" "p_1" "q1" (JNum 2) None 1003
         = Throw RoomNotFound)
  /\ (findQuestion "q9" (questions sampleQuiz) = None
      /\ submitAnswer dbScored "room_1" "p_7" "q9" (JNum 2) None 1003
         = Throw QuestionNotFound).
Proof.
  split; [exact dbScored_plain|]. split.
  - assert (H : assocGet "room_9" (rooms dbScored) = None)
      by (vm_compute; reflexivity).
    split; [exact H|].
    destruct (submitAnswer_missing_room_or_question
                dbScored "room_9" "p_1" "q1" (JNum 2) None 1003%Z
                dbScored_plain eq_refl eq_refl) as (A & _).
    exact (proj2 A H).
  - split; [reflexivity|].
    destruct (submitAnswer_missing_room_or_question
                dbScored "room_1" "p_7" "q9" (JNum 2) None 1003%Z
                dbScored_plain eq_refl eq_refl) as (_ & B & _).
    apply (proj2 B). exists roomScored, sampleQuiz.
    split; [exact dbScored_room|]. split; [exact dbScored_quiz|reflexivity].
Defined.

(** X12: in a database built by the calls, the quiz of every room is in
    the database and the room's index never leaves the questions: it is at
    least -1 and at most the index of the last question (0 when the quiz
    has none), and while the room is running with a quiz of at least one
    question the student page finds a question at that index. *)
Theorem index_stays_within_questions :
  forall db roomId room,
    reachablePlain db ->
    assocGet roomId (rooms db) = Some room ->
    exists quiz,
      assocGet (quizId room) (quizzes db) = Some quiz
      /\ (-1 <= currentQuestionIndex room
          <= Z.max 0 (Z.of_nat (List.length (questions quiz)) - 1))%Z
      /\ (status room = running -> questions quiz <> [] ->
          exists q, activeQuestion room quiz = Some q).
Proof.
  intros db rid room P Hr.
  destruct (reachable_indexInRange db (reachablePlain_reachable db P) rid room Hr)
    as (quiz & Hq & B1 & B2).
  exists quiz. split; [exact Hq|]. split; [exact B1|].
  intros Hrun N. specialize (B2 Hrun). unfold activeQuestion.
  destruct (Z.ltb_spec (currentQuestionIndex room) 0); [lia|].
  destruct (nth_error (questions quiz) (Z.to_nat (currentQuestionIndex room)))
    as [q|] eqn:E; [eauto|].
  apply nth_error_None in E.
  destruct (questions quiz) as [|q0 r]; [congruence|].
  change (List.length (q0 :: r)) with (S (List.length r)) in *. lia.
Qed.

Lemma index_stays_within_questions_witness :
  reachablePlain dbScored
  /\ assocGet "room_1" (rooms dbScored) = Some roomScored
  /\ status roomScored = running
  /\ currentQuestionIndex roomScored = 1%Z
  /\ exists quiz,
       assocGet (quizId roomScored) (quizzes dbScored) = Some quiz
       /\ (-1 <= currentQuestionIndex roomScored
           <= Z.max 0 (Z.of_nat (List.length (questions quiz)) - 1))%Z
       /\ (questions quiz <> [] -> exists q, activeQuestion roomScored quiz = Some q).
Proof.
  split; [exact dbScored_plain|]. split; [exact dbScored_room|].
  split; [reflexivity|]. split; [reflexivity|].
  destruct (index_stays_within_questions dbScored "room_1" roomScored
              dbScored_plain dbScored_room) as (quiz & Hq & B & A).
  exists quiz. split; [exact Hq|]. split; [exact B|]. exact (A eq_refl).
Defined.

(** X18: the join form repairs what the exact lookup refuses.  For a code
    made of upper-case letters and digits, as every generated code is,
    typing it in any letter case and with blanks before or after it makes
    [handleJoin] call [joinRoom] with the code itself and the trimmed name;
    if a room of a database built by the calls has that code, the
    participant joins a room with that code under the trimmed name. *)
Theorem handleJoin_accepts_any_case_and_blanks :
  forall db roomCode before typed after nameField participantId,
    stringForall isUpperOrDigit roomCode = true ->
    toUpperCase typed = roomCode ->
    stringForall isWhiteSpace before = true ->
    stringForall isWhiteSpace after = true ->
    handleJoin db (before ++ typed ++ after) nameField participantId
    = joinRoom db roomCode (trim nameField) participantId
    /\ (reachablePlain db ->
        forall roomId room,
          assocGet roomId (rooms db) = Some room ->
          code room = roomCode ->
          exists db' out j,
            handleJoin db (before ++ typed ++ after) nameField participantId
            = Ok (db', out, j)
            /\ p_name (join_participant j) = trim nameField
            /\ code (join_room j) = roomCode
            /\ In (p_name (join_participant j))
                  (map p_name (participants (join_room j)))).
Proof.
  intros db C pre x post nameField pid HC Hx Hpre Hpost.
  assert (E : toUpperCase (trim (pre ++ x ++ post)) = C).
  { unfold trim at 1. rewrite trimStart_space_prefix by assumption.
    change (trimEnd (trimStart (x ++ post))) with (trim (x ++ post)).
    rewrite trim_space_suffix by assumption.
    rewrite trim_no_space; [exact Hx|].
    apply case_variant_has_no_space. now rewrite Hx. }
  assert (J : handleJoin db (pre ++ x ++ post) nameField pid
              = joinRoom db C (trim nameField) pid).
  { unfold handleJoin. now rewrite E. }
  split; [exact J|].
  intros P rid room Hr Hc. rewrite J.
  pose proof (reachable_wellKeyed db (reachablePlain_reachable db P)) as W.
  destruct (findRoomByCode_some db C room (room_in_values db rid room Hr) Hc)
    as (found & Hf & Hcf & Hin).
  rewrite (joinRoom_found db C (trim nameField) pid found W Hf). cbv zeta.
  eexists _, _, _. split; [reflexivity|].
  cbn [join_participant join_room p_name code setParticipants participants].
  split; [reflexivity|]. split; [exact Hcf|].
  rewrite map_app. apply in_or_app. right. now left.
Qed.

Lemma handleJoin_accepts_any_case_and_blanks_witness :
  stringForall isUpperOrDigit "AAAAAA" = true
  /\ toUpperCase "aaAaaa" = "AAAAAA"
  /\ stringForall isWhiteSpace " " = true
  /\ reachablePlain dbLobby
  /\ option_map code (assocGet "room_1" (rooms dbLobby)) = Some "AAAAAA"
  /\ handleJoin dbLobby (" " ++ "aaAaaa" ++ " ") " Bob " "p_2"
     = joinRoom dbLobby "AAAAAA" "Bob" "p_2"
  /\ exists db' out j,
       handleJoin dbLobby (" " ++ "aaAaaa" ++ " ") " Bob " "p_2" = Ok (db', out, j)
       /\ p_name (join_participant j) = "Bob"
       /\ code (join_room j) = "AAAAAA".
Proof.
  split; [reflexivity|]. split; [reflexivity|]. split; [reflexivity|].
  split; [exact dbLobby_plain|]. split; [reflexivity|].
  destruct (handleJoin_accepts_any_case_and_blanks
              dbLobby "AAAAAA" " " "aaAaaa" " " " Bob " "p_2"
              eq_refl eq_refl eq_refl eq_refl) as [J S].
  split; [exact J|].
  destruct (S dbLobby_plain "room_1" _ eq_refl eq_refl)
    as (db' & out & j & Hj & Hn & Hc & _).
  exists db', out, j. split; [exact Hj|]. split; [exact Hn|exact Hc].
Defined.

(** ** The non-null assertions *)

(** X25: the assertions [db.quizzes[room.quizId]!] and
    [db.rooms[snap.room.id]!] never fail.  On a database built by the
    calls, for ids that are not inherited names, no [joinRoom],
    [goToNextQuestion] or [submitAnswer] ends in a [TypeError], and every
    snapshot that [getRoom] returns carries the quiz of its room and a room
    filed under its own id. *)
Theorem no_call_reads_undefined :
  forall db,
    reachablePlain db ->
    (forall c name pid, joinRoom db c name pid <> Throw TypeError)
    /\ (forall roomId,
          inheritedName roomId = false ->
          goToNextQuestion db roomId <> Throw TypeError)
    /\ (forall roomId pid qid v taken now,
          inheritedName roomId = false ->
          inheritedName qid = false ->
          submitAnswer db roomId pid qid v taken now <> Throw TypeError)
    /\ (forall roomId snap,
          inheritedName roomId = false ->
          getRoom db roomId = Some snap ->
          room_id (snap_room snap) = roomId
          /\ exists quiz, snap_quiz snap = Some quiz).
Proof.
  intros db P.
  pose proof (reachablePlain_reachable db P) as R.
  pose proof (reachable_wellKeyed db R) as W.
  pose proof (reachable_indexInRange db R) as I.
  split; [|split; [|split]].
  - intros c name pid. unfold joinRoom, getRoomByCode.
    destruct (findRoomByCode db c) as [found|] eqn:Hf; [|discriminate].
    simpl.
    assert (Hin : In found (map snd (rooms db))).
    { unfold findRoomByCode in Hf. now apply find_some in Hf. }
    rewrite (wellKeyed_value db found W Hin). discriminate.
  - intros rid _. unfold goToNextQuestion.
    destruct (assocGet rid (rooms db)) as [room|] eqn:Hr; [|discriminate].
    destruct (I rid room Hr) as (quiz & Hq & _). rewrite Hq. discriminate.
  - intros rid pid qid v taken now _ _. unfold submitAnswer.
    destruct (assocGet rid (rooms db)) as [room|] eqn:Hr; [|discriminate].
    destruct (I rid room Hr) as (quiz & Hq & _). rewrite Hq.
    destruct (findQuestion qid (questions quiz)); discriminate.
  - intros rid snap _. unfold getRoom.
    destruct (assocGet rid (rooms db)) as [room|] eqn:Hr; [|discriminate].
    intros [= <-]. simpl. split; [eapply wellKeyed_lookup; eassumption|].
    destruct (I rid room Hr) as (quiz & Hq & _). eauto.
Qed.

Lemma no_call_reads_undefined_witness :
  reachablePlain dbScored
  /\ inheritedName "room_1" = false
  /\ goToNextQuestion dbScored "room_1" <> Throw TypeError
  /\ exists snap quiz,
       getRoom dbScored "room_1" = Some snap
       /\ room_id (snap_room snap) = "room_1"
       /\ snap_quiz snap = Some quiz.
Proof.
  destruct (no_call_reads_undefined dbScored dbScored_plain)
    as (_ & G & _ & S).
  split; [exact dbScored_plain|]. split; [reflexivity|].
  split; [exact (G "room_1" eq_refl)|].
  assert (E : getRoom dbScored "room_1" = Some (snapshotOf dbScored roomScored)).
  { unfold getRoom. now rewrite dbScored_room. }
  destruct (S "room_1" _ eq_refl E) as (A & quiz & B).
  exists (snapshotOf dbScored roomScored), quiz. auto.
Defined.
